(** * Stumble Higher: scoring, moderation, recommendation and reward routines

    A shallow embedding of the stored procedures of
    [scripts/database-functions.sql] (calculate_quality_score,
    update_resource_scores, update_trending_scores,
    get_personalized_recommendations, get_random_stumble_content,
    update_user_reputation, calculate_weekly_rewards and the trigger on
    votes), of the route handlers of [/api/votes] (POST, GET, DELETE) and of
    [GET /api/discover], and of the pure functions of the migration script,
    together with the properties the specification states about them and
    further properties of the code.

    Modelling conventions.
    - A table is the list of its rows, a row a record with the columns the
      procedures and handlers read or write; a field keeps the column name
      behind the alias the procedures use for its table ([v.vote_type] is
      [v_vote_type], [r.quality_score] is [r_quality_score]).
    - DECIMAL values are exact rationals [Q] (compared with [==]). INTEGER
      values are [Z]; UUIDs are strings; a TIMESTAMP is a number of seconds
      and a DATE a number of days.
    - The weight of a vote is computed by the route handler in JavaScript
      numbers: it is a binary64 [float], computed with the kernel's
      floating-point operations, and the column keeps the number as the
      handler sent it.
    - A nullable column that a procedure tests with COALESCE or IS NULL is an
      [option]; identifier columns and columns with a default that the
      procedures read unguarded are taken as present.
    - A procedure is run statement by statement; a statement that
      PostgreSQL refuses raises, and the procedure returns nothing
      ([Raised]). The current time [NOW()] and the identifiers the database
      generates are parameters.
    - Two parts of a deployment decide what a request to the votes route
      writes, and the database records whether each is in place: the trigger
      update_scores_on_vote_change of database-functions.sql, and the row
      level security policies of database-schema.sql, under which the
      handlers, which act with the session of the signed-in user, write. A
      procedure called on its own is called by a role the policies do not
      restrict (the owner of the tables or the service role).
    - [Math.random()], [toLowerCase] and [trim] are parameters of the
      functions of the migration script. *)

From Stdlib Require Import ZArith QArith Qminmax Qround Qabs.
From Stdlib Require Import List String Bool Lia Lqa.
From Stdlib Require Import Sorted.
From Stdlib Require Import PrimFloat.
From Stdlib Require Uint63.
Import ListNotations.

#[local] Set Warnings "-inexact-float".

Local Open Scope string_scope.
Local Open Scope Z_scope.

(** ** Values of the SQL layer *)

Module Sql.

Definition uuid := string.
Definition timestamp := Z.
Definition date := Z.

Definition days (n : Z) : Z := n * 86400.

(** [d::TIMESTAMP]: midnight of the day. *)
Definition date_to_timestamp (d : date) : timestamp := days d.

Definition COALESCE {A} (x : option A) (d : A) : A :=
  match x with Some v => v | None => d end.

(** Three-valued AND. *)
Definition AND (a b : option bool) : option bool :=
  match a, b with
  | Some false, _ | _, Some false => Some false
  | Some true, Some true => Some true
  | _, _ => None
  end.

(** [a >= b] and [a <= b] on nullable decimals. *)
Definition GE (a b : option Q) : option bool :=
  match a, b with
  | Some x, Some y => Some (Qle_bool y x)
  | _, _ => None
  end.

Definition LE (a b : option Q) : option bool := GE b a.

(** A condition of IF or WHERE holds only when it is true, not when it is
    NULL. *)
Definition holds (c : option bool) : bool :=
  match c with Some true => true | _ => false end.

Definition Qsum (l : list Q) : Q := fold_right Qplus 0%Q l.

(** SUM is NULL over no rows. *)
Definition SUM (l : list Q) : option Q :=
  match l with [] => None | _ => Some (Qsum l) end.

Definition COUNT {A} (l : list A) : Z := Z.of_nat (List.length l).

Definition COUNT_DISTINCT (l : list uuid) : Z :=
  Z.of_nat (List.length (nodup string_dec l)).

(** AVG is NULL over no rows. *)
Definition AVG (l : list Q) : option Q :=
  match l with [] => None | _ => Some (Qsum l / inject_Z (COUNT l))%Q end.

(** ROUND on a decimal: to the nearest integer, ties away from zero. *)
Definition ROUND (q : Q) : Z :=
  if Qle_bool 0 q then Qfloor (q + (1 # 2)) else - Qfloor (- q + (1 # 2)).

Definition LEAST (a b : Q) : Q := Qmin a b.

(** [x = ANY(arr)] on text. *)
Definition ANY (x : string) (arr : list string) : bool :=
  existsb (String.eqb x) arr.

(** ORDER BY: a stable insertion sort; [before a b] says that [a] must
    come strictly before [b]. *)
Fixpoint insert_by {A} (before : A -> A -> bool) (x : A) (l : list A) : list A :=
  match l with
  | [] => [x]
  | y :: l' => if before y x then y :: insert_by before x l' else x :: l
  end.

Definition ORDER_BY {A} (before : A -> A -> bool) (l : list A) : list A :=
  fold_right (insert_by before) [] l.

Definition LIMIT {A} (n : Z) (l : list A) : list A := firstn (Z.to_nat n) l.

Definition Qlt_bool (a b : Q) : bool := negb (Qle_bool b a).

(** [a > b] on nullable decimals. *)
Definition GT (a b : option Q) : option bool :=
  match a, b with
  | Some x, Some y => Some (Qlt_bool y x)
  | _, _ => None
  end.

(** The errors the procedures of the repository run into: 0A000, 42804 and
    42702. *)
Inductive SqlError := feature_not_supported | datatype_mismatch | ambiguous_column.

(** What a call of a procedure gives: its result, or the error that ended
    it, with everything it had written undone. *)
Inductive Result (A : Type) :=
| Returned (a : A)
| Raised (e : SqlError).

Arguments Returned {A} a.
Arguments Raised {A} e.

End Sql.

Import Sql.

(** ** The tables (scripts/database-schema.sql) *)

Inductive VoteType := up | down.
Inductive ResourceStatus := pending | approved | rejected | hidden.
Inductive DifficultyLevel := beginner | intermediate | advanced.

Definition VoteType_eqb (a b : VoteType) : bool :=
  match a, b with up, up | down, down => true | _, _ => false end.

Definition ResourceStatus_eqb (a b : ResourceStatus) : bool :=
  match a, b with
  | pending, pending | approved, approved
  | rejected, rejected | hidden, hidden => true
  | _, _ => false
  end.

Definition DifficultyLevel_eqb (a b : DifficultyLevel) : bool :=
  match a, b with
  | beginner, beginner | intermediate, intermediate | advanced, advanced => true
  | _, _ => false
  end.

Record User := {
  u_id : uuid;
  u_reputation_score : Z;
  u_total_upvotes : Z;
  u_total_downvotes : Z;
  u_updated_at : timestamp
}.

Record Resource := {
  r_id : uuid;
  r_category : string;
  r_tags : list string;
  r_difficulty_level : option DifficultyLevel;
  r_estimated_time_minutes : option Z;
  r_submitted_by : uuid;
  r_submission_tx_hash : option string;
  r_submission_amount : Q;
  r_status : ResourceStatus;
  r_upvotes : Z;
  r_downvotes : Z;
  r_quality_score : option Q;
  r_trending_score : option Q;
  r_created_at : timestamp;
  r_updated_at : timestamp
}.

(** [weight] holds the JavaScript number the route handler computed. *)
Record Vote := {
  v_id : uuid;
  v_resource_id : uuid;
  v_user_id : uuid;
  v_vote_type : VoteType;
  v_weight : float;
  v_created_at : timestamp;
  v_updated_at : timestamp
}.

Record UserInteraction := {
  ui_user_id : option uuid;
  ui_resource_id : uuid;
  ui_interaction_type : string;
  ui_created_at : timestamp
}.

Record UserPreferences := {
  up_user_id : uuid;
  up_preferred_categories : option (list string);
  up_excluded_categories : option (list string);
  up_max_time_minutes : option Z;
  up_discovery_algorithm : string
}.

Record WeeklyReward := {
  wr_id : uuid;
  wr_week_start : date;
  wr_week_end : date;
  wr_total_pool_amount : Q;
  wr_calculation_completed_at : option timestamp
}.

Record RewardDistribution := {
  rd_weekly_reward_id : uuid;
  rd_user_id : uuid;
  rd_resource_id : uuid;
  rd_amount : Q;
  rd_rank : Z;
  rd_quality_score : option Q
}.

(** The rows of system_config the procedures read, by key; a key without a
    row is [None]. The JSON text of a value is taken as already cast to the
    type the procedure casts it to. *)
Record SystemConfig := {
  auto_approve_threshold : option Q;
  auto_hide_threshold : option Q;
  min_votes_for_auto_action : option Z;
  weekly_distribution_percentage : option Q
}.

(** The tables, and what of the deployment decides the writes of the votes
    route: [votes_trigger] says that the trigger update_scores_on_vote_change
    of database-functions.sql is installed, [row_security] that the policies
    of database-schema.sql are in force. *)
Record Database := {
  users : list User;
  resources : list Resource;
  votes : list Vote;
  user_interactions : list UserInteraction;
  user_preferences : list UserPreferences;
  weekly_rewards : list WeeklyReward;
  reward_distributions : list RewardDistribution;
  system_config : SystemConfig;
  votes_trigger : bool;
  row_security : bool
}.

(** ** Quality scorer *)

Record QualityScoreResult := {
  upvotes : Z;
  downvotes : Z;
  weighted_score : Q;
  voter_count : Z;
  should_auto_approve : option bool;
  should_auto_hide : option bool
}.

(** [LEAST((u.reputation_score * 0.1 + 1), 5.0)] *)
Definition reputation_weight (reputation_score : Z) : Q :=
  LEAST (inject_Z reputation_score * 0.1 + 1) 5.0.

(** The CASE under the SUM of calculate_quality_score. *)
Definition signed_weight (vote_type : VoteType) (reputation_score : Z) : Q :=
  match vote_type with
  | up => reputation_weight reputation_score
  | down => - reputation_weight reputation_score
  end.

(** [FROM votes v JOIN users u ON v.user_id = u.id WHERE v.resource_id = ...] *)
Definition votes_join_users (db : Database) (resource_id : uuid) : list (Vote * User) :=
  flat_map
    (fun v => map (pair v) (filter (fun u => String.eqb (v_user_id v) (u_id u)) (users db)))
    (filter (fun v => String.eqb (v_resource_id v) resource_id) (votes db)).

Definition calculate_quality_score (db : Database) (resource_id : uuid) : QualityScoreResult :=
  let cfg := system_config db in
  let auto_approve_threshold := auto_approve_threshold cfg in
  let auto_hide_threshold := auto_hide_threshold cfg in
  let min_votes_required := option_map inject_Z (min_votes_for_auto_action cfg) in
  let rows := votes_join_users db resource_id in
  let up_count := COUNT (filter (fun vu => VoteType_eqb (v_vote_type (fst vu)) up) rows) in
  let down_count := COUNT (filter (fun vu => VoteType_eqb (v_vote_type (fst vu)) down) rows) in
  let total_voters := COUNT_DISTINCT (map (fun vu => v_user_id (fst vu)) rows) in
  let calculated_score :=
    COALESCE
      (SUM (map (fun vu => signed_weight (v_vote_type (fst vu)) (u_reputation_score (snd vu))) rows))
      0%Q in
  {| upvotes := up_count;
     downvotes := down_count;
     weighted_score := calculated_score;
     voter_count := total_voters;
     should_auto_approve :=
       AND (GE (Some calculated_score) auto_approve_threshold)
           (GE (Some (inject_Z total_voters)) min_votes_required);
     should_auto_hide :=
       AND (LE (Some calculated_score) auto_hide_threshold)
           (GE (Some (inject_Z total_voters)) min_votes_required) |}.

(** [supabase.rpc('calculate_quality_score', ...)]: the data of the answer,
    the rows the procedure returns. The procedure has no statement that
    raises and its SELECT ... INTO are not STRICT, so it always returns its
    one row. *)
Definition rpc_calculate_quality_score (db : Database) (resource_id : uuid)
    : option (list QualityScoreResult) :=
  Some [calculate_quality_score db resource_id].

(** ** Resource state updater *)

(** [UPDATE t SET ... WHERE ...] *)
Definition UPDATE {A} (where_ : A -> bool) (set : A -> A) (t : list A) : list A :=
  map (fun row => if where_ row then set row else row) t.

Definition set_scores (up_ down_ : Z) (quality : Q) (now : timestamp) (r : Resource) : Resource :=
  {| r_id := r_id r; r_category := r_category r; r_tags := r_tags r;
     r_difficulty_level := r_difficulty_level r;
     r_estimated_time_minutes := r_estimated_time_minutes r;
     r_submitted_by := r_submitted_by r;
     r_submission_tx_hash := r_submission_tx_hash r;
     r_submission_amount := r_submission_amount r;
     r_status := r_status r;
     r_upvotes := up_; r_downvotes := down_; r_quality_score := Some quality;
     r_trending_score := r_trending_score r;
     r_created_at := r_created_at r; r_updated_at := now |}.

Definition set_status (s : ResourceStatus) (now : timestamp) (r : Resource) : Resource :=
  {| r_id := r_id r; r_category := r_category r; r_tags := r_tags r;
     r_difficulty_level := r_difficulty_level r;
     r_estimated_time_minutes := r_estimated_time_minutes r;
     r_submitted_by := r_submitted_by r;
     r_submission_tx_hash := r_submission_tx_hash r;
     r_submission_amount := r_submission_amount r;
     r_status := s;
     r_upvotes := r_upvotes r; r_downvotes := r_downvotes r;
     r_quality_score := r_quality_score r;
     r_trending_score := r_trending_score r;
     r_created_at := r_created_at r; r_updated_at := now |}.

Definition set_trending_score (t : Q) (now : timestamp) (r : Resource) : Resource :=
  {| r_id := r_id r; r_category := r_category r; r_tags := r_tags r;
     r_difficulty_level := r_difficulty_level r;
     r_estimated_time_minutes := r_estimated_time_minutes r;
     r_submitted_by := r_submitted_by r;
     r_submission_tx_hash := r_submission_tx_hash r;
     r_submission_amount := r_submission_amount r;
     r_status := r_status r;
     r_upvotes := r_upvotes r; r_downvotes := r_downvotes r;
     r_quality_score := r_quality_score r;
     r_trending_score := Some t;
     r_created_at := r_created_at r; r_updated_at := now |}.

Definition with_resources (db : Database) (rs : list Resource) : Database :=
  {| users := users db; resources := rs; votes := votes db;
     user_interactions := user_interactions db;
     user_preferences := user_preferences db;
     weekly_rewards := weekly_rewards db;
     reward_distributions := reward_distributions db;
     system_config := system_config db;
     votes_trigger := votes_trigger db; row_security := row_security db |}.

Definition with_votes (db : Database) (vs : list Vote) : Database :=
  {| users := users db; resources := resources db; votes := vs;
     user_interactions := user_interactions db;
     user_preferences := user_preferences db;
     weekly_rewards := weekly_rewards db;
     reward_distributions := reward_distributions db;
     system_config := system_config db;
     votes_trigger := votes_trigger db; row_security := row_security db |}.

Definition with_users (db : Database) (us : list User) : Database :=
  {| users := us; resources := resources db; votes := votes db;
     user_interactions := user_interactions db;
     user_preferences := user_preferences db;
     weekly_rewards := weekly_rewards db;
     reward_distributions := reward_distributions db;
     system_config := system_config db;
     votes_trigger := votes_trigger db; row_security := row_security db |}.

Definition has_id (resource_id : uuid) (r : Resource) : bool :=
  String.eqb (r_id r) resource_id.

(** [SELECT status INTO resource_status FROM resources WHERE id = resource_id] *)
Definition select_status (db : Database) (resource_id : uuid) : option ResourceStatus :=
  option_map r_status (find (has_id resource_id) (resources db)).

Definition update_resource_scores (db : Database) (resource_id : uuid) (now : timestamp) : Database :=
  let score_data := calculate_quality_score db resource_id in
  let resource_status := select_status db resource_id in
  let db1 :=
    with_resources db
      (UPDATE (has_id resource_id)
         (set_scores (upvotes score_data) (downvotes score_data) (weighted_score score_data) now)
         (resources db)) in
  match resource_status with
  | Some pending =>
      if holds (should_auto_approve score_data) then
        with_resources db1 (UPDATE (has_id resource_id) (set_status approved now) (resources db1))
      else if holds (should_auto_hide score_data) then
        with_resources db1 (UPDATE (has_id resource_id) (set_status hidden now) (resources db1))
      else db1
  | _ => db1
  end.

(** ** Reputation calculator and the trigger on votes *)

(** update_user_reputation. Its first statement computes the reputation
    into the variable [reputation_score]. The UPDATE of users that follows
    names [reputation_score] on the right of its assignment: that is both the
    variable and a column of users, and PL/pgSQL refuses the statement when it
    reaches it (42702). Every call ends there, and nothing is stored. *)
Definition update_user_reputation (db : Database) (target_user_id : uuid) (now : timestamp)
    : Result Database :=
  Raised ambiguous_column.

(** The row a statement on votes has inserted, updated or deleted: [NEW],
    [OLD], or both. *)
Inductive RowChange :=
| Inserted (NEW : Vote)
| Updated (OLD NEW : Vote)
| Deleted (OLD : Vote).

(** trigger_update_resource_scores, for one row. The procedures it calls
    run in the session that changed the vote; as update_user_reputation
    raises, whatever update_resource_scores wrote before it, and whichever
    rows it could reach, is undone with the statement. *)
Definition trigger_update_resource_scores (db : Database) (change : RowChange)
    (now : timestamp) : Result Database :=
  let resource_id :=
    match change with
    | Inserted NEW | Updated _ NEW => v_resource_id NEW
    | Deleted OLD => v_resource_id OLD
    end in
  let db1 := update_resource_scores db resource_id now in
  match change with
  | Inserted NEW | Updated _ NEW => update_user_reputation db1 (v_user_id NEW) now
  | Deleted OLD => update_user_reputation db1 (v_user_id OLD) now
  end.

(** A statement that has inserted, updated or deleted the rows [changes] of
    votes and left [db']. With the trigger installed
    (AFTER INSERT OR UPDATE OR DELETE ON votes FOR EACH ROW)
    trigger_update_resource_scores runs for each of the rows, and an error
    it raises undoes the statement. *)
Definition votes_statement (db' : Database) (changes : list RowChange) (now : timestamp)
    : Result Database :=
  if votes_trigger db' then
    fold_left
      (fun acc change =>
         match acc with
         | Returned db => trigger_update_resource_scores db change now
         | Raised e => Raised e
         end)
      changes (Returned db')
  else Returned db'.

(** ** Trending calculator *)

Definition recent_views (db : Database) (now : timestamp) (r : Resource) : Z :=
  COUNT (filter
           (fun ui => String.eqb (ui_resource_id ui) (r_id r)
                      && String.eqb (ui_interaction_type ui) "view"
                      && (now - days 7 <? ui_created_at ui))
           (user_interactions db)).

Definition recent_votes (db : Database) (now : timestamp) (r : Resource) : Z :=
  COUNT (filter
           (fun v => String.eqb (v_resource_id v) (r_id r)
                     && (now - days 7 <? v_created_at v))
           (votes db)).

Definition recency_bonus (now : timestamp) (created_at : timestamp) : Q :=
  if now - days 3 <? created_at then 5.0
  else if now - days 7 <? created_at then 2.0
  else if now - days 30 <? created_at then 1.0
  else 0.0.

Definition trending_score (db : Database) (now : timestamp) (r : Resource) : Q :=
  (COALESCE (r_quality_score r) 0 * 0.4 +
   COALESCE (Some (inject_Z (recent_views db now r))) 0 * 0.3 +
   COALESCE (Some (inject_Z (recent_votes db now r))) 0 * 0.2 +
   recency_bonus now (r_created_at r) * 0.1)%Q.

Definition is_approved (r : Resource) : bool := ResourceStatus_eqb (r_status r) approved.

Definition update_trending_scores (db : Database) (now : timestamp) : Database :=
  with_resources db
    (UPDATE is_approved (fun r => set_trending_score (trending_score db now r) now r)
       (resources db)).

(** ** Recommendation selector: the stored procedures *)

Record recommendation := {
  resource_id : uuid;
  relevance_score : Q
}.

Definition is_target (target_user_id : uuid) (user_id : option uuid) : bool :=
  match user_id with Some u => String.eqb u target_user_id | None => false end.

Definition is_empty {A} (l : list A) : bool :=
  match l with [] => true | _ => false end.

(** get_personalized_recommendations. Its body is one RETURN QUERY, and the
    query computes [liked_tags] as [array_agg(DISTINCT unnest(r.tags))]: a
    set-returning function inside an aggregate, which PostgreSQL refuses when
    it analyses the statement (0A000), before it reads a row. Every call ends
    there. *)
Definition get_personalized_recommendations
    (db : Database) (target_user_id : uuid) (limit_count : Z) (exclude_viewed : bool)
    (now : timestamp) : Result (list recommendation) :=
  Raised feature_not_supported.

(** get_random_stumble_content. Its body is one RETURN QUERY whose second
    column is [... + RANDOM() * 2.0 * 0.1]: RANDOM() is double precision and
    so is the sum, where the procedure declares
    [RETURNS TABLE(resource_id UUID, random_score DECIMAL)]. PostgreSQL
    refuses the result of the query (42804) on every call. *)
Definition get_random_stumble_content
    (db : Database) (limit_count : Z) (exclude_ids : list uuid)
    : Result (list (uuid * Q)) :=
  Raised datatype_mismatch.

(** [supabase.rpc(...)]: [data] is the result of the procedure, and null
    when the call ended in an error. *)
Definition rpc {A} (call : Result A) : option A :=
  match call with
  | Returned rows => Some rows
  | Raised _ => None
  end.

(** ** Recommendation selector: GET /api/discover *)

Module Discover.

Inductive Algorithm := personalized | popular | recent | random.

Record DiscoverQuery := {
  q_algorithm : Algorithm;
  q_category : option string;
  q_difficulty : option DifficultyLevel;
  q_max_time : option Z;
  q_exclude_viewed : bool;
  q_exclude_ids : list uuid;
  q_limit : Z
}.

(** A resource as the handler returns it; the personalized strategy adds
    its relevance score. *)
Record item := {
  resource : Resource;
  item_relevance_score : option Q
}.

Record Response := {
  data : list item;
  algorithm_used : Algorithm
}.

(** [if (category) query = query.eq('category', category)] and the three
    filters after it; an absent or empty argument adds no filter. *)
Definition eq_category (category : option string) (r : Resource) : bool :=
  match category with
  | Some c => if String.eqb c "" then true else String.eqb (r_category r) c
  | None => true
  end.

Definition eq_difficulty (difficulty : option DifficultyLevel) (r : Resource) : bool :=
  match difficulty with
  | Some d => match r_difficulty_level r with
              | Some d' => DifficultyLevel_eqb d' d
              | None => false
              end
  | None => true
  end.

Definition lte_time (maxTime : option Z) (r : Resource) : bool :=
  match maxTime with
  | Some m => if m =? 0 then true
              else match r_estimated_time_minutes r with
                   | Some t => t <=? m
                   | None => false
                   end
  | None => true
  end.

Definition not_in (excludeIds : list uuid) (r : Resource) : bool :=
  if is_empty excludeIds then true else negb (ANY (r_id r) excludeIds).

Definition plain (r : Resource) : item :=
  {| resource := r; item_relevance_score := None |}.

Definition score_of (i : item) : Q := COALESCE (item_relevance_score i) 0%Q.

(** [data] of the rpc is null when the procedure raised. *)
Definition getPersonalizedRecommendations
    (db : Database) (now : timestamp)
    (userId : uuid) (limit : Z) (excludeViewed : bool) (excludeIds : list uuid)
    (category : option string) (difficulty : option DifficultyLevel) (maxTime : option Z)
    : list item :=
  match rpc (get_personalized_recommendations db userId (limit * 2) excludeViewed now) with
  | None => []
  | Some recommendations =>
      if is_empty recommendations then []
      else
        let resourceIds := map resource_id recommendations in
        let resources_ :=
          filter
            (fun r => ANY (r_id r) resourceIds && is_approved r
                      && eq_category category r && eq_difficulty difficulty r
                      && lte_time maxTime r && not_in excludeIds r)
            (resources db) in
        let resourcesWithScores :=
          ORDER_BY (fun a b => Qlt_bool (score_of b) (score_of a))
            (map (fun r =>
                    {| resource := r;
                       item_relevance_score :=
                         Some (COALESCE
                                 (option_map relevance_score
                                    (find (fun rec => String.eqb (resource_id rec) (r_id r))
                                          recommendations))
                                 0%Q) |})
                 resources_) in
        firstn (Z.to_nat limit) resourcesWithScores
  end.

(** ORDER BY quality_score DESC: NULL sorts first. *)
Definition quality_desc (a b : Resource) : bool :=
  match r_quality_score a, r_quality_score b with
  | None, Some _ => true
  | Some x, Some y => Qlt_bool y x
  | _, _ => false
  end.

Definition getPopularContent
    (db : Database) (limit : Z) (excludeIds : list uuid)
    (category : option string) (difficulty : option DifficultyLevel) (maxTime : option Z)
    : list item :=
  map plain
    (LIMIT limit
       (ORDER_BY quality_desc
          (filter
             (fun r => is_approved r
                       && eq_category category r && eq_difficulty difficulty r
                       && lte_time maxTime r && not_in excludeIds r)
             (resources db)))).

Definition getRecentContent
    (db : Database) (limit : Z) (excludeIds : list uuid)
    (category : option string) (difficulty : option DifficultyLevel) (maxTime : option Z)
    : list item :=
  map plain
    (LIMIT limit
       (ORDER_BY (fun a b => r_created_at b <? r_created_at a)
          (filter
             (fun r => is_approved r
                       && holds (GE (r_quality_score r) (Some 0%Q))
                       && eq_category category r && eq_difficulty difficulty r
                       && lte_time maxTime r && not_in excludeIds r)
             (resources db)))).

(** [shuffle] is the outcome of sorting with the random comparator. *)
Definition getRandomContent
    (db : Database) (shuffle : list Resource -> list Resource)
    (limit : Z) (excludeIds : list uuid)
    (category : option string) (difficulty : option DifficultyLevel) (maxTime : option Z)
    : list item :=
  match rpc (get_random_stumble_content db (limit * 3) excludeIds) with
  | None => []
  | Some randomResults =>
      if is_empty randomResults then []
      else
        let resourceIds := map fst randomResults in
        let resources_ :=
          filter
            (fun r => ANY (r_id r) resourceIds
                      && eq_category category r && eq_difficulty difficulty r
                      && lte_time maxTime r)
            (resources db) in
        map plain (firstn (Z.to_nat limit) (shuffle resources_))
  end.

(** The handler; [userId] is the authenticated user, if any. The analytics
    event it records is not modelled. *)
Definition GET
    (db : Database) (now : timestamp) (shuffle : list Resource -> list Resource)
    (userId : option uuid) (query : DiscoverQuery) : Response :=
  let excludeIds := q_exclude_ids query in
  match q_algorithm query, userId with
  | personalized, Some userId =>
      let resources_ :=
        getPersonalizedRecommendations db now userId (q_limit query)
          (q_exclude_viewed query) excludeIds
          (q_category query) (q_difficulty query) (q_max_time query) in
      if is_empty resources_ then
        {| data := getPopularContent db (q_limit query) excludeIds
                     (q_category query) (q_difficulty query) (q_max_time query);
           algorithm_used := popular |}
      else {| data := resources_; algorithm_used := personalized |}
  | popular, _ =>
      {| data := getPopularContent db (q_limit query) excludeIds
                   (q_category query) (q_difficulty query) (q_max_time query);
         algorithm_used := popular |}
  | recent, _ =>
      {| data := getRecentContent db (q_limit query) excludeIds
                   (q_category query) (q_difficulty query) (q_max_time query);
         algorithm_used := recent |}
  | _, _ =>
      {| data := getRandomContent db shuffle (q_limit query) excludeIds
                   (q_category query) (q_difficulty query) (q_max_time query);
         algorithm_used := random |}
  end.

End Discover.

(** ** Reward distributor *)

Definition in_week (week_start_date week_end_date : date) (r : Resource) : bool :=
  (date_to_timestamp week_start_date <=? r_created_at r)
  && (r_created_at r <=? date_to_timestamp (week_end_date + 1)).

(** The resources the week's ranking is taken over. *)
Definition eligible (week_start_date week_end_date : date) (r : Resource) : bool :=
  in_week week_start_date week_end_date r
  && is_approved r
  && holds (GT (r_quality_score r) (Some 0%Q)).

(** ORDER BY r.quality_score DESC, r.created_at ASC *)
Definition rank_before (a b : Resource) : bool :=
  let qa := COALESCE (r_quality_score a) 0%Q in
  let qb := COALESCE (r_quality_score b) 0%Q in
  Qlt_bool qb qa || (Qeq_bool qa qb && (r_created_at a <? r_created_at b)).

(** ROW_NUMBER() OVER (ORDER BY ...) *)
Definition ROW_NUMBER {A} (l : list A) : list (Z * A) :=
  combine (map Z.of_nat (seq 1 (List.length l))) l.

(** The rows come out of the window in its order, so LIMIT keeps ranks 1
    to 10. *)
Definition ranked_content (db : Database) (week_start_date week_end_date : date)
    : list (Z * Resource) :=
  LIMIT 10
    (ROW_NUMBER
       (ORDER_BY rank_before
          (filter (eligible week_start_date week_end_date) (resources db)))).

Definition reward_amount (total_pool : Q) (rank : Z) : Q :=
  (if rank =? 1 then total_pool * 0.30
   else if rank =? 2 then total_pool * 0.20
   else if rank =? 3 then total_pool * 0.15
   else if rank =? 4 then total_pool * 0.10
   else if rank =? 5 then total_pool * 0.08
   else total_pool * 0.034)%Q.

Definition has_tx_hash (r : Resource) : bool :=
  match r_submission_tx_hash r with Some _ => true | None => false end.

Definition total_pool_of (db : Database) (week_start_date week_end_date : date) : option Q :=
  option_map
    (fun distribution_percentage =>
       (COALESCE
          (SUM (map r_submission_amount
                  (filter (fun r => in_week week_start_date week_end_date r && has_tx_hash r)
                          (resources db))))
          0 * (distribution_percentage / 100))%Q)
    (weekly_distribution_percentage (system_config db)).

Definition with_rewards (db : Database) (wr : list WeeklyReward) (rd : list RewardDistribution)
    : Database :=
  {| users := users db; resources := resources db; votes := votes db;
     user_interactions := user_interactions db;
     user_preferences := user_preferences db;
     weekly_rewards := wr;
     reward_distributions := rd;
     system_config := system_config db;
     votes_trigger := votes_trigger db; row_security := row_security db |}.

Definition set_calculation_completed_at (now : timestamp) (w : WeeklyReward) : WeeklyReward :=
  {| wr_id := wr_id w; wr_week_start := wr_week_start w; wr_week_end := wr_week_end w;
     wr_total_pool_amount := wr_total_pool_amount w;
     wr_calculation_completed_at := Some now |}.

(** [reward_id] is the identifier the insert generates. The procedure fails
    ([None]) when the pool is NULL, which total_pool_amount does not accept,
    or when the identifier is taken. *)
Definition calculate_weekly_rewards
    (db : Database) (week_start_date : date) (reward_id : uuid) (now : timestamp)
    : option (uuid * Database) :=
  let week_end_date := week_start_date + 6 in
  match total_pool_of db week_start_date week_end_date with
  | None => None
  | Some total_pool =>
      if existsb (fun w => String.eqb (wr_id w) reward_id) (weekly_rewards db) then None
      else
      let inserted :=
        (weekly_rewards db ++
         [{| wr_id := reward_id; wr_week_start := week_start_date;
             wr_week_end := week_end_date; wr_total_pool_amount := total_pool;
             wr_calculation_completed_at := None |}])%list in
      let reward_amounts :=
        map (fun row =>
               {| rd_weekly_reward_id := reward_id;
                  rd_user_id := r_submitted_by (snd row);
                  rd_resource_id := r_id (snd row);
                  rd_amount := reward_amount total_pool (fst row);
                  rd_rank := fst row;
                  rd_quality_score := r_quality_score (snd row) |})
            (ranked_content db week_start_date week_end_date) in
      Some (reward_id,
            with_rewards db
              (UPDATE (fun w => String.eqb (wr_id w) reward_id)
                      (set_calculation_completed_at now) inserted)
              (reward_distributions db ++ reward_amounts)%list)
  end.

(** ** Voting: POST and DELETE /api/votes *)

Module VotesRoute.

Inductive Action := created | updated | removed.

Inductive Response :=
| Json (action : Action) (vote_type : option VoteType)
| Error (status : Z) (error : string).

(** [.single()]: the row when the query has exactly one, no data
    otherwise. *)
Definition single {A} (rows : list A) : option A :=
  match rows with [x] => Some x | _ => None end.

(** The JavaScript number of an INTEGER of the database. *)
Definition Number (n : Z) : float :=
  if n <? 0 then PrimFloat.opp (PrimFloat.of_uint63 (Uint63.of_Z (- n)))
  else PrimFloat.of_uint63 (Uint63.of_Z n).

(** [Math.min(a, b)] on numbers that are not NaN. *)
Definition Math_min (a b : float) : float :=
  if PrimFloat.ltb b a then b else a.

(** [Math.min((reputationScore * 0.1) + 1, 5.0)], in binary64. *)
Definition voteWeight (reputationScore : Z) : float :=
  Math_min (Number reputationScore * 0.1 + 1) 5.0.

Definition same_pair (resource_id user_id : uuid) (v : Vote) : bool :=
  String.eqb (v_resource_id v) resource_id && String.eqb (v_user_id v) user_id.

Definition has_vote_id (id : uuid) (v : Vote) : bool := String.eqb (v_id v) id.

Definition set_vote (vote_type : VoteType) (weight : float) (now : timestamp) (v : Vote) : Vote :=
  {| v_id := v_id v; v_resource_id := v_resource_id v; v_user_id := v_user_id v;
     v_vote_type := vote_type; v_weight := weight;
     v_created_at := v_created_at v; v_updated_at := now |}.

(** The handlers act with the session of the signed-in user. With the
    policies in force an UPDATE or DELETE of votes reaches the rows of that
    user only ("Users can update own votes", "Users can delete own votes"),
    and an UPDATE of resources the rows the user submitted ("Users can update
    own submissions"). *)
Definition own_vote (db : Database) (user_id : uuid) (v : Vote) : bool :=
  negb (row_security db) || String.eqb (v_user_id v) user_id.

Definition own_resource (db : Database) (user_id : uuid) (r : Resource) : bool :=
  negb (row_security db) || String.eqb (r_submitted_by r) user_id.

(** The rows [.eq('id', id)] reaches in an UPDATE or DELETE of votes, and
    [.eq('id', resource_id)] in an UPDATE of resources. *)
Definition reaches_vote (db : Database) (user_id id : uuid) (v : Vote) : bool :=
  has_vote_id id v && own_vote db user_id v.

Definition reaches_resource (db : Database) (user_id resource_id : uuid) (r : Resource) : bool :=
  has_id resource_id r && own_resource db user_id r.

(** What the votes table accepts on insert: its primary key, UNIQUE
    (resource_id, user_id), and the reference to users. *)
Definition insert_allowed (db : Database) (v : Vote) : bool :=
  negb (existsb (has_vote_id (v_id v)) (votes db))
  && negb (existsb (same_pair (v_resource_id v) (v_user_id v)) (votes db))
  && existsb (fun u => String.eqb (u_id u) (v_user_id v)) (users db).

(** The insert, update or delete of the handler: the database after it and
    the outcome, or the error the handler answers with. A statement that the
    database refuses writes nothing. *)
Definition write_vote
    (db : Database) (user_id resource_id : uuid) (vote_type : VoteType)
    (voteWeight : float) (new_id : uuid) (now : timestamp)
    : Database * (Action * option VoteType + string) :=
  let existingVote := single (filter (same_pair resource_id user_id) (votes db)) in
  match existingVote with
  | Some existingVote =>
      let reached := reaches_vote db user_id (v_id existingVote) in
      if VoteType_eqb (v_vote_type existingVote) vote_type then
        match votes_statement
                (with_votes db (filter (fun v => negb (reached v)) (votes db)))
                (map Deleted (filter reached (votes db))) now with
        | Raised _ => (db, inr "Failed to remove vote")
        | Returned db' => (db', inl (removed, None))
        end
      else
        match votes_statement
                (with_votes db
                   (UPDATE reached (set_vote vote_type voteWeight now) (votes db)))
                (map (fun v => Updated v (set_vote vote_type voteWeight now v))
                     (filter reached (votes db))) now with
        | Raised _ => (db, inr "Failed to update vote")
        | Returned db' =>
            match single (filter reached (votes db')) with
            | Some _ => (db', inl (updated, Some vote_type))
            | None => (db', inr "Failed to update vote")
            end
        end
  | None =>
      let newVote :=
        {| v_id := new_id; v_resource_id := resource_id; v_user_id := user_id;
           v_vote_type := vote_type; v_weight := voteWeight;
           v_created_at := now; v_updated_at := now |} in
      if insert_allowed db newVote then
        match votes_statement (with_votes db (votes db ++ [newVote])%list)
                              [Inserted newVote] now with
        | Raised _ => (db, inr "Failed to create vote")
        | Returned db' => (db', inl (created, Some vote_type))
        end
      else (db, inr "Failed to create vote")
  end.

(** The handler rewrites the scores itself after the vote is written, as the
    signed-in user; [status] is the status it read before the vote. *)
Definition rescore (db : Database) (user_id resource_id : uuid) (status : ResourceStatus)
    (now : timestamp) : Database :=
  match rpc_calculate_quality_score db resource_id with
  | Some (scoreResult :: _) =>
      let reached := reaches_resource db user_id resource_id in
      let db1 :=
        with_resources db
          (UPDATE reached
             (set_scores (upvotes scoreResult) (downvotes scoreResult)
                         (weighted_score scoreResult) now)
             (resources db)) in
      if ResourceStatus_eqb status pending then
        if holds (should_auto_approve scoreResult) then
          with_resources db1 (UPDATE reached (set_status approved now) (resources db1))
        else if holds (should_auto_hide scoreResult) then
          with_resources db1 (UPDATE reached (set_status hidden now) (resources db1))
        else db1
      else db1
  | _ => db
  end.

(** [user] is the authenticated user, if any; [new_id] the identifier an
    insert generates. After a vote is created the handler builds the update
    of the voter's counter with [supabase.raw], which the client does not
    have: the call throws before anything is sent, and the handler's catch
    answers 500. The analytics events are not modelled. *)
Definition POST
    (db : Database) (user : option uuid) (resource_id : uuid) (vote_type : VoteType)
    (new_id : uuid) (now : timestamp) : Response * Database :=
  match user with
  | None => (Error 401 "Authentication required", db)
  | Some user_id =>
      match single (filter (has_id resource_id) (resources db)) with
      | None => (Error 404 "Resource not found", db)
      | Some resource =>
          if negb (ResourceStatus_eqb (r_status resource) approved
                   || ResourceStatus_eqb (r_status resource) pending) then
            (Error 400 "Cannot vote on this resource", db)
          else if String.eqb (r_submitted_by resource) user_id then
            (Error 400 "Cannot vote on your own submission", db)
          else
            let userProfile :=
              single (filter (fun u => String.eqb (u_id u) user_id) (users db)) in
            let reputationScore :=
              match userProfile with Some u => u_reputation_score u | None => 0 end in
            match write_vote db user_id resource_id vote_type
                    (voteWeight reputationScore) new_id now with
            | (db1, inr error) => (Error 500 error, db1)
            | (db1, inl (action, result_type)) =>
                let db2 := rescore db1 user_id resource_id (r_status resource) now in
                match action with
                | created => (Error 500 "Internal server error", db2)
                | _ => (Json action result_type, db2)
                end
            end
      end
  end.

(** DELETE /api/votes. After a vote is deleted the handler builds the update
    of the user's counter with [supabase.raw] and throws as POST does, so
    that no request is answered with success. *)
Definition DELETE
    (db : Database) (user : option uuid) (resource_id : uuid) (now : timestamp)
    : (Z * string) * Database :=
  match user with
  | None => ((401, "Authentication required"), db)
  | Some user_id =>
      let deleted := filter (same_pair resource_id user_id) (votes db) in
      match votes_statement
              (with_votes db
                 (filter (fun v => negb (same_pair resource_id user_id v)) (votes db)))
              (map Deleted deleted) now with
      | Raised _ => ((500, "Failed to delete vote"), db)
      | Returned db1 =>
          match single deleted with
          | None => ((404, "No vote found to delete"), db1)
          | Some deletedVote => ((500, "Internal server error"), db1)
          end
      end
  end.

(** The requests that write the votes table, and a run of them. *)
Inductive Request :=
| Cast (user : option uuid) (resource_id : uuid) (vote_type : VoteType)
       (new_id : uuid) (now : timestamp)
| Remove (user : option uuid) (resource_id : uuid) (now : timestamp).

Definition handle (db : Database) (req : Request) : Database :=
  match req with
  | Cast user resource_id vote_type new_id now =>
      snd (POST db user resource_id vote_type new_id now)
  | Remove user resource_id now => snd (DELETE db user resource_id now)
  end.

Definition run (db : Database) (reqs : list Request) : Database :=
  fold_left handle reqs db.

(** The votes of one user on one resource. *)
Definition votes_of (db : Database) (resource_id user_id : uuid) : list Vote :=
  filter (same_pair resource_id user_id) (votes db).

(** At most one vote for a user and a resource. *)
Definition unique_pairs (vs : list Vote) : Prop :=
  forall resource_id user_id,
    (List.length (filter (same_pair resource_id user_id) vs) <= 1)%nat.

Definition at_most_one_vote (db : Database) : Prop := unique_pairs (votes db).

End VotesRoute.

(** ** What the specification says of the scorer *)

(** The votes a resource has, and the reputation of the voter of each. *)
Definition votes_on (db : Database) (resource_id : uuid) : list Vote :=
  filter (fun v => String.eqb (v_resource_id v) resource_id) (votes db).

Definition voter_reputation (db : Database) (v : Vote) : Z :=
  match find (fun u => String.eqb (v_user_id v) (u_id u)) (users db) with
  | Some u => u_reputation_score u
  | None => 0
  end.

(** The contribution the specification gives a vote. *)
Definition contribution (db : Database) (v : Vote) : Q :=
  match v_vote_type v with
  | up => Qmin (inject_Z (voter_reputation db v) * 0.1 + 1) 5.0
  | down => - Qmin (inject_Z (voter_reputation db v) * 0.1 + 1) 5.0
  end.

(** Every vote is cast by exactly one row of users: votes.user_id
    references users.id, which is the primary key. *)
Definition voters_are_users (db : Database) : bool :=
  forallb
    (fun v => Nat.eqb (List.length (filter (fun u => String.eqb (v_user_id v) (u_id u)) (users db))) 1)
    (votes db).

(** ** What the specification says of the state updater *)

(** What can happen to the database without an administrator: a
    recomputation of a resource's scores, a request to the votes route, which
    recomputes them itself, or any change of the votes and of the users'
    reputations. *)
Inductive Event :=
| Rescore (resource_id : uuid) (now : timestamp)
| Request (req : VotesRoute.Request)
| VotesChange (vs : list Vote) (us : list User).

Definition apply_event (db : Database) (e : Event) : Database :=
  match e with
  | Rescore resource_id now => update_resource_scores db resource_id now
  | Request req => VotesRoute.handle db req
  | VotesChange vs us => with_users (with_votes db vs) us
  end.

Definition replay (db : Database) (es : list Event) : Database :=
  fold_left apply_event es db.

(** [r'] is [r] with nothing but upvotes, downvotes, quality_score and
    updated_at rewritten. *)
Definition scores_rewritten (r r' : Resource) : Prop :=
  exists up_ down_ quality now, r' = set_scores up_ down_ quality now r.

(** The row update_resource_scores leaves in place of a row [r] that has
    the identifier it was called with. *)
Definition rescored_row (db : Database) (resource_id : uuid) (now : timestamp)
    (r : Resource) : Resource :=
  let score_data := calculate_quality_score db resource_id in
  let r1 :=
    set_scores (upvotes score_data) (downvotes score_data) (weighted_score score_data) now r in
  match select_status db resource_id with
  | Some pending =>
      if holds (should_auto_approve score_data) then set_status approved now r1
      else if holds (should_auto_hide score_data) then set_status hidden now r1
      else r1
  | _ => r1
  end.

Definition config_key_missing (cfg : SystemConfig) : bool :=
  match auto_approve_threshold cfg, auto_hide_threshold cfg, min_votes_for_auto_action cfg with
  | Some _, Some _, Some _ => false
  | _, _, _ => true
  end.

(** ** What the specification says of the trending calculator *)

(** The age of a row at [now], and the counts and the bonus in the
    specification's words. *)
Definition age (now created_at : timestamp) : Z := now - created_at.

Definition views_in_trailing_week (db : Database) (now : timestamp) (r : Resource) : Z :=
  Z.of_nat
    (List.length
       (filter (fun ui => String.eqb (ui_resource_id ui) (r_id r)
                          && String.eqb (ui_interaction_type ui) "view"
                          && (age now (ui_created_at ui) <? days 7))
               (user_interactions db))).

Definition votes_in_trailing_week (db : Database) (now : timestamp) (r : Resource) : Z :=
  Z.of_nat
    (List.length
       (filter (fun v => String.eqb (v_resource_id v) (r_id r)
                         && (age now (v_created_at v) <? days 7))
               (votes db))).

(** The bonus as the specification states it: 5.0 if created at most 3 days
    ago, 2.0 if at most 7, 1.0 if at most 30, else 0.0. *)
Definition stated_bonus (a : Z) : Q :=
  if a <=? days 3 then 5.0
  else if a <=? days 7 then 2.0
  else if a <=? days 30 then 1.0
  else 0.0.

Definition stated_trending_score (db : Database) (now : timestamp) (r : Resource) : Q :=
  (0.4 * COALESCE (r_quality_score r) 0
   + 0.3 * inject_Z (views_in_trailing_week db now r)
   + 0.2 * inject_Z (votes_in_trailing_week db now r)
   + 0.1 * stated_bonus (age now (r_created_at r)))%Q.

(** The bonus with the ages taken strictly: 5.0 under 3 days, 2.0 under 7,
    1.0 under 30, and the score with that bonus. *)
Definition bonus_under (a : Z) : Q :=
  if a <? days 3 then 5.0
  else if a <? days 7 then 2.0
  else if a <? days 30 then 1.0
  else 0.0.

(** [r'] is [r] with trending_score [t] and updated_at [now], every other
    column as it was. *)
Definition trending_rewritten (t : Q) (now : timestamp) (r r' : Resource) : Prop :=
  r_trending_score r' = Some t /\ r_updated_at r' = now
  /\ r_id r' = r_id r /\ r_category r' = r_category r /\ r_tags r' = r_tags r
  /\ r_difficulty_level r' = r_difficulty_level r
  /\ r_estimated_time_minutes r' = r_estimated_time_minutes r
  /\ r_submitted_by r' = r_submitted_by r
  /\ r_submission_tx_hash r' = r_submission_tx_hash r
  /\ r_submission_amount r' = r_submission_amount r
  /\ r_status r' = r_status r
  /\ r_upvotes r' = r_upvotes r /\ r_downvotes r' = r_downvotes r
  /\ r_quality_score r' = r_quality_score r
  /\ r_created_at r' = r_created_at r.

Definition amended_trending_score (db : Database) (now : timestamp) (r : Resource) : Q :=
  (0.4 * COALESCE (r_quality_score r) 0
   + 0.3 * inject_Z (views_in_trailing_week db now r)
   + 0.2 * inject_Z (votes_in_trailing_week db now r)
   + 0.1 * bonus_under (age now (r_created_at r)))%Q.

(** ** What the specification says of the configuration *)

Definition with_config (db : Database) (cfg : SystemConfig) : Database :=
  {| users := users db; resources := resources db; votes := votes db;
     user_interactions := user_interactions db;
     user_preferences := user_preferences db;
     weekly_rewards := weekly_rewards db;
     reward_distributions := reward_distributions db;
     system_config := cfg;
     votes_trigger := votes_trigger db; row_security := row_security db |}.

(** ** What the specification says of the reward distributor *)

(** The amounts of ranks 1 to 10. *)
Definition stated_amounts (pool : Q) : list Q :=
  [pool * 0.30; pool * 0.20; pool * 0.15; pool * 0.10; pool * 0.08;
   pool * 0.034; pool * 0.034; pool * 0.034; pool * 0.034; pool * 0.034]%Q.

Definition eligible_resources (db : Database) (week_start_date : date) : list Resource :=
  filter (eligible week_start_date (week_start_date + 6)) (resources db).

(** The reward_distributions rows a run has added. *)
Definition added_distributions (db db' : Database) : list RewardDistribution :=
  skipn (List.length (reward_distributions db)) (reward_distributions db').

(** The weekly_rewards rows of a week. *)
Definition rewards_of_week (db : Database) (week_start_date : date) : list WeeklyReward :=
  filter (fun w => wr_week_start w =? week_start_date) (weekly_rewards db).

Definition fresh_reward_id (db : Database) (reward_id : uuid) : bool :=
  negb (existsb (fun w => String.eqb (wr_id w) reward_id) (weekly_rewards db)).

(** ** What the specification says of discovery *)

Definition with_algorithm (query : Discover.DiscoverQuery) (a : Discover.Algorithm)
    : Discover.DiscoverQuery :=
  {| Discover.q_algorithm := a;
     Discover.q_category := Discover.q_category query;
     Discover.q_difficulty := Discover.q_difficulty query;
     Discover.q_max_time := Discover.q_max_time query;
     Discover.q_exclude_viewed := Discover.q_exclude_viewed query;
     Discover.q_exclude_ids := Discover.q_exclude_ids query;
     Discover.q_limit := Discover.q_limit query |}.

(** The personalized strategy on the arguments of a query. *)
Definition personalized_results (db : Database) (now : timestamp) (userId : uuid)
    (query : Discover.DiscoverQuery) : list Discover.item :=
  Discover.getPersonalizedRecommendations db now userId (Discover.q_limit query)
    (Discover.q_exclude_viewed query) (Discover.q_exclude_ids query)
    (Discover.q_category query) (Discover.q_difficulty query) (Discover.q_max_time query).

(** A user without votes and without interactions. *)
Definition no_history (db : Database) (userId : uuid) : bool :=
  is_empty (filter (fun v => String.eqb (v_user_id v) userId) (votes db))
  && is_empty (filter (fun ui => is_target userId (ui_user_id ui)) (user_interactions db)).

(** ** What the specification says of voting *)

(** The reputation the handler reads for the voter. *)
Definition current_reputation (db : Database) (user_id : uuid) : Z :=
  match VotesRoute.single (filter (fun u => String.eqb (u_id u) user_id) (users db)) with
  | Some u => u_reputation_score u
  | None => 0
  end.

(** ** Example data *)

Module Examples.

Definition a_user (id : uuid) (reputation_score : Z) : User :=
  {| u_id := id; u_reputation_score := reputation_score;
     u_total_upvotes := 0; u_total_downvotes := 0; u_updated_at := 0 |}.

Definition a_resource (id submitted_by : uuid) (status : ResourceStatus)
    (quality_score trending_score : Q) (created_at : timestamp) : Resource :=
  {| r_id := id; r_category := "articles"; r_tags := [];
     r_difficulty_level := Some intermediate;
     r_estimated_time_minutes := Some 10;
     r_submitted_by := submitted_by;
     r_submission_tx_hash := Some "0xabc";
     r_submission_amount := 1000;
     r_status := status; r_upvotes := 0; r_downvotes := 0;
     r_quality_score := Some quality_score;
     r_trending_score := Some trending_score;
     r_created_at := created_at; r_updated_at := created_at |}.

Definition a_vote (id resource_id user_id : uuid) (vote_type : VoteType) (weight : float)
    : Vote :=
  {| v_id := id; v_resource_id := resource_id; v_user_id := user_id;
     v_vote_type := vote_type; v_weight := weight;
     v_created_at := 0; v_updated_at := 0 |}.

(** The configuration database-schema.sql inserts. *)
Definition default_config : SystemConfig :=
  {| auto_approve_threshold := Some 10%Q;
     auto_hide_threshold := Some (-5)%Q;
     min_votes_for_auto_action := Some 3;
     weekly_distribution_percentage := Some 80%Q |}.

Definition no_config : SystemConfig :=
  {| auto_approve_threshold := None;
     auto_hide_threshold := None;
     min_votes_for_auto_action := None;
     weekly_distribution_percentage := None |}.

(** A database of bare tables: neither the trigger on votes nor the
    policies are in place. *)
Definition a_database (cfg : SystemConfig) (us : list User) (rs : list Resource)
    (vs : list Vote) : Database :=
  {| users := us; resources := rs; votes := vs;
     user_interactions := []; user_preferences := [];
     weekly_rewards := []; reward_distributions := [];
     system_config := cfg;
     votes_trigger := false; row_security := false |}.

(** The same tables in a deployment with the trigger, with the policies, or
    with both as the repository has them. *)
Definition deployed (trigger policies : bool) (db : Database) : Database :=
  {| users := users db; resources := resources db; votes := votes db;
     user_interactions := user_interactions db;
     user_preferences := user_preferences db;
     weekly_rewards := weekly_rewards db;
     reward_distributions := reward_distributions db;
     system_config := system_config db;
     votes_trigger := trigger; row_security := policies |}.

Definition voters : list User :=
  [a_user "author" 0; a_user "u0" 0; a_user "u20" 20; a_user "u50" 50; a_user "u10" 10].

(** The scenario of the specification: three up votes from reputations 0,
    20 and 50 on a pending resource, then a fourth from reputation 10. *)
Definition three_votes : list Vote :=
  [a_vote "v1" "R" "u0" up 1; a_vote "v2" "R" "u20" up 3; a_vote "v3" "R" "u50" up 5].

Definition scenario3 : Database :=
  a_database default_config voters [a_resource "R" "author" pending 0 0 0] three_votes.

Definition scenario4 : Database :=
  a_database default_config voters [a_resource "R" "author" pending 0 0 0]
    (three_votes ++ [a_vote "v4" "R" "u10" up 2])%list.

(** Thresholds under which a resource without votes is both approved and
    hidden by the scorer. *)
Definition crossed_config : SystemConfig :=
  {| auto_approve_threshold := Some (-1)%Q;
     auto_hide_threshold := Some 1%Q;
     min_votes_for_auto_action := Some 0;
     weekly_distribution_percentage := Some 80%Q |}.

Definition crossed : Database :=
  a_database crossed_config voters [a_resource "R" "author" pending 0 0 0] [].

(** The scenario of the specification after the fourth vote, without any
    configuration. *)
Definition unconfigured : Database :=
  a_database no_config voters [a_resource "R" "author" pending 0 0 0]
    (three_votes ++ [a_vote "v4" "R" "u10" up 2])%list.

Definition approved_R : Database :=
  a_database default_config voters [a_resource "R" "author" approved 11 0 0] three_votes.

(** A user with an up-voted, viewed resource and no row in
    user_preferences. *)
Definition no_preferences : Database :=
  {| users := voters;
     resources := [a_resource "R" "author" approved 11 4 0;
                   a_resource "S" "author" approved 2 1 0];
     votes := [a_vote "v1" "R" "u20" up 3];
     user_interactions :=
       [{| ui_user_id := Some "u20"; ui_resource_id := "R";
           ui_interaction_type := "favorite"; ui_created_at := 50 |}];
     user_preferences := [];
     weekly_rewards := []; reward_distributions := [];
     system_config := default_config;
     votes_trigger := false; row_security := false |}.

(** Ten approved resources submitted and paid for in the week of day 0,
    with quality scores 10 down to 1. *)
Definition ten_resources : list Resource :=
  [a_resource "r1" "author" approved 10 0 1000; a_resource "r2" "author" approved 9 0 2000;
   a_resource "r3" "author" approved 8 0 3000; a_resource "r4" "author" approved 7 0 4000;
   a_resource "r5" "author" approved 6 0 5000; a_resource "r6" "author" approved 5 0 6000;
   a_resource "r7" "author" approved 4 0 7000; a_resource "r8" "author" approved 3 0 8000;
   a_resource "r9" "author" approved 2 0 9000; a_resource "r10" "author" approved 1 0 10000].

Definition a_week : Database := a_database default_config voters ten_resources [].

(** A user who has only signed up: the default row of user_preferences, no
    vote, no interaction. Resource A has the better quality score, resource
    B the better trending score. *)
Definition newcomer : Database :=
  {| users := a_user "newcomer" 0 :: voters;
     resources := [a_resource "A" "author" approved 2 0 0;
                   a_resource "B" "author" approved 1 10 0];
     votes := [];
     user_interactions := [];
     user_preferences :=
       [{| up_user_id := "newcomer";
           up_preferred_categories := Some [];
           up_excluded_categories := Some [];
           up_max_time_minutes := Some 60;
           up_discovery_algorithm := "balanced" |}];
     weekly_rewards := []; reward_distributions := [];
     system_config := default_config;
     votes_trigger := false; row_security := false |}.

Definition one_personalized : Discover.DiscoverQuery :=
  {| Discover.q_algorithm := Discover.personalized;
     Discover.q_category := None;
     Discover.q_difficulty := None;
     Discover.q_max_time := None;
     Discover.q_exclude_viewed := true;
     Discover.q_exclude_ids := [];
     Discover.q_limit := 1 |}.

Definition no_shuffle (l : list Resource) : list Resource := l.


(** An approved resource nobody has voted on. *)
Definition unvoted : Database :=
  a_database default_config voters [a_resource "R" "author" approved 0 0 0] [].

(** A pending resource with two down votes, of weights 3 and 5: one more
    voter brings the count to the three that a verdict needs. *)
Definition contested : Database :=
  a_database default_config voters [a_resource "R" "author" pending (-8) 0 0]
    [a_vote "v1" "R" "u20" down 3; a_vote "v2" "R" "u50" down 5].


(** The user of reputation 20 casts an up vote on the unvoted resource, then
    the same again, or a down vote. *)
Definition after_up : Database :=
  snd (VotesRoute.POST unvoted (Some "u20") "R" up "v1" 10).


Definition after_up_down : Database :=
  snd (VotesRoute.POST after_up (Some "u20") "R" down "v3" 30).

End Examples.

(** * Further definitions

    What the properties beyond the specification's are stated with:
    constraints of the schema as decidable predicates, and the procedures
    and handlers the specification's claims do not reach. *)

(** ** Constraints of the schema *)

(** UNIQUE (resource_id, user_id) on votes. *)
Definition one_vote_per_pair (db : Database) : bool :=
  forallb
    (fun v => Nat.eqb (List.length (VotesRoute.votes_of db (v_resource_id v) (v_user_id v))) 1)
    (votes db).

(** The primary key of resources. *)
Definition resources_have_distinct_ids (db : Database) : bool :=
  forallb
    (fun r => Nat.eqb (List.length (filter (has_id (r_id r)) (resources db))) 1)
    (resources db).

(** The primary key of votes. *)
Definition votes_have_distinct_ids (db : Database) : bool :=
  forallb
    (fun v => Nat.eqb (List.length (filter (VotesRoute.has_vote_id (v_id v)) (votes db))) 1)
    (votes db).

(** No reputation is negative. *)
Definition reputations_nonnegative (db : Database) : bool :=
  forallb (fun u => 0 <=? u_reputation_score u) (users db).

(** The transitions of a resource's status that need no administrator. *)
Definition automatic_transition (s s' : ResourceStatus) : Prop :=
  s' = s \/ (s = pending /\ (s' = approved \/ s' = hidden)).

(** ** GET /api/votes *)

Module VotesQuery.

(** The vote of one user on one resource, as the first branch selects it:
    vote_type, weight and created_at of the row [.single()] finds. *)
Record VoteData := {
  vote_type : VoteType;
  weight : float;
  created_at : timestamp
}.

Definition vote_data (v : Vote) : VoteData :=
  {| vote_type := v_vote_type v; weight := v_weight v; created_at := v_created_at v |}.

(** The summary of a resource: the scorer's row and the ten latest votes. *)
Record Summary := {
  s_upvotes : Z;
  s_downvotes : Z;
  s_weighted_score : Q;
  s_voter_count : Z;
  s_should_auto_approve : option bool;
  s_should_auto_hide : option bool;
  recent_voters : list VoteData
}.

(** The answers of the handler: the vote of a pair, the summary of a
    resource (or the four zero counts when the scorer gives no row), the
    fifty latest votes of a user, or the refusal of a query without
    parameters. The users and resources joined to the listed votes are not
    modelled. *)
Inductive Answer :=
| OneVote (data : option VoteData)
| OfResource (data : Summary)
| Counts (upvotes downvotes : Z) (weighted_score : Q) (voter_count : Z)
| OfUser (data : list VoteData)
| BadRequest (error : string).

Definition latest_first (a b : Vote) : bool := v_created_at b <? v_created_at a.

(** [query.resource_id] and [query.user_id] are the optional parameters of
    the parsed query; the handler tests them for truth, so that an empty
    string counts as absent. *)
Definition given (x : option uuid) : option uuid :=
  match x with
  | Some s => if String.eqb s "" then None else Some s
  | None => None
  end.

Definition GET (db : Database) (resource_id user_id : option uuid) : Answer :=
  match given resource_id, given user_id with
  | Some rid, Some uid =>
      OneVote (option_map vote_data (VotesRoute.single (VotesRoute.votes_of db rid uid)))
  | Some rid, None =>
      match rpc_calculate_quality_score db rid with
      | Some (scoreResult :: _) =>
          OfResource
            {| s_upvotes := upvotes scoreResult;
               s_downvotes := downvotes scoreResult;
               s_weighted_score := weighted_score scoreResult;
               s_voter_count := voter_count scoreResult;
               s_should_auto_approve := should_auto_approve scoreResult;
               s_should_auto_hide := should_auto_hide scoreResult;
               recent_voters :=
                 map vote_data
                   (LIMIT 10
                      (ORDER_BY latest_first
                         (filter (fun v => String.eqb (v_resource_id v) rid) (votes db)))) |}
      | _ => Counts 0 0 0 0
      end
  | None, Some uid =>
      OfUser
        (map vote_data
           (LIMIT 50
              (ORDER_BY latest_first
                 (filter (fun v => String.eqb (v_user_id v) uid) (votes db)))))
  | None, None => BadRequest "resource_id or user_id parameter required"
  end.

End VotesQuery.

(** ** Requests to the votes route *)

Definition request_user (req : VotesRoute.Request) : option uuid :=
  match req with
  | VotesRoute.Cast user _ _ _ _ => user
  | VotesRoute.Remove user _ _ => user
  end.

Definition request_resource (req : VotesRoute.Request) : uuid :=
  match req with
  | VotesRoute.Cast _ resource_id _ _ _ => resource_id
  | VotesRoute.Remove _ resource_id _ => resource_id
  end.

(** Nobody has a vote on a resource they submitted. *)
Definition no_self_votes (db : Database) : bool :=
  forallb
    (fun v =>
       forallb (fun r => negb (has_id (v_resource_id v) r
                               && String.eqb (r_submitted_by r) (v_user_id v)))
               (resources db))
    (votes db).

(** ** Migration of the curated collection: scripts/migrate-resources *)

Module Migration.

(** An entry of resources.json; a field that is absent is [None]. *)
Record LegacyResource := {
  title : option string;
  author : option string;
  link : option string;
  url : option string;
  description : option string
}.

(** [a || b] on strings: [a] unless it is absent or empty. *)
Definition or_else (a : option string) (b : string) : string :=
  match a with
  | Some s => if String.eqb s "" then b else s
  | None => b
  end.

(** [s.includes(pattern)] *)
Fixpoint includes (s pattern : string) : bool :=
  match s with
  | EmptyString => String.eqb pattern ""
  | String _ s' => String.prefix pattern s || includes s' pattern
  end.

(** The entries of the two mappings, in the order of their keys. *)
Definition CATEGORY_MAPPING : list (string * string) :=
  [("youtube.com", "videos"); ("youtu.be", "videos"); ("vimeo.com", "videos");
   ("ted.com", "videos");
   ("tools", "tools"); ("app", "tools"); ("software", "tools");
   ("research", "research"); ("paper", "research"); ("study", "research");
   ("academic", "research");
   ("philosophy", "philosophy");
   ("article", "articles"); ("blog", "articles"); ("essay", "articles")].

Definition TAG_MAPPING : list (string * list string) :=
  [("creative", ["creative"; "art"; "design"]);
   ("business", ["business"; "entrepreneurship"]);
   ("technology", ["technology"; "programming"]);
   ("psychology", ["psychology"; "mindset"]);
   ("productivity", ["productivity"; "habits"]);
   ("leadership", ["leadership"; "management"]);
   ("philosophy", ["philosophy"; "wisdom"]);
   ("science", ["science"; "research"]);
   ("education", ["educational"; "learning"]);
   ("inspiring", ["inspiring"; "motivational"]);
   ("practical", ["practical"; "actionable"]);
   ("deep", ["deep"; "thoughtful"])].

(** [[...new Set(tags)]]: the elements in the order of their first
    occurrence. *)
Fixpoint new_Set (tags : list string) : list string :=
  match tags with
  | [] => []
  | t :: tags' => t :: filter (fun t' => negb (String.eqb t' t)) (new_Set tags')
  end.



Section Script.

(** [String.prototype.toLowerCase] and [String.prototype.trim]. *)
Variable toLowerCase : string -> string.
Variable trim : string -> string.

Definition categorizeResource (resource : LegacyResource) : string :=
  let title_ := toLowerCase (or_else (title resource) "") in
  let author_ := toLowerCase (or_else (author resource) "") in
  let url_ := toLowerCase (or_else (link resource) (or_else (url resource) "")) in
  match find (fun entry => includes url_ (fst entry)) CATEGORY_MAPPING with
  | Some (_, category) => category
  | None =>
      if includes title_ "video" || includes title_ "talk"
         || includes title_ "documentary" then "videos"
      else if includes title_ "tool" || includes title_ "app"
              || includes title_ "software" then "tools"
      else if includes title_ "research" || includes title_ "study"
              || includes title_ "paper" then "research"
      else if includes title_ "article" || includes title_ "essay"
              || includes url_ "blog" then "articles"
      else if includes title_ "philosophy" || includes author_ "philosopher"
      then "philosophy"
      else "books"
  end.

Definition generateTags (resource : LegacyResource) : list string :=
  let title_ := toLowerCase (or_else (title resource) "") in
  let author_ := toLowerCase (or_else (author resource) "") in
  let description_ := toLowerCase (or_else (description resource) "") in
  let content := (title_ ++ " " ++ author_ ++ " " ++ description_)%string in
  let tags :=
    flat_map (fun entry => if includes content (fst entry) then snd entry else [])
             TAG_MAPPING in
  let category := categorizeResource resource in
  let tags :=
    (tags ++
     (if String.eqb category "videos" then ["visual"; "engaging"]
      else if String.eqb category "tools" then ["practical"; "useful"]
      else if String.eqb category "research" then ["deep"; "academic"]
      else if String.eqb category "philosophy" then ["thoughtful"; "wisdom"]
      else if String.eqb category "books" then ["educational"; "comprehensive"]
      else if String.eqb category "articles" then ["insightful"; "thought-provoking"]
      else []))%list in
  firstn 5 (new_Set tags).

(** [random] is the value of [Math.random()]. *)
Definition estimateReadingTime (resource : LegacyResource) (random : Q) : Z :=
  let title_ := toLowerCase (or_else (title resource) "") in
  let url_ := toLowerCase (or_else (link resource) (or_else (url resource) "")) in
  if includes url_ "youtube.com" || includes url_ "youtu.be" || includes url_ "vimeo"
  then Qfloor (random * 45) + 15
  else if includes title_ "book" || includes title_ "guide" || includes title_ "handbook"
  then Qfloor (random * 300) + 120
  else if includes title_ "article" || includes title_ "essay" || includes title_ "blog"
  then Qfloor (random * 20) + 5
  else if includes title_ "tool" || includes title_ "app"
  then Qfloor (random * 30) + 10
  else Qfloor (random * 60) + 15.




End Script.

(** The categories of the schema. *)
Definition categories : list string :=
  ["books"; "articles"; "videos"; "tools"; "research"; "philosophy"].

(** The tags the script can give. *)
Definition vocabulary : list string :=
  (flat_map snd TAG_MAPPING ++
   ["visual"; "engaging"; "practical"; "useful"; "deep"; "academic";
    "thoughtful"; "wisdom"; "educational"; "comprehensive";
    "insightful"; "thought-provoking"])%list.


(** An entry of the collection, as an example. *)
Definition a_talk : LegacyResource :=
  {| title := Some "the art of happiness";
     author := Some "a philosopher";
     link := Some "https://www.youtube.com/watch?v=1";
     url := None;
     description := Some "an inspiring talk" |}.


End Migration.

(** * Properties *)

(** ** Helper lemmas on the SQL layer *)

(** The checks of POST /api/votes before it writes: the resource is found,
    it is approved or pending, it is not the voter's own; [tac] closes the
    case of each answer that ends the request. *)
Ltac through_guards tac :=
  lazymatch goal with
  | |- context [VotesRoute.single (filter (has_id ?rid) (resources ?db))] =>
      let resource := fresh "resource" in
      let Hresource := fresh "Hresource" in
      destruct (VotesRoute.single (filter (has_id rid) (resources db)))
        as [resource|] eqn:Hresource; [|tac];
      destruct (negb _); [tac|];
      destruct (String.eqb (r_submitted_by resource) _); [tac|]
  end.

Example ROUND_ties_away_from_zero :
  ROUND (5 # 2) = 3 /\ ROUND (- (5 # 2)) = -3 /\ ROUND (7 # 3) = 2 /\ ROUND (- (7 # 3)) = -2.
Proof. repeat split. Qed.

Example ORDER_BY_is_stable :
  ORDER_BY (fun a b => fst b <? fst a) [(1, "a"); (3, "b"); (1, "c"); (3, "d")]
  = [(3, "b"); (3, "d"); (1, "a"); (1, "c")].
Proof. reflexivity. Qed.

Lemma COALESCE_SUM (l : list Q) : (COALESCE (SUM l) 0 == Qsum l)%Q.
Proof. destruct l; simpl; reflexivity. Qed.

Lemma filter_single_find {A} (p : A -> bool) (l : list A) (x : A) :
  filter p l = [x] -> find p l = Some x.
Proof.
  induction l as [|y l IH]; simpl; [discriminate|].
  destruct (p y); [congruence | exact IH].
Qed.

Lemma length_insert_by {A} (before : A -> A -> bool) (x : A) (l : list A) :
  List.length (insert_by before x l) = S (List.length l).
Proof.
  induction l as [|y l IH]; simpl; [reflexivity|].
  destruct (before y x); simpl; [rewrite IH|]; reflexivity.
Qed.

Lemma length_ORDER_BY {A} (before : A -> A -> bool) (l : list A) :
  List.length (ORDER_BY before l) = List.length l.
Proof.
  induction l as [|x l IH]; simpl; [reflexivity|].
  rewrite length_insert_by. f_equal. exact IH.
Qed.

(** ** Quality scorer *)

Section QualityScore.

Variable db : Database.
Hypothesis voters_resolve : voters_are_users db = true.

Lemma voter_row (v : Vote) :
  In v (votes db) ->
  exists u, filter (fun u => String.eqb (v_user_id v) (u_id u)) (users db) = [u]
            /\ voter_reputation db v = u_reputation_score u.
Proof.
  intros Hin. pose proof voters_resolve as H. unfold voters_are_users in H.
  rewrite forallb_forall in H. specialize (H v Hin).
  apply Nat.eqb_eq in H.
  destruct (filter _ (users db)) as [|u [|u' l]] eqn:E; try discriminate.
  exists u. split; [reflexivity|].
  unfold voter_reputation. now rewrite (filter_single_find _ _ _ E).
Qed.

Lemma joined_contributions (resource_id : uuid) :
  map (fun vu => signed_weight (v_vote_type (fst vu)) (u_reputation_score (snd vu)))
      (votes_join_users db resource_id)
  = map (contribution db) (votes_on db resource_id).
Proof.
  unfold votes_join_users, votes_on.
  assert (Hsub : forall v,
             In v (filter (fun v => String.eqb (v_resource_id v) resource_id) (votes db))
             -> In v (votes db)).
  { intros v Hv. apply filter_In in Hv. tauto. }
  induction (filter (fun v => String.eqb (v_resource_id v) resource_id) (votes db))
    as [|v l IH]; simpl; [reflexivity|].
  rewrite map_app, IH by (intros; apply Hsub; now right).
  destruct (voter_row v (Hsub v (or_introl eq_refl))) as [u [E R]].
  rewrite E. simpl. f_equal.
  unfold contribution, signed_weight, reputation_weight, LEAST.
  rewrite R. destruct (v_vote_type v); reflexivity.
Qed.

End QualityScore.

Lemma reputation_weight_bounds (R : Z) :
  (0 <= R)%Z -> (1 <= reputation_weight R <= 5)%Q.
Proof.
  intros HR. unfold reputation_weight, LEAST.
  assert (H0 : (0 <= inject_Z R)%Q).
  { change 0%Q with (inject_Z 0). now rewrite <- Zle_Qle. }
  pose proof (Q.le_min_r (inject_Z R * 0.1 + 1) 5.0) as Hr.
  split; [apply Q.min_glb; lra | lra].
Qed.

(** C1. With every vote cast by a row of users, the weighted score that
    calculate_quality_score returns for a resource is the sum over the
    resource's votes of min(reputation * 0.1 + 1, 5.0) for an up vote and of
    its opposite for a down vote, the reputation being the voter's. For a
    reputation R >= 0 the magnitude of one vote's contribution to the score
    is min(0.1 R + 1, 5.0), and it is at most 5.0. *)
Theorem weighted_score_is_capped_sum (db : Database) (resource_id : uuid) :
  voters_are_users db = true ->
  (weighted_score (calculate_quality_score db resource_id)
   == Qsum (map (contribution db) (votes_on db resource_id)))%Q
  /\ forall (vote_type : VoteType) (R : Z),
       (0 <= R)%Z ->
       (Qabs (signed_weight vote_type R) == Qmin (0.1 * inject_Z R + 1) 5.0)%Q
       /\ (Qabs (signed_weight vote_type R) <= 5.0)%Q.
Proof.
  intros H. split.
  - unfold calculate_quality_score; cbn [weighted_score].
    rewrite COALESCE_SUM, (joined_contributions db H resource_id). reflexivity.
  - intros t R HR.
    destruct (reputation_weight_bounds R HR) as [Hlo Hhi].
    assert (Habs : (Qabs (signed_weight t R) == reputation_weight R)%Q).
    { destruct t; unfold signed_weight.
      - apply Qabs_pos. lra.
      - transitivity (Qabs (reputation_weight R)); [apply Qabs_opp | apply Qabs_pos; lra]. }
    split.
    + rewrite Habs. unfold reputation_weight, LEAST.
      assert (E : (inject_Z R * 0.1 + 1 == 0.1 * inject_Z R + 1)%Q) by ring.
      now rewrite E.
    + rewrite Habs. lra.
Qed.

Lemma weighted_score_is_capped_sum_witness :
  (weighted_score (calculate_quality_score Examples.scenario3 "R")
   == Qsum (map (contribution Examples.scenario3) (votes_on Examples.scenario3 "R")))%Q
  /\ (Qabs (signed_weight down 50) == Qmin (0.1 * inject_Z 50 + 1) 5.0)%Q
  /\ (Qabs (signed_weight down 50) <= 5.0)%Q.
Proof.
  destruct (weighted_score_is_capped_sum Examples.scenario3 "R") as [Hsum Hcap];
    [reflexivity|].
  split; [exact Hsum|]. apply (Hcap down 50). lia.
Defined.

(** The scenario of the specification: contributions 1, 3 and 5 give 9 and
    no verdict; the fourth vote adds 2 and the verdict is to approve. *)
Example scenario_three_votes :
  let res := calculate_quality_score Examples.scenario3 "R" in
  (weighted_score res == 9)%Q /\ voter_count res = 3
  /\ should_auto_approve res = Some false.
Proof. vm_compute. repeat split. Qed.

Example scenario_four_votes :
  let res := calculate_quality_score Examples.scenario4 "R" in
  (weighted_score res == 11)%Q /\ voter_count res = 4
  /\ should_auto_approve res = Some true
  /\ select_status (update_resource_scores Examples.scenario4 "R" 100) "R" = Some approved.
Proof. vm_compute. repeat split. Qed.

(** ** Resource state updater *)

Lemma UPDATE_UPDATE {A} (w : A -> bool) (f g : A -> A) (l : list A) :
  (forall r, w (f r) = w r) ->
  UPDATE w g (UPDATE w f l) = UPDATE w (fun r => g (f r)) l.
Proof.
  intros Hw. unfold UPDATE. rewrite map_map. apply map_ext.
  intros r. destruct (w r) eqn:E; [rewrite Hw, E | rewrite E]; reflexivity.
Qed.

Lemma update_resource_scores_resources db rid now :
  resources (update_resource_scores db rid now)
  = UPDATE (has_id rid) (rescored_row db rid now) (resources db).
Proof.
  unfold update_resource_scores, rescored_row.
  destruct (select_status db rid) as [[| | |]|]; cbn [resources with_resources];
  try reflexivity.
  destruct (holds (should_auto_approve _)).
  - cbn [resources with_resources]. apply UPDATE_UPDATE. reflexivity.
  - destruct (holds (should_auto_hide _)); cbn [resources with_resources].
  + apply UPDATE_UPDATE. reflexivity.
  + reflexivity.
Qed.

Lemma rescored_row_id db rid now r : r_id (rescored_row db rid now r) = r_id r.
Proof.
  unfold rescored_row.
  destruct (select_status db rid) as [[| | |]|]; try reflexivity.
  destruct (holds _); [reflexivity|]. destruct (holds _); reflexivity.
Qed.

(** Outside pending the row only has its scores rewritten. *)
Lemma rescored_row_settled db rid now r s :
  select_status db rid = Some s -> s <> pending ->
  rescored_row db rid now r
  = set_scores (upvotes (calculate_quality_score db rid))
     (downvotes (calculate_quality_score db rid))
     (weighted_score (calculate_quality_score db rid)) now r.
Proof.
  intros Hs Hp. unfold rescored_row. rewrite Hs.
  destruct s; [congruence | reflexivity ..].
Qed.

Lemma find_has_id_UPDATE rid (w : Resource -> bool) (f : Resource -> Resource) l :
  (forall r, r_id (f r) = r_id r) ->
  find (has_id rid) (UPDATE w f l)
  = option_map (fun r => if w r then f r else r) (find (has_id rid) l).
Proof.
  intros Hid. induction l as [|a l IH]; simpl; [reflexivity|].
  assert (E : has_id rid (if w a then f a else a) = has_id rid a).
  { unfold has_id. destruct (w a); [rewrite Hid|]; reflexivity. }
  rewrite E. destruct (has_id rid a); [reflexivity | exact IH].
Qed.

Lemma find_has_id rid l r : find (has_id rid) l = Some r -> r_id r = rid.
Proof.
  intros H. apply find_some in H. destruct H as [_ H].
  now apply String.eqb_eq in H.
Qed.

Lemma select_status_rescore db rid rid' now s :
  select_status db rid = Some s -> s <> pending ->
  select_status (update_resource_scores db rid' now) rid = Some s.
Proof.
  intros Hs Hp. unfold select_status at 1.
  rewrite update_resource_scores_resources,
  (find_has_id_UPDATE _ _ _ _ (rescored_row_id db rid' now)).
  unfold select_status in Hs.
  destruct (find (has_id rid) (resources db)) as [r|] eqn:F; [|discriminate].
  simpl in *. destruct (has_id rid' r) eqn:E; [|exact Hs].
  apply String.eqb_eq in E. rewrite (find_has_id _ _ _ F) in E. subst rid'.
  rewrite (rescored_row_settled db rid now r s); [exact Hs| |exact Hp].
  unfold select_status. now rewrite F.
Qed.

Lemma status_kept_elsewhere rid (w : Resource -> bool) (f : Resource -> Resource) l :
  (forall r, r_id r = rid -> w r = false) -> (forall r, r_id (f r) = r_id r) ->
  option_map r_status (find (has_id rid) (UPDATE w f l))
  = option_map r_status (find (has_id rid) l).
Proof.
  intros Hne Hid. rewrite (find_has_id_UPDATE _ _ _ _ Hid).
  destruct (find (has_id rid) l) as [r|] eqn:F; [|reflexivity].
  simpl. now rewrite (Hne r (find_has_id _ _ _ F)).
Qed.

Lemma status_kept_by_scores rid (w : Resource -> bool) a b q now l :
  option_map r_status (find (has_id rid) (UPDATE w (set_scores a b q now) l))
  = option_map r_status (find (has_id rid) l).
Proof.
  rewrite find_has_id_UPDATE by reflexivity.
  destruct (find (has_id rid) l) as [r|]; [|reflexivity].
  simpl. destruct (w r); reflexivity.
Qed.

(** *** The trigger on votes *)

Lemma trigger_raises db change now :
  trigger_update_resource_scores db change now = Raised ambiguous_column.
Proof. destruct change; reflexivity. Qed.

Lemma raised_stays (changes : list RowChange) (now : timestamp) (e : SqlError) :
  fold_left
    (fun acc change =>
       match acc with
       | Returned db => trigger_update_resource_scores db change now
       | Raised e => Raised e
       end)
    changes (Raised e)
  = Raised e.
Proof. induction changes as [|c l IH]; simpl; [reflexivity | exact IH]. Qed.

(** With the trigger installed a statement that changes a row of votes is
    refused; every other statement goes through. *)
Lemma votes_statement_outcome db' changes now :
  votes_statement db' changes now
  = if votes_trigger db' && negb (is_empty changes) then Raised ambiguous_column
    else Returned db'.
Proof.
  unfold votes_statement. destruct (votes_trigger db'); [|reflexivity].
  destruct changes as [|c l]; [reflexivity|].
  simpl. rewrite trigger_raises. apply raised_stays.
Qed.

Lemma with_votes_same db : with_votes db (votes db) = db.
Proof. now destruct db. Qed.

Lemma with_resources_same db : with_resources db (resources db) = db.
Proof. now destruct db. Qed.

Lemma single_Some_one {A} (l : list A) (x : A) : VotesRoute.single l = Some x -> l = [x].
Proof. destruct l as [|y [|z l]]; simpl; congruence. Qed.

Lemma same_pair_eq rid uid v :
  VotesRoute.same_pair rid uid v = true <-> v_resource_id v = rid /\ v_user_id v = uid.
Proof.
  unfold VotesRoute.same_pair. rewrite andb_true_iff, !String.eqb_eq. tauto.
Qed.

(** The vote the handler finds is a row of the table, of the user, and the
    update or delete by its identifier reaches it. *)
Lemma existing_vote db rid uid v :
  VotesRoute.single (VotesRoute.votes_of db rid uid) = Some v ->
  In v (votes db) /\ VotesRoute.same_pair rid uid v = true
  /\ VotesRoute.reaches_vote db uid (v_id v) v = true.
Proof.
  intros S. apply single_Some_one in S.
  assert (I : In v (filter (VotesRoute.same_pair rid uid) (votes db)))
    by (unfold VotesRoute.votes_of in S; rewrite S; now left).
  apply filter_In in I. destruct I as [I P]. split; [exact I|]. split; [exact P|].
  apply same_pair_eq in P. destruct P as [_ P].
  unfold VotesRoute.reaches_vote, VotesRoute.has_vote_id, VotesRoute.own_vote.
  rewrite P, !String.eqb_refl. now rewrite orb_true_r.
Qed.

Lemma rows_changed {A B} (p : A -> bool) (g : A -> B) (l : list A) (x : A) :
  In x l -> p x = true -> is_empty (map g (filter p l)) = false.
Proof.
  intros I P. assert (F : In x (filter p l)) by (apply filter_In; now split).
  destruct (filter p l); [destruct F | reflexivity].
Qed.

(** The write of the handler, with the outcome of the statement decided. *)
Lemma write_vote_outcome db uid rid t w id now :
  VotesRoute.write_vote db uid rid t w id now
  = match VotesRoute.single (VotesRoute.votes_of db rid uid) with
    | Some v =>
        let reached := VotesRoute.reaches_vote db uid (v_id v) in
        if VoteType_eqb (v_vote_type v) t then
          if votes_trigger db then (db, inr "Failed to remove vote")
          else (with_votes db (filter (fun x => negb (reached x)) (votes db)),
                inl (VotesRoute.removed, None))
        else
          if votes_trigger db then (db, inr "Failed to update vote")
          else
            let db' :=
              with_votes db (UPDATE reached (VotesRoute.set_vote t w now) (votes db)) in
            match VotesRoute.single (filter reached (votes db')) with
            | Some _ => (db', inl (VotesRoute.updated, Some t))
            | None => (db', inr "Failed to update vote")
            end
    | None =>
        let newVote :=
          {| v_id := id; v_resource_id := rid; v_user_id := uid;
             v_vote_type := t; v_weight := w;
             v_created_at := now; v_updated_at := now |} in
        if VotesRoute.insert_allowed db newVote then
          if votes_trigger db then (db, inr "Failed to create vote")
          else (with_votes db (votes db ++ [newVote])%list,
                inl (VotesRoute.created, Some t))
        else (db, inr "Failed to create vote")
    end.
Proof.
  unfold VotesRoute.write_vote. fold (VotesRoute.votes_of db rid uid).
  destruct (VotesRoute.single (VotesRoute.votes_of db rid uid)) as [v|] eqn:S; cbv zeta.
  - destruct (existing_vote _ _ _ _ S) as [I [_ R]].
    rewrite !votes_statement_outcome; cbn [votes_trigger with_votes].
    rewrite !(rows_changed _ _ _ v I R). cbn [negb]. rewrite andb_true_r.
    destruct (VoteType_eqb (v_vote_type v) t), (votes_trigger db); reflexivity.
  - rewrite votes_statement_outcome; cbn [votes_trigger with_votes is_empty negb].
    rewrite andb_true_r.
    destruct (VotesRoute.insert_allowed db _), (votes_trigger db); reflexivity.
Qed.

(** The write touches the votes table only. *)
Lemma write_vote_frame db uid rid t w id now :
  fst (VotesRoute.write_vote db uid rid t w id now)
  = with_votes db (votes (fst (VotesRoute.write_vote db uid rid t w id now))).
Proof.
  rewrite write_vote_outcome.
  destruct (VotesRoute.single (VotesRoute.votes_of db rid uid)) as [v|]; cbv zeta.
  - destruct (VoteType_eqb (v_vote_type v) t), (votes_trigger db); cbn [fst];
      try (symmetry; apply with_votes_same); try reflexivity.
    destruct (VotesRoute.single _); reflexivity.
  - destruct (VotesRoute.insert_allowed db _), (votes_trigger db); cbn [fst];
      try (symmetry; apply with_votes_same); reflexivity.
Qed.

Lemma resources_write_vote db uid rid t w id now :
  resources (fst (VotesRoute.write_vote db uid rid t w id now)) = resources db.
Proof. now rewrite write_vote_frame. Qed.

Lemma users_write_vote db uid rid t w id now :
  users (fst (VotesRoute.write_vote db uid rid t w id now)) = users db.
Proof. now rewrite write_vote_frame. Qed.

Lemma deployment_write_vote db uid rid t w id now :
  votes_trigger (fst (VotesRoute.write_vote db uid rid t w id now)) = votes_trigger db
  /\ row_security (fst (VotesRoute.write_vote db uid rid t w id now)) = row_security db.
Proof. now rewrite write_vote_frame. Qed.

(** The recomputation of the handler touches the resources table only. *)
Lemma rescore_frame db uid rid st now :
  VotesRoute.rescore db uid rid st now
  = with_resources db (resources (VotesRoute.rescore db uid rid st now)).
Proof.
  unfold VotesRoute.rescore, rpc_calculate_quality_score.
  destruct (ResourceStatus_eqb st pending); [|reflexivity].
  destruct (holds (should_auto_approve _)); [reflexivity|].
  destruct (holds (should_auto_hide _)); reflexivity.
Qed.

(** The recomputation of the votes route, given that the status it read is
    the status of the resource it recomputes. *)
Lemma select_status_route_rescore db uid rid rid' st now s :
  select_status db rid = Some s -> s <> pending -> (rid' = rid -> st = s) ->
  select_status (VotesRoute.rescore db uid rid' st now) rid = Some s.
Proof.
  intros Hs Hp Hst. unfold VotesRoute.rescore, rpc_calculate_quality_score.
  set (res := calculate_quality_score db rid').
  set (reached := VotesRoute.reaches_resource db uid rid').
  assert (K : select_status
              (with_resources db
                 (UPDATE reached
                    (set_scores (upvotes res) (downvotes res) (weighted_score res) now)
                    (resources db))) rid = Some s).
  { unfold select_status; cbn [resources with_resources].
    rewrite status_kept_by_scores. exact Hs. }
  cbv zeta. destruct (ResourceStatus_eqb st pending) eqn:Est; [|exact K].
  assert (Hne : forall r, r_id r = rid -> reached r = false).
  { intros r Hr. unfold reached, VotesRoute.reaches_resource, has_id.
    destruct (String.eqb (r_id r) rid') eqn:E; [|reflexivity].
    apply String.eqb_eq in E. rewrite <- E, Hr in Hst.
    rewrite (Hst eq_refl) in Est. destruct s; simpl in Est; congruence. }
  destruct (holds (should_auto_approve res)); [|destruct (holds (should_auto_hide res))];
  try exact K;
  unfold select_status in *; cbn [resources with_resources] in *;
  rewrite (status_kept_elsewhere _ _ _ _ Hne) by reflexivity; exact K.
Qed.

Lemma single_filter_find {A} (p : A -> bool) (l : list A) (x : A) :
  VotesRoute.single (filter p l) = Some x -> find p l = Some x.
Proof.
  intros H. apply filter_single_find.
  destruct (filter p l) as [|y [|z m]]; simpl in H; congruence.
Qed.

Lemma select_status_POST db rid user rid' t id now s :
  select_status db rid = Some s -> s <> pending ->
  select_status (snd (VotesRoute.POST db user rid' t id now)) rid = Some s.
Proof.
  intros Hs Hp. unfold VotesRoute.POST.
  destruct user as [uid|]; [|exact Hs].
  through_guards ltac:(exact Hs).
  match goal with
  | |- context [VotesRoute.write_vote ?d ?u ?r ?ty ?w ?i ?n] =>
      pose proof (resources_write_vote d u r ty w i n) as Hres;
      destruct (VotesRoute.write_vote d u r ty w i n) as [db1 [[a rt]|err]]
  end; cbn [fst snd] in *.
  - assert (K : select_status (VotesRoute.rescore db1 uid rid' (r_status resource) now) rid
                = Some s).
    { apply select_status_route_rescore; [|exact Hp|].
      - unfold select_status. now rewrite Hres.
      - intros ->. apply single_filter_find in Hresource.
        unfold select_status in Hs. rewrite Hresource in Hs. simpl in Hs. congruence. }
    destruct a; exact K.
  - unfold select_status. now rewrite Hres.
Qed.

(** A removal writes the votes table only, or nothing. *)
Lemma DELETE_frame db user rid now :
  snd (VotesRoute.DELETE db user rid now)
  = with_votes db (votes (snd (VotesRoute.DELETE db user rid now))).
Proof.
  unfold VotesRoute.DELETE. destruct user as [uid|]; [|symmetry; apply with_votes_same].
  rewrite votes_statement_outcome. cbn [votes_trigger with_votes].
  destruct (_ && _); [symmetry; apply with_votes_same|].
  destruct (VotesRoute.single _); reflexivity.
Qed.

Lemma select_status_DELETE db rid user rid' now s :
  select_status db rid = Some s ->
  select_status (snd (VotesRoute.DELETE db user rid' now)) rid = Some s.
Proof. intros Hs. rewrite DELETE_frame. exact Hs. Qed.

Lemma select_status_replay es : forall db rid s,
  select_status db rid = Some s -> s <> pending ->
  select_status (replay db es) rid = Some s.
Proof.
  induction es as [|e es IH]; intros db rid s Hs Hp; [exact Hs|].
  simpl. apply IH; [|exact Hp].
  destruct e as [rid' now | [user rid' t id now | user rid' now] | vs us]; simpl.
  - now apply select_status_rescore.
  - now apply select_status_POST.
  - now apply select_status_DELETE.
  - exact Hs.
Qed.

Lemma Forall2_UPDATE {A} (R : A -> A -> Prop) (w : A -> bool) (f : A -> A) l :
  (forall r, w r = true -> R r (f r)) -> (forall r, w r = false -> R r r) ->
  Forall2 R l (UPDATE w f l).
Proof.
  intros Ht Hf. induction l as [|a l IH]; simpl; constructor; [|exact IH].
  destruct (w a) eqn:E; auto.
Qed.

(** C2. When update_resource_scores runs on a resource whose status is
    approved, hidden or rejected, no row changes status: the rows with its
    identifier have upvotes, downvotes, quality_score (and updated_at)
    rewritten and the other rows are left as they were. So a status other
    than pending, such as the approved of an auto-approved resource, stays
    through any run of recomputations, requests to the votes route and
    changes of votes. *)
Theorem settled_status_is_kept (db : Database) (resource_id : uuid) (s : ResourceStatus) :
  select_status db resource_id = Some s -> s <> pending ->
  (forall now,
     let db' := update_resource_scores db resource_id now in
     map r_status (resources db') = map r_status (resources db)
     /\ Forall2 (fun r r' => if has_id resource_id r then scores_rewritten r r' else r' = r)
                (resources db) (resources db'))
  /\ (forall es, select_status (replay db es) resource_id = Some s).
Proof.
  intros Hs Hp. split.
  - intros now db'. subst db'. rewrite update_resource_scores_resources. split.
    + unfold UPDATE. rewrite map_map. apply map_ext. intros r.
      destruct (has_id resource_id r); [|reflexivity].
      now rewrite (rescored_row_settled db resource_id now r s Hs Hp).
    + apply Forall2_UPDATE; intros r E; rewrite E; [|reflexivity].
      rewrite (rescored_row_settled db resource_id now r s Hs Hp).
      unfold scores_rewritten. eauto.
  - intros es. now apply select_status_replay.
Qed.

Lemma settled_status_is_kept_witness :
  select_status
    (replay Examples.approved_R
       [VotesChange [Examples.a_vote "v9" "R" "u50" down 5] Examples.voters;
        Rescore "R" 100;
        Request (VotesRoute.Cast (Some "u20") "R" down "v10" 150);
        Rescore "R" 200])
    "R" = Some approved.
Proof.
  apply (settled_status_is_kept Examples.approved_R "R" approved);
    [reflexivity | discriminate].
Defined.

(** C9. When the scorer reports both should_auto_approve and
    should_auto_hide for a pending resource, update_resource_scores leaves
    it approved, not hidden. *)
Theorem approval_precedes_hiding (db : Database) (resource_id : uuid) (now : timestamp) :
  select_status db resource_id = Some pending ->
  should_auto_approve (calculate_quality_score db resource_id) = Some true ->
  should_auto_hide (calculate_quality_score db resource_id) = Some true ->
  let db' := update_resource_scores db resource_id now in
  select_status db' resource_id = Some approved
  /\ forall r', In r' (resources db') -> r_id r' = resource_id -> r_status r' = approved.
Proof.
  intros Hs Ha Hh db'. subst db'.
  assert (R : forall r, rescored_row db resource_id now r
                        = set_status approved now
                            (set_scores (upvotes (calculate_quality_score db resource_id))
                                        (downvotes (calculate_quality_score db resource_id))
                                        (weighted_score (calculate_quality_score db resource_id))
                                        now r)).
  { intros r. unfold rescored_row. now rewrite Hs, Ha. }
  split.
  - unfold select_status at 1.
    rewrite update_resource_scores_resources,
            (find_has_id_UPDATE _ _ _ _ (rescored_row_id db resource_id now)).
    unfold select_status in Hs.
    destruct (find (has_id resource_id) (resources db)) as [r|] eqn:F; [|discriminate].
    simpl. pose proof (find_has_id _ _ _ F) as Hid.
    unfold has_id at 1. rewrite Hid, String.eqb_refl, R. reflexivity.
  - intros r' Hin Hid. rewrite update_resource_scores_resources in Hin.
    unfold UPDATE in Hin. apply in_map_iff in Hin. destruct Hin as [r [E _]].
    destruct (has_id resource_id r) eqn:Hr.
    + subst r'. now rewrite R.
    + subst r'. unfold has_id in Hr. rewrite Hid, String.eqb_refl in Hr. discriminate.
Qed.

Lemma approval_precedes_hiding_witness :
  select_status (update_resource_scores Examples.crossed "R" 100) "R" = Some approved.
Proof.
  apply (approval_precedes_hiding Examples.crossed "R" 100); reflexivity.
Defined.

(** ** Missing configuration *)

Lemma AND_holds (a b : option bool) :
  holds (AND a b) = true -> a = Some true /\ b = Some true.
Proof. destruct a as [[|]|], b as [[|]|]; simpl; intros H; try discriminate; auto. Qed.

Section MissingConfiguration.

Variable db : Database.
Variable resource_id : uuid.

Let cfg := system_config db.
Let res := calculate_quality_score db resource_id.

Lemma no_approval_without_keys :
  auto_approve_threshold cfg = None \/ min_votes_for_auto_action cfg = None ->
  holds (should_auto_approve res) = false.
Proof.
  intros H. destruct (holds _) eqn:E; [|reflexivity].
  unfold res, calculate_quality_score in E; cbn [should_auto_approve] in E.
  apply AND_holds in E. destruct E as [E1 E2].
  destruct H as [H|H]; unfold cfg in H; rewrite H in *; simpl in *; discriminate.
Qed.

Lemma no_hiding_without_keys :
  auto_hide_threshold cfg = None \/ min_votes_for_auto_action cfg = None ->
  holds (should_auto_hide res) = false.
Proof.
  intros H. destruct (holds _) eqn:E; [|reflexivity].
  unfold res, calculate_quality_score in E; cbn [should_auto_hide] in E.
  apply AND_holds in E. destruct E as [E1 E2].
  destruct H as [H|H]; unfold cfg in H; rewrite H in *; simpl in *; discriminate.
Qed.

End MissingConfiguration.

(** C5, as the code has it. With a threshold key absent the scorer does not
    fail: it returns its row, with the counts and the weighted score it
    returns under any configuration. A verdict whose threshold or whose
    minimum vote count is absent is NULL or false, never true, so no default
    is substituted: without auto_approve_threshold or
    min_votes_for_auto_action, update_resource_scores approves nothing. *)
Theorem missing_config_gives_no_verdict (db : Database) (resource_id : uuid) :
  let res := calculate_quality_score db resource_id in
  rpc_calculate_quality_score db resource_id = Some [res]
  /\ (forall cfg,
        let res' := calculate_quality_score (with_config db cfg) resource_id in
        upvotes res' = upvotes res /\ downvotes res' = downvotes res
        /\ weighted_score res' = weighted_score res /\ voter_count res' = voter_count res)
  /\ (auto_approve_threshold (system_config db) = None
      \/ min_votes_for_auto_action (system_config db) = None ->
      should_auto_approve res <> Some true
      /\ forall now,
           Forall2 (fun r r' => r_status r' = approved -> r_status r = approved)
                   (resources db) (resources (update_resource_scores db resource_id now)))
  /\ (auto_hide_threshold (system_config db) = None
      \/ min_votes_for_auto_action (system_config db) = None ->
      should_auto_hide res <> Some true).
Proof.
  intros res. subst res. split; [reflexivity|]. split; [intros cfg; repeat split|]. split.
  - intros H. pose proof (no_approval_without_keys db resource_id H) as Ha. split.
    + intros E. rewrite E in Ha. discriminate.
    + intros now. rewrite update_resource_scores_resources.
      apply Forall2_UPDATE; [|auto]. intros r _.
      unfold rescored_row. rewrite Ha.
      destruct (select_status db resource_id) as [[| | |]|];
        try (cbn [r_status set_scores]; intros E; exact E).
      destruct (holds (should_auto_hide _)); cbn [r_status set_scores set_status];
        intros E; [discriminate E | exact E].
  - intros H E. pose proof (no_hiding_without_keys db resource_id H) as Hh.
    rewrite E in Hh. discriminate.
Qed.

Lemma missing_config_gives_no_verdict_witness :
  should_auto_approve (calculate_quality_score Examples.unconfigured "R") <> Some true
  /\ should_auto_hide (calculate_quality_score Examples.unconfigured "R") <> Some true.
Proof.
  destruct (missing_config_gives_no_verdict Examples.unconfigured "R")
    as [_ [_ [Ha Hh]]].
  split.
  - apply Ha. left. reflexivity.
  - apply Hh. left. reflexivity.
Defined.

(** C5 as stated fails: without any of the three keys the scorer still
    answers, here with four up votes, a weighted score of 11 and no
    verdict. *)
Lemma scorer_answers_without_config :
  config_key_missing (system_config Examples.unconfigured) = true
  /\ exists res,
       rpc_calculate_quality_score Examples.unconfigured "R" = Some [res]
       /\ upvotes res = 4 /\ downvotes res = 0 /\ (weighted_score res == 11)%Q
       /\ voter_count res = 4
       /\ should_auto_approve res = None /\ should_auto_hide res = None.
Proof.
  split; [reflexivity|]. eexists. split; [reflexivity|].
  vm_compute. repeat split.
Qed.

(** ** Trending calculator *)

Lemma trailing (now created_at n : Z) :
  (now - n <? created_at) = (age now created_at <? n).
Proof.
  unfold age. destruct (now - n <? created_at) eqn:E.
  - apply Z.ltb_lt in E. symmetry. apply Z.ltb_lt. lia.
  - apply Z.ltb_ge in E. symmetry. apply Z.ltb_ge. lia.
Qed.

Section Trending.

Variable db : Database.
Variable now : timestamp.

Lemma recent_views_stated r : recent_views db now r = views_in_trailing_week db now r.
Proof.
  unfold recent_views, views_in_trailing_week, COUNT. do 2 f_equal.
  apply filter_ext. intros ui. now rewrite trailing.
Qed.

Lemma recent_votes_stated r : recent_votes db now r = votes_in_trailing_week db now r.
Proof.
  unfold recent_votes, votes_in_trailing_week, COUNT. do 2 f_equal.
  apply filter_ext. intros v. now rewrite trailing.
Qed.

Lemma recency_bonus_under created_at :
  recency_bonus now created_at = bonus_under (age now created_at).
Proof.
  unfold recency_bonus, bonus_under.
  now rewrite (trailing now created_at (days 3)), (trailing now created_at (days 7)),
              (trailing now created_at (days 30)).
Qed.

Lemma trending_score_amended r :
  (trending_score db now r == amended_trending_score db now r)%Q.
Proof.
  unfold trending_score, amended_trending_score.
  rewrite recent_views_stated, recent_votes_stated, recency_bonus_under.
  cbn [COALESCE]. ring.
Qed.

End Trending.

(** The two bonuses differ at the ages of exactly 3, 7 and 30 days, and
    nowhere else. *)
Lemma bonus_under_stated (a : Z) :
  a <> days 3 -> a <> days 7 -> a <> days 30 -> bonus_under a = stated_bonus a.
Proof.
  intros N3 N7 N30. unfold bonus_under, stated_bonus.
  destruct (a <? days 3) eqn:L3, (a <=? days 3) eqn:M3;
    try reflexivity; try (apply Z.ltb_lt in L3; apply Z.leb_gt in M3; lia);
    try (apply Z.ltb_ge in L3; apply Z.leb_le in M3; lia).
  destruct (a <? days 7) eqn:L7, (a <=? days 7) eqn:M7;
    try reflexivity; try (apply Z.ltb_lt in L7; apply Z.leb_gt in M7; lia);
    try (apply Z.ltb_ge in L7; apply Z.leb_le in M7; lia).
  destruct (a <? days 30) eqn:L30, (a <=? days 30) eqn:M30;
    try reflexivity; try (apply Z.ltb_lt in L30; apply Z.leb_gt in M30; lia);
    try (apply Z.ltb_ge in L30; apply Z.leb_le in M30; lia).
Qed.

Example bonus_at_three_days :
  recency_bonus (days 3) 0 = 2.0%Q /\ stated_bonus (age (days 3) 0) = 5.0%Q
  /\ recency_bonus (days 3 - 1) 0 = 5.0%Q /\ recency_bonus (days 30) 0 = 0.0%Q.
Proof. repeat split. Qed.

(** C8, as the code has it. update_trending_scores rewrites the trending
    score and updated_at of every approved resource, keeps every other column
    of it, and leaves every other row as it was; the score it stores is
    0.4 * quality_score + 0.3 * (views of the trailing 7 days)
    + 0.2 * (votes of the trailing 7 days) + 0.1 * bonus, the bonus being 5.0
    for an age under 3 days, 2.0 under 7, 1.0 under 30 and 0.0 from 30 days
    on. Away from the ages of exactly 3, 7 and 30 days that is the score the
    specification states. *)
Theorem trending_scores_of_approved (db : Database) (now : timestamp) :
  Forall2
    (fun r r' =>
       if ResourceStatus_eqb (r_status r) approved
       then exists t,
              r_trending_score r' = Some t
              /\ (t == amended_trending_score db now r)%Q
              /\ (age now (r_created_at r) <> days 3 ->
                  age now (r_created_at r) <> days 7 ->
                  age now (r_created_at r) <> days 30 ->
                  (t == stated_trending_score db now r)%Q)
              /\ trending_rewritten t now r r'
       else r' = r)
    (resources db) (resources (update_trending_scores db now)).
Proof.
  unfold update_trending_scores; cbn [resources with_resources].
  apply Forall2_UPDATE; unfold is_approved; intros r E; rewrite E; [|reflexivity].
  exists (trending_score db now r). split; [reflexivity|].
  split; [apply trending_score_amended|].
  split; [|unfold trending_rewritten; cbn; repeat split].
  intros N3 N7 N30. rewrite trending_score_amended.
  unfold amended_trending_score, stated_trending_score.
  now rewrite (bonus_under_stated _ N3 N7 N30).
Qed.

Lemma trending_scores_of_approved_witness :
  exists r r' t,
    resources Examples.approved_R = [r]
    /\ resources (update_trending_scores Examples.approved_R 100) = [r']
    /\ r_trending_score r' = Some t
    /\ (t == stated_trending_score Examples.approved_R 100%Z r)%Q
    /\ (t == 5.5)%Q
    /\ r_status r' = approved /\ r_quality_score r' = r_quality_score r.
Proof.
  pose proof (trending_scores_of_approved Examples.approved_R 100) as H.
  remember (resources (update_trending_scores Examples.approved_R 100)) as after eqn:A.
  change (resources Examples.approved_R)
    with [Examples.a_resource "R" "author" approved 11 0 0] in H.
  inversion H as [|r r' l l' Hr Hl]; subst.
  inversion Hl; subst.
  cbn [ResourceStatus_eqb r_status Examples.a_resource] in Hr.
  destruct Hr as [t [T [_ [S W]]]].
  exists (Examples.a_resource "R" "author" approved 11 0 0), r', t.
  split; [reflexivity|]. split; [reflexivity|]. split; [exact T|].
  assert (St : (t == stated_trending_score Examples.approved_R 100%Z
                       (Examples.a_resource "R" "author" approved 11 0 0%Z))%Q)
    by (apply S; discriminate).
  split; [exact St|]. split; [rewrite St; reflexivity|].
  unfold trending_rewritten in W. split; [|tauto].
  destruct W as [_ [_ [_ [_ [_ [_ [_ [_ [_ [_ [W _]]]]]]]]]]]. exact W.
Defined.

(** C8 as stated fails at the boundaries: a resource created exactly three
    days ago, with quality score 11 and three votes in the week, gets
    4.4 + 0.6 + 0.1 * 2.0 = 5.2 where the specification's bonus of 5.0 gives
    5.5. *)
Lemma three_days_old_is_past_the_first_tier :
  exists r r' t,
    resources Examples.approved_R = [r]
    /\ r_status r = approved /\ age (days 3) (r_created_at r) = days 3
    /\ resources (update_trending_scores Examples.approved_R (days 3)) = [r']
    /\ r_trending_score r' = Some t
    /\ (t == 5.2)%Q
    /\ (stated_trending_score Examples.approved_R (days 3) r == 5.5)%Q
    /\ ~ (t == stated_trending_score Examples.approved_R (days 3) r)%Q.
Proof.
  do 3 eexists. split; [reflexivity|]. split; [reflexivity|]. split; [reflexivity|].
  split; [reflexivity|]. split; [reflexivity|].
  split; [vm_compute; reflexivity|]. split; [vm_compute; reflexivity|].
  vm_compute. discriminate.
Qed.

(** ** Recommendations *)

Lemma is_empty_nil {A} (l : list A) : is_empty l = true <-> l = [].
Proof. destruct l; simpl; split; intros; congruence. Qed.

(** C10. For a user with a vote and an interaction and no row in
    user_preferences, get_personalized_recommendations does not return the
    empty list: it raises 0A000 and returns nothing, so the rpc of the
    discover handler has no data and the handler's personalized strategy
    gives no resource. *)
Theorem no_preferences_call_raises :
  filter (fun p => String.eqb (up_user_id p) "u20") (user_preferences Examples.no_preferences)
  = []
  /\ filter (fun v => String.eqb (v_user_id v) "u20") (votes Examples.no_preferences) <> []
  /\ get_personalized_recommendations Examples.no_preferences "u20" 10 true 100
     = Raised feature_not_supported
  /\ get_personalized_recommendations Examples.no_preferences "u20" 10 true 100
     <> Returned []
  /\ rpc (get_personalized_recommendations Examples.no_preferences "u20" 10 true 100) = None
  /\ Discover.getPersonalizedRecommendations Examples.no_preferences 100 "u20" 5 true []
       None None None
     = [].
Proof. repeat split; discriminate. Qed.

(** ** Reward distributor *)

Lemma skipn_length_app {A} (l m : list A) : skipn (List.length l) (l ++ m) = m.
Proof. induction l; simpl; auto. Qed.

Lemma ranked_ten {A} (l : list A) :
  (10 <= List.length l)%nat ->
  exists a1 a2 a3 a4 a5 a6 a7 a8 a9 a10,
    LIMIT 10 (ROW_NUMBER l)
    = [(1, a1); (2, a2); (3, a3); (4, a4); (5, a5);
       (6, a6); (7, a7); (8, a8); (9, a9); (10, a10)].
Proof.
  intros H.
  do 10 (destruct l as [|? l]; [simpl in H; lia|]).
  do 10 eexists. reflexivity.
Qed.

Lemma length_ranked_content db w :
  List.length (ranked_content db w (w + 6))
  = Nat.min 10 (List.length (eligible_resources db w)).
Proof.
  unfold ranked_content, LIMIT, ROW_NUMBER, eligible_resources.
  rewrite length_firstn, length_combine, length_map, length_seq, length_ORDER_BY.
  rewrite Nat.min_id. reflexivity.
Qed.

Lemma length_filter_UPDATE {A} (p w : A -> bool) (f : A -> A) (l : list A) :
  (forall x, p (f x) = p x) ->
  List.length (filter p (UPDATE w f l)) = List.length (filter p l).
Proof.
  intros Hp. induction l as [|a l IH]; simpl; [reflexivity|].
  assert (E : p (if w a then f a else a) = p a) by (destruct (w a); auto).
  rewrite E. destruct (p a); simpl; rewrite IH; reflexivity.
Qed.

(** A run with the distribution percentage configured and a fresh
    identifier goes through, and this is what it writes. *)
Lemma calculate_weekly_rewards_runs db w reward_id now pool :
  total_pool_of db w (w + 6) = Some pool ->
  fresh_reward_id db reward_id = true ->
  exists db',
    calculate_weekly_rewards db w reward_id now = Some (reward_id, db')
    /\ weekly_rewards db'
       = UPDATE (fun x => String.eqb (wr_id x) reward_id)
           (set_calculation_completed_at now)
           (weekly_rewards db ++
            [{| wr_id := reward_id; wr_week_start := w; wr_week_end := w + 6;
                wr_total_pool_amount := pool; wr_calculation_completed_at := None |}])
    /\ added_distributions db db'
       = map (fun row =>
                {| rd_weekly_reward_id := reward_id;
                   rd_user_id := r_submitted_by (snd row);
                   rd_resource_id := r_id (snd row);
                   rd_amount := reward_amount pool (fst row);
                   rd_rank := fst row;
                   rd_quality_score := r_quality_score (snd row) |})
             (ranked_content db w (w + 6)).
Proof.
  intros Hpool Hfresh. unfold fresh_reward_id in Hfresh.
  apply negb_true_iff in Hfresh.
  unfold calculate_weekly_rewards. rewrite Hpool, Hfresh.
  eexists. split; [reflexivity|]. split; [reflexivity|].
  unfold added_distributions; cbn [reward_distributions with_rewards].
  apply skipn_length_app.
Qed.

(** C6. In a week with at least 10 eligible resources, a run of
    calculate_weekly_rewards adds ten reward_distributions rows, of ranks 1
    to 10, with the amounts pool * 0.30, 0.20, 0.15, 0.10, 0.08 and five
    times pool * 0.034; the amounts add up to the pool. *)
Theorem top_ten_amounts_sum_to_pool
    (db : Database) (week_start_date : date) (reward_id : uuid) (now : timestamp) (pool : Q) :
  (10 <= List.length (eligible_resources db week_start_date))%nat ->
  total_pool_of db week_start_date (week_start_date + 6) = Some pool ->
  fresh_reward_id db reward_id = true ->
  exists db',
    calculate_weekly_rewards db week_start_date reward_id now = Some (reward_id, db')
    /\ map rd_rank (added_distributions db db') = [1; 2; 3; 4; 5; 6; 7; 8; 9; 10]
    /\ map rd_amount (added_distributions db db') = stated_amounts pool
    /\ (Qsum (map rd_amount (added_distributions db db')) == pool)%Q.
Proof.
  intros Hten Hpool Hfresh.
  destruct (calculate_weekly_rewards_runs db week_start_date reward_id now pool Hpool Hfresh)
    as [db' [Hrun [_ Hadded]]].
  exists db'. split; [exact Hrun|]. rewrite Hadded.
  unfold ranked_content.
  destruct (ranked_ten (ORDER_BY rank_before (eligible_resources db week_start_date)))
    as (a1 & a2 & a3 & a4 & a5 & a6 & a7 & a8 & a9 & a10 & E).
  { now rewrite length_ORDER_BY. }
  unfold eligible_resources in E. rewrite E.
  split; [reflexivity|]. split; [reflexivity|].
  cbn [map rd_amount fst]. unfold Qsum, reward_amount. cbn [fold_right Z.eqb Pos.eqb]. ring.
Qed.

Lemma top_ten_amounts_sum_to_pool_witness :
  exists db',
    calculate_weekly_rewards Examples.a_week 0 "w1" 700000 = Some ("w1", db')
    /\ map rd_rank (added_distributions Examples.a_week db') = [1; 2; 3; 4; 5; 6; 7; 8; 9; 10]
    /\ map rd_amount (added_distributions Examples.a_week db') = stated_amounts 8000.00
    /\ (Qsum (map rd_amount (added_distributions Examples.a_week db')) == 8000.00)%Q.
Proof.
  apply (top_ten_amounts_sum_to_pool Examples.a_week 0 "w1" 700000 8000.00).
  - vm_compute. lia.
  - vm_compute. reflexivity.
  - reflexivity.
Defined.

(** C3, as the code has it. A run of calculate_weekly_rewards with the
    distribution percentage configured goes through whatever the table
    already holds for the week: it adds one weekly_rewards row for the week
    and one reward_distributions row for each of the first ten eligible
    resources, so every run counts again. *)
Theorem each_run_adds_the_week_again
    (db : Database) (week_start_date : date) (reward_id : uuid) (now : timestamp) (pool : Q) :
  total_pool_of db week_start_date (week_start_date + 6) = Some pool ->
  fresh_reward_id db reward_id = true ->
  exists db',
    calculate_weekly_rewards db week_start_date reward_id now = Some (reward_id, db')
    /\ List.length (rewards_of_week db' week_start_date)
       = S (List.length (rewards_of_week db week_start_date))
    /\ List.length (added_distributions db db')
       = Nat.min 10 (List.length (eligible_resources db week_start_date)).
Proof.
  intros Hpool Hfresh.
  destruct (calculate_weekly_rewards_runs db week_start_date reward_id now pool Hpool Hfresh)
    as [db' [Hrun [Hweeks Hadded]]].
  exists db'. split; [exact Hrun|]. split.
  - unfold rewards_of_week. rewrite Hweeks.
    rewrite length_filter_UPDATE by reflexivity.
    rewrite filter_app, length_app. cbn [filter wr_week_start].
    rewrite Z.eqb_refl. simpl. lia.
  - rewrite Hadded, length_map. apply length_ranked_content.
Qed.

Lemma each_run_adds_the_week_again_witness :
  exists db',
    calculate_weekly_rewards Examples.a_week 0 "w1" 700000 = Some ("w1", db')
    /\ List.length (rewards_of_week db' 0) = 1%nat
    /\ List.length (added_distributions Examples.a_week db') = 10%nat.
Proof.
  apply (each_run_adds_the_week_again Examples.a_week 0 "w1" 700000 8000.00).
  - vm_compute. reflexivity.
  - reflexivity.
Defined.

(** C3 as stated fails: a second run for the week of day 0 leaves two
    weekly_rewards rows for it and twenty reward_distributions rows. *)
Lemma second_run_inserts_again :
  exists db1 db2,
    calculate_weekly_rewards Examples.a_week 0 "w1" 700000 = Some ("w1", db1)
    /\ calculate_weekly_rewards db1 0 "w2" 700001 = Some ("w2", db2)
    /\ List.length (rewards_of_week db1 0) = 1%nat
    /\ List.length (reward_distributions db1) = 10%nat
    /\ List.length (rewards_of_week db2 0) = 2%nat
    /\ List.length (reward_distributions db2) = 20%nat
    /\ map rd_resource_id (added_distributions db1 db2)
       = map rd_resource_id (reward_distributions db1).
Proof.
  do 2 eexists. split; [vm_compute; reflexivity|].
  split; [vm_compute; reflexivity|].
  repeat split.
Qed.

(** ** Discovery *)

(** The rpc of the personalized strategy has no data, whoever asks. *)
Lemma personalized_results_none db now userId query :
  personalized_results db now userId query = [].
Proof. reflexivity. Qed.

(** C4. For an authenticated user without votes and interactions, the
    request with algorithm=personalized answers what the request with
    algorithm=popular and the same filters answers, resource for resource,
    and reports algorithm_used = popular; and the personalized request of any
    user answers with an empty list only when popular has no result
    either. *)
Theorem personalized_falls_back_to_popular
    (db : Database) (now : timestamp) (shuffle : list Resource -> list Resource)
    (userId : uuid) (query : Discover.DiscoverQuery) :
  let answer :=
    Discover.GET db now shuffle (Some userId) (with_algorithm query Discover.personalized) in
  let popular :=
    Discover.GET db now shuffle (Some userId) (with_algorithm query Discover.popular) in
  (no_history db userId = true ->
   Discover.data answer = Discover.data popular
   /\ Discover.algorithm_used answer = Discover.popular)
  /\ (Discover.data popular <> [] -> Discover.data answer <> []).
Proof.
  intros answer popular.
  assert (E : answer = popular).
  { subst answer popular. unfold Discover.GET.
    cbn [Discover.q_algorithm with_algorithm].
    fold (personalized_results db now userId (with_algorithm query Discover.personalized)).
    rewrite personalized_results_none. reflexivity. }
  rewrite E. split; [intros _; split; reflexivity | auto].
Qed.

Lemma personalized_falls_back_to_popular_witness :
  no_history Examples.newcomer "newcomer" = true
  /\ let answer :=
       Discover.GET Examples.newcomer 100 Examples.no_shuffle (Some "newcomer")
         (with_algorithm Examples.one_personalized Discover.personalized) in
     let popular :=
       Discover.GET Examples.newcomer 100 Examples.no_shuffle (Some "newcomer")
         (with_algorithm Examples.one_personalized Discover.popular) in
     Discover.data answer = Discover.data popular
     /\ Discover.algorithm_used answer = Discover.popular
     /\ map (fun i => r_id (Discover.resource i)) (Discover.data answer) = ["A"].
Proof.
  split; [reflexivity|].
  destruct (personalized_falls_back_to_popular Examples.newcomer 100 Examples.no_shuffle
              "newcomer" Examples.one_personalized) as [Same _].
  destruct (Same eq_refl) as [D A].
  split; [exact D|]. split; [exact A|]. reflexivity.
Defined.

(** ** Voting *)

Module VotesFacts.

Import VotesRoute.

Lemma filter_filter_comm {A} (p q : A -> bool) (l : list A) :
  filter p (filter q l) = filter q (filter p l).
Proof.
  induction l as [|a l IH]; simpl; [reflexivity|].
  destruct (p a) eqn:P, (q a) eqn:Q; simpl; rewrite ?P, ?Q, IH; reflexivity.
Qed.


Lemma filter_UPDATE {A} (p w : A -> bool) (f : A -> A) (l : list A) :
  (forall x, p (f x) = p x) ->
  filter p (UPDATE w f l) = UPDATE w f (filter p l).
Proof.
  intros Hp. induction l as [|a l IH]; simpl; [reflexivity|].
  assert (E : p (if w a then f a else a) = p a) by (destruct (w a); auto).
  rewrite E. destruct (p a); simpl; rewrite IH; reflexivity.
Qed.


Lemma existsb_filter_nil {A} (p : A -> bool) (l : list A) :
  existsb p l = false <-> filter p l = [].
Proof.
  induction l as [|a l IH]; simpl; [tauto|].
  destruct (p a); simpl; [split; discriminate | exact IH].
Qed.

Lemma filter_negb_all {A} (p : A -> bool) (l : list A) :
  filter p l = [] -> filter (fun x => negb (p x)) l = l.
Proof.
  induction l as [|a l IH]; simpl; [reflexivity|].
  destruct (p a); simpl; [discriminate|]. intros H. now rewrite IH.
Qed.

Lemma is_empty_map {A B} (g : A -> B) (l : list A) : is_empty (map g l) = is_empty l.
Proof. now destruct l. Qed.

Lemma reaches_vote_set db uid id t w now x :
  reaches_vote db uid id (set_vote t w now x) = reaches_vote db uid id x.
Proof. reflexivity. Qed.

(** *** The three writes *)

(** The vote an insert adds. *)
Lemma inserted_vote db v :
  insert_allowed db v = true ->
  filter (same_pair (v_resource_id v) (v_user_id v)) (votes db) = [].
Proof.
  unfold insert_allowed. rewrite !andb_true_iff. intros [[_ I] _].
  apply negb_true_iff in I. now apply existsb_filter_nil.
Qed.

Lemma write_vote_votes db uid rid t w id now :
  votes (fst (write_vote db uid rid t w id now))
  = match single (votes_of db rid uid) with
    | Some v =>
        if votes_trigger db then votes db
        else if VoteType_eqb (v_vote_type v) t
        then filter (fun x => negb (reaches_vote db uid (v_id v) x)) (votes db)
        else UPDATE (reaches_vote db uid (v_id v)) (set_vote t w now) (votes db)
    | None =>
        let newVote :=
          {| v_id := id; v_resource_id := rid; v_user_id := uid;
             v_vote_type := t; v_weight := w;
             v_created_at := now; v_updated_at := now |} in
        if insert_allowed db newVote && negb (votes_trigger db)
        then (votes db ++ [newVote])%list else votes db
    end.
Proof.
  rewrite write_vote_outcome.
  destruct (single (votes_of db rid uid)) as [v|]; cbv zeta.
  - destruct (VoteType_eqb (v_vote_type v) t), (votes_trigger db); try reflexivity.
    destruct (single _); reflexivity.
  - destruct (insert_allowed db _), (votes_trigger db); reflexivity.
Qed.

(** A cast that finds the pair's vote, of the type cast or of the other. *)
Lemma write_vote_found db uid rid t w id now v :
  votes_of db rid uid = [v] ->
  let dbw := fst (write_vote db uid rid t w id now) in
  match snd (write_vote db uid rid t w id now) with
  | inl (a, rt) =>
      if VoteType_eqb (v_vote_type v) t
      then a = removed /\ rt = None /\ votes_of dbw rid uid = []
      else a = updated /\ rt = Some t /\ votes_of dbw rid uid = [set_vote t w now v]
  | inr _ => votes_have_distinct_ids db = true -> dbw = db
  end.
Proof.
  intros E. assert (S : single (votes_of db rid uid) = Some v) by now rewrite E.
  destruct (existing_vote _ _ _ _ S) as [I [P R]].
  cbv zeta. rewrite write_vote_outcome, S. cbv zeta.
  destruct (VoteType_eqb (v_vote_type v) t), (votes_trigger db); cbn [fst snd]; auto.
  - split; [reflexivity|]. split; [reflexivity|].
    unfold votes_of in *. cbn [votes with_votes].
    rewrite filter_filter_comm, E. cbn [filter]. now rewrite R.
  - cbn [votes with_votes].
    assert (V : filter (same_pair rid uid)
                  (UPDATE (reaches_vote db uid (v_id v)) (set_vote t w now) (votes db))
                = [set_vote t w now v]).
    { unfold votes_of in E. rewrite filter_UPDATE by reflexivity. rewrite E.
      unfold UPDATE. cbn [map]. now rewrite R. }
    destruct (single (filter (reaches_vote db uid (v_id v))
                        (UPDATE (reaches_vote db uid (v_id v)) (set_vote t w now) (votes db))))
      eqn:U; cbn [fst snd].
    + split; [reflexivity|]. split; [reflexivity|]. exact V.
    + intros D. exfalso. revert U.
      rewrite filter_UPDATE by reflexivity.
      assert (F : filter (reaches_vote db uid (v_id v)) (votes db) = [v]).
      { unfold votes_have_distinct_ids in D. rewrite forallb_forall in D.
        specialize (D v I). apply Nat.eqb_eq in D.
        assert (K : filter (reaches_vote db uid (v_id v))
                      (filter (has_vote_id (v_id v)) (votes db))
                    = filter (reaches_vote db uid (v_id v)) (votes db)).
        { clear. induction (votes db) as [|x l IH]; simpl; [reflexivity|].
          unfold reaches_vote at 2 4.
          destruct (has_vote_id (v_id v) x) eqn:H; simpl; [|exact IH].
          unfold reaches_vote at 1. rewrite H. simpl.
          destruct (own_vote db uid x); now rewrite IH. }
        assert (Iv : In v (filter (has_vote_id (v_id v)) (votes db))).
        { apply filter_In. split; [exact I|]. apply String.eqb_refl. }
        destruct (filter (has_vote_id (v_id v)) (votes db)) as [|y [|z l]];
          try discriminate.
        destruct Iv as [->|[]]. rewrite <- K. cbn [filter]. now rewrite R. }
      rewrite F. unfold UPDATE. cbn [map]. rewrite R. discriminate.
Qed.

(** A cast that finds no vote of the pair. *)
Lemma write_vote_first db uid rid t w id now :
  votes_of db rid uid = [] ->
  let newVote :=
    {| v_id := id; v_resource_id := rid; v_user_id := uid;
       v_vote_type := t; v_weight := w;
       v_created_at := now; v_updated_at := now |} in
  write_vote db uid rid t w id now
  = if insert_allowed db newVote && negb (votes_trigger db)
    then (with_votes db (votes db ++ [newVote])%list, inl (created, Some t))
    else (db, inr "Failed to create vote").
Proof.
  intros E. cbv zeta. rewrite write_vote_outcome, E. cbn [single].
  destruct (insert_allowed db _), (votes_trigger db); reflexivity.
Qed.

Lemma votes_of_inserted db rid uid v :
  votes_of db rid uid = [] -> v_resource_id v = rid -> v_user_id v = uid ->
  votes_of (with_votes db (votes db ++ [v])%list) rid uid = [v].
Proof.
  unfold votes_of. intros E Hr Hu. cbn [votes with_votes].
  rewrite filter_app, E. cbn [filter app].
  assert (P : same_pair rid uid v = true) by (apply same_pair_eq; now split).
  now rewrite P.
Qed.

(** Only a cast that finds no vote creates one. *)
Lemma write_vote_created db uid rid t w id now dbw rt :
  write_vote db uid rid t w id now = (dbw, inl (created, rt)) ->
  votes_of db rid uid = []
  /\ rt = Some t
  /\ dbw = with_votes db
             (votes db ++
              [{| v_id := id; v_resource_id := rid; v_user_id := uid;
                  v_vote_type := t; v_weight := w;
                  v_created_at := now; v_updated_at := now |}])%list.
Proof.
  rewrite write_vote_outcome.
  destruct (single (votes_of db rid uid)) as [v|] eqn:S; cbv zeta.
  - destruct (VoteType_eqb (v_vote_type v) t), (votes_trigger db); try discriminate.
    match goal with |- context [single ?l] => destruct (single l) end; discriminate.
  - destruct (insert_allowed db _) eqn:I; [|discriminate].
    destruct (votes_trigger db); [discriminate|].
    intros H. inversion H; subst. split; [|split; reflexivity].
    exact (inserted_vote _ _ I).
Qed.

Lemma votes_rescore db uid rid status now :
  votes (rescore db uid rid status now) = votes db.
Proof. now rewrite rescore_frame. Qed.

Lemma users_rescore db uid rid status now :
  users (rescore db uid rid status now) = users db.
Proof. now rewrite rescore_frame. Qed.

(** *** The request, step by step *)

(** A cast is refused by a check, with nothing written, or it reaches the
    write; then the answer is the error of the write, or the scores are
    recomputed and the answer is the action, or 500 after a vote was
    created. *)
Lemma POST_steps db uid rid t id now :
  (exists status error,
     POST db (Some uid) rid t id now = (Error status error, db)
     /\ (status = 400 \/ status = 404)
     /\ error <> "Internal server error")
  \/ exists resource,
       single (filter (has_id rid) (resources db)) = Some resource
       /\ r_submitted_by resource <> uid
       /\ POST db (Some uid) rid t id now
          = match write_vote db uid rid t (voteWeight (current_reputation db uid)) id now with
            | (dbw, inr error) => (Error 500 error, dbw)
            | (dbw, inl (a, rt)) =>
                (match a with
                 | created => Error 500 "Internal server error"
                 | _ => Json a rt
                 end,
                 rescore dbw uid rid (r_status resource) now)
            end.
Proof.
  unfold POST, current_reputation.
  destruct (single (filter (has_id rid) (resources db))) as [resource|] eqn:Hresource.
  - destruct (negb _).
    { left. do 2 eexists. split; [reflexivity|]. split; [now left | discriminate]. }
    destruct (String.eqb (r_submitted_by resource) uid) eqn:Own.
    { left. do 2 eexists. split; [reflexivity|]. split; [now left | discriminate]. }
    right. exists resource. split; [reflexivity|].
    split; [now apply String.eqb_neq|].
    destruct (write_vote _ _ _ _ _ _ _) as [dbw [[a rt]|err]]; [|reflexivity].
    destruct a; reflexivity.
  - left. do 2 eexists. split; [reflexivity|]. split; [now right | discriminate].
Qed.

(** The errors of the write are not the error after a created vote. *)
Lemma write_vote_error db uid rid t w id now dbw e :
  write_vote db uid rid t w id now = (dbw, inr e) -> e <> "Internal server error".
Proof.
  rewrite write_vote_outcome.
  destruct (single (votes_of db rid uid)) as [v|]; cbv zeta.
  - destruct (VoteType_eqb (v_vote_type v) t), (votes_trigger db);
      try (intros H; inversion H; discriminate).
    match goal with |- context [single ?l] => destruct (single l) end;
      intros H; inversion H; discriminate.
  - destruct (insert_allowed db _), (votes_trigger db); intros H; inversion H; discriminate.
Qed.

(** Whatever the answer, the votes table is as before or as the write left
    it. *)
Lemma POST_votes db user rid t id now :
  votes (snd (POST db user rid t id now)) = votes db
  \/ exists uid w,
       user = Some uid
       /\ votes (snd (POST db user rid t id now))
          = votes (fst (write_vote db uid rid t w id now)).
Proof.
  destruct user as [uid|]; [|now left].
  destruct (POST_steps db uid rid t id now) as [[s [e [-> _]]]|[resource [_ [_ ->]]]];
    [now left|].
  right. exists uid, (voteWeight (current_reputation db uid)). split; [reflexivity|].
  destruct (write_vote _ _ _ _ _ _ _) as [dbw [[a rt]|err]]; cbn [fst snd];
    [apply votes_rescore | reflexivity].
Qed.

Lemma DELETE_votes db user rid now :
  votes (snd (DELETE db user rid now))
  = match user with
    | Some uid =>
        if votes_trigger db && negb (is_empty (votes_of db rid uid)) then votes db
        else filter (fun v => negb (same_pair rid uid v)) (votes db)
    | None => votes db
    end.
Proof.
  unfold DELETE. destruct user as [uid|]; [|reflexivity].
  rewrite votes_statement_outcome. cbn [votes_trigger with_votes].
  rewrite is_empty_map. unfold votes_of.
  destruct (_ && _); [reflexivity|]. destruct (single _); reflexivity.
Qed.

(** *** One cast *)




(** *** At most one vote for a user and a resource *)




End VotesFacts.

(** The weight of a vote is a JavaScript number: for a reputation of 7 it
    is not the decimal 1.7. *)
Example voteWeight_in_binary64 :
  VotesRoute.voteWeight 7 = 1.7000000000000002%float
  /\ VotesRoute.voteWeight 20 = 3%float
  /\ VotesRoute.voteWeight 40 = 5%float
  /\ VotesRoute.voteWeight 1000 = 5%float
  /\ VotesRoute.voteWeight 0 = 1%float.
Proof. repeat split. Qed.





(** * Further properties of the code *)

(** ** Lists and sums *)

Lemma length_nodup_le (l : list string) :
  (List.length (nodup string_dec l) <= List.length l)%nat.
Proof.
  induction l as [|a l IH]; simpl; [lia|].
  destruct (in_dec string_dec a l); simpl; lia.
Qed.

Lemma length_filter_split {A} (p q : A -> bool) (l : list A) :
  (forall x, p x = negb (q x)) ->
  (List.length (filter p l) + List.length (filter q l) = List.length l)%nat.
Proof.
  intros H. induction l as [|a l IH]; simpl; [reflexivity|].
  rewrite H. destruct (q a); simpl; lia.
Qed.

Lemma inject_Z_COUNT_cons {A} (a : A) (l : list A) :
  (inject_Z (COUNT (a :: l)) == inject_Z (COUNT l) + 1)%Q.
Proof.
  unfold COUNT. cbn [List.length]. rewrite Nat2Z.inj_succ, <- Z.add_1_r.
  rewrite inject_Z_plus. reflexivity.
Qed.

(** ** Quality scorer: counts and bounds *)

Lemma one_vote_per_pair_sound db :
  one_vote_per_pair db = true -> VotesRoute.at_most_one_vote db.
Proof.
  unfold one_vote_per_pair. rewrite forallb_forall. intros H rid uid.
  destruct (filter (VotesRoute.same_pair rid uid) (votes db)) as [|v l] eqn:E;
    [simpl; lia|].
  assert (Hv : In v (filter (VotesRoute.same_pair rid uid) (votes db)))
    by (rewrite E; now left).
  apply filter_In in Hv. destruct Hv as [Hin Hp].
  apply same_pair_eq in Hp. destruct Hp as [<- <-].
  specialize (H v Hin). apply Nat.eqb_eq in H.
  unfold VotesRoute.votes_of in H. rewrite E in H. rewrite H. lia.
Qed.

Section QualityScoreCounts.

Variable db : Database.
Variable resource_id : uuid.

Let rows := votes_join_users db resource_id.
Let res := calculate_quality_score db resource_id.

Lemma joined_votes :
  voters_are_users db = true -> map fst rows = votes_on db resource_id.
Proof.
  intros H. unfold rows, votes_join_users, votes_on.
  assert (Hsub : forall v,
             In v (filter (fun v => String.eqb (v_resource_id v) resource_id) (votes db))
             -> In v (votes db)).
  { intros v Hv. apply filter_In in Hv. tauto. }
  induction (filter (fun v => String.eqb (v_resource_id v) resource_id) (votes db))
    as [|v l IH]; simpl; [reflexivity|].
  rewrite map_app, IH by (intros; apply Hsub; now right).
  destruct (voter_row db H v (Hsub v (or_introl eq_refl))) as [u [E _]].
  rewrite E. reflexivity.
Qed.

Lemma up_and_down_are_all : upvotes res + downvotes res = COUNT rows.
Proof.
  unfold res, calculate_quality_score; cbn [upvotes downvotes]. fold rows.
  unfold COUNT. rewrite <- Nat2Z.inj_add. f_equal.
  apply length_filter_split. intros [v u]; cbn [fst]. destruct (v_vote_type v); reflexivity.
Qed.

Lemma count_occ_voters (vs : list Vote) (uid : uuid) :
  count_occ string_dec
    (map v_user_id (filter (fun v => String.eqb (v_resource_id v) resource_id) vs)) uid
  = List.length (filter (VotesRoute.same_pair resource_id uid) vs).
Proof.
  induction vs as [|v l IH]; simpl; [reflexivity|].
  unfold VotesRoute.same_pair at 1.
  destruct (String.eqb (v_resource_id v) resource_id) eqn:R; simpl.
  - destruct (string_dec (v_user_id v) uid) as [Y|N].
    + rewrite Y, String.eqb_refl. cbn [List.length]. f_equal. exact IH.
    + apply String.eqb_neq in N. rewrite N. exact IH.
  - exact IH.
Qed.

Lemma voters_of_one_resource :
  VotesRoute.at_most_one_vote db -> NoDup (map v_user_id (votes_on db resource_id)).
Proof.
  intros U. apply (NoDup_count_occ string_dec). intros uid.
  unfold votes_on. rewrite count_occ_voters. apply U.
Qed.

End QualityScoreCounts.

(** X1. The raw counts of the scorer partition the votes of the resource:
    upvotes + downvotes is the number of its votes, the voter count is never
    more, and with at most one vote for a user and a resource it is exactly
    that number. *)
Theorem counts_partition_the_votes (db : Database) (resource_id : uuid) :
  voters_are_users db = true ->
  let res := calculate_quality_score db resource_id in
  upvotes res + downvotes res = COUNT (votes_on db resource_id)
  /\ voter_count res <= upvotes res + downvotes res
  /\ (one_vote_per_pair db = true -> voter_count res = upvotes res + downvotes res).
Proof.
  intros H res. subst res.
  pose proof (up_and_down_are_all db resource_id) as Hsum.
  pose proof (joined_votes db resource_id H) as Hfst.
  assert (Hlen : COUNT (votes_join_users db resource_id) = COUNT (votes_on db resource_id)).
  { unfold COUNT. now rewrite <- Hfst, length_map. }
  assert (Hids : map (fun vu : Vote * User => v_user_id (fst vu)) (votes_join_users db resource_id)
                 = map v_user_id (votes_on db resource_id)).
  { now rewrite <- Hfst, map_map. }
  split; [now rewrite Hsum|]. rewrite Hsum, Hlen.
  unfold calculate_quality_score; cbn [voter_count]. rewrite Hids.
  unfold COUNT_DISTINCT, COUNT. split.
  - pose proof (length_nodup_le (map v_user_id (votes_on db resource_id))) as L.
    rewrite length_map in L. lia.
  - intros U. apply one_vote_per_pair_sound in U.
    rewrite (nodup_fixed_point string_dec (voters_of_one_resource db resource_id U)).
    now rewrite length_map.
Qed.

Lemma counts_partition_the_votes_witness :
  upvotes (calculate_quality_score Examples.scenario4 "R")
  + downvotes (calculate_quality_score Examples.scenario4 "R")
  = COUNT (votes_on Examples.scenario4 "R")
  /\ voter_count (calculate_quality_score Examples.scenario4 "R")
     = upvotes (calculate_quality_score Examples.scenario4 "R")
       + downvotes (calculate_quality_score Examples.scenario4 "R").
Proof.
  destruct (counts_partition_the_votes Examples.scenario4 "R") as [Hsum [_ Heq]];
    [reflexivity|].
  split; [exact Hsum | apply Heq; reflexivity].
Defined.

Section QualityScoreBounds.

Variable db : Database.
Hypothesis nonnegative : reputations_nonnegative db = true.

Lemma joined_user resource_id (vu : Vote * User) :
  In vu (votes_join_users db resource_id) -> In (snd vu) (users db).
Proof.
  unfold votes_join_users. rewrite in_flat_map. intros [v [_ H]].
  apply in_map_iff in H. destruct H as [u [<- H]]. apply filter_In in H. tauto.
Qed.

Lemma joined_reputation resource_id (vu : Vote * User) :
  In vu (votes_join_users db resource_id) -> 0 <= u_reputation_score (snd vu).
Proof.
  intros H. apply joined_user in H.
  pose proof nonnegative as N. unfold reputations_nonnegative in N.
  rewrite forallb_forall in N. specialize (N _ H). now apply Z.leb_le in N.
Qed.

Lemma sum_between_counts (rows : list (Vote * User)) :
  (forall vu, In vu rows -> 0 <= u_reputation_score (snd vu)) ->
  let ups := inject_Z (COUNT (filter (fun vu => VoteType_eqb (v_vote_type (fst vu)) up) rows)) in
  let downs := inject_Z (COUNT (filter (fun vu => VoteType_eqb (v_vote_type (fst vu)) down) rows)) in
  let total :=
    Qsum (map (fun vu => signed_weight (v_vote_type (fst vu)) (u_reputation_score (snd vu)))
              rows) in
  (ups - 5 * downs <= total <= 5 * ups - downs)%Q.
Proof.
  induction rows as [|[v u] l IH]; intros Hrep.
  - cbn. split; apply Qle_refl.
  - assert (Hl : forall vu, In vu l -> 0 <= u_reputation_score (snd vu))
      by (intros; apply Hrep; now right).
    specialize (IH Hl). cbn zeta in IH.
    pose proof (reputation_weight_bounds (u_reputation_score u)
                  (Hrep (v, u) (or_introl eq_refl))) as [Hlo Hhi].
    cbn zeta. cbn [map filter fst snd Qsum fold_right].
    fold (Qsum (map (fun vu : Vote * User =>
                       signed_weight (v_vote_type (fst vu)) (u_reputation_score (snd vu))) l)).
    destruct (v_vote_type v); cbn [VoteType_eqb signed_weight];
      rewrite inject_Z_COUNT_cons; lra.
Qed.

End QualityScoreBounds.

(** X2. With no negative reputation, a vote weighs between 1 and 5, so the
    weighted score of a resource lies between upvotes - 5 * downvotes and
    5 * upvotes - downvotes. *)
Theorem weighted_score_between_counts (db : Database) (resource_id : uuid) :
  reputations_nonnegative db = true ->
  let res := calculate_quality_score db resource_id in
  (inject_Z (upvotes res) - 5 * inject_Z (downvotes res) <= weighted_score res
   /\ weighted_score res <= 5 * inject_Z (upvotes res) - inject_Z (downvotes res))%Q.
Proof.
  intros H res. subst res.
  pose proof (sum_between_counts (votes_join_users db resource_id)
                (joined_reputation db H resource_id)) as B.
  cbn zeta in B. unfold calculate_quality_score; cbn [upvotes downvotes weighted_score].
  rewrite COALESCE_SUM. exact B.
Qed.

Lemma weighted_score_between_counts_witness :
  (inject_Z (upvotes (calculate_quality_score Examples.contested "R"))
   - 5 * inject_Z (downvotes (calculate_quality_score Examples.contested "R"))
   <= weighted_score (calculate_quality_score Examples.contested "R")
   /\ weighted_score (calculate_quality_score Examples.contested "R")
      <= 5 * inject_Z (upvotes (calculate_quality_score Examples.contested "R"))
         - inject_Z (downvotes (calculate_quality_score Examples.contested "R")))%Q.
Proof.
  apply (weighted_score_between_counts Examples.contested "R"). reflexivity.
Defined.

Lemma AND_true (a b : option bool) :
  AND a b = Some true <-> a = Some true /\ b = Some true.
Proof.
  destruct a as [[|]|], b as [[|]|]; simpl; split; intros H;
    try discriminate; try (destruct H; discriminate); auto.
Qed.

(** X3. With the three keys configured, a verdict is exactly its threshold
    test: approve when the weighted score is at least auto_approve_threshold
    and the voter count at least min_votes_for_auto_action, hide when the
    score is at most auto_hide_threshold and the voters as many. With
    auto_hide_threshold below auto_approve_threshold the scorer never gives
    both verdicts: one being true, the other is false. *)
Theorem verdicts_are_threshold_tests (db : Database) (resource_id : uuid) (a h : Q) (m : Z) :
  auto_approve_threshold (system_config db) = Some a ->
  auto_hide_threshold (system_config db) = Some h ->
  min_votes_for_auto_action (system_config db) = Some m ->
  let res := calculate_quality_score db resource_id in
  (should_auto_approve res = Some true
   <-> (a <= weighted_score res)%Q /\ m <= voter_count res)
  /\ (should_auto_hide res = Some true
      <-> (weighted_score res <= h)%Q /\ m <= voter_count res)
  /\ ((h < a)%Q ->
      (should_auto_approve res = Some true -> should_auto_hide res = Some false)
      /\ (should_auto_hide res = Some true -> should_auto_approve res = Some false)).
Proof.
  intros Ha Hh Hm res.
  assert (Hvoters : forall n : Z, Qle_bool (inject_Z m) (inject_Z n) = true <-> m <= n).
  { intros n. rewrite Qle_bool_iff, <- Zle_Qle. tauto. }
  assert (Happrove : should_auto_approve res
                     = Some (Qle_bool a (weighted_score res)
                             && Qle_bool (inject_Z m) (inject_Z (voter_count res)))).
  { subst res. unfold calculate_quality_score; cbn [should_auto_approve weighted_score voter_count].
    rewrite Ha, Hm. cbn [option_map GE]. now destruct (Qle_bool a _), (Qle_bool (inject_Z m) _). }
  assert (Hhide : should_auto_hide res
                  = Some (Qle_bool (weighted_score res) h
                          && Qle_bool (inject_Z m) (inject_Z (voter_count res)))).
  { subst res. unfold calculate_quality_score; cbn [should_auto_hide weighted_score voter_count].
    rewrite Hh, Hm. cbn [option_map GE LE]. now destruct (Qle_bool _ h), (Qle_bool (inject_Z m) _). }
  rewrite Happrove, Hhide.
  assert (Some_true : forall b : bool, Some b = Some true <-> b = true)
    by (intros b; split; congruence).
  rewrite !Some_true, !andb_true_iff, !Hvoters, !Qle_bool_iff.
  split; [tauto|]. split; [tauto|].
  intros Hlt. split; intros [E _]; f_equal; apply andb_false_iff; left;
    apply not_true_is_false; rewrite Qle_bool_iff; lra.
Qed.

Lemma verdicts_are_threshold_tests_witness :
  should_auto_hide (calculate_quality_score Examples.scenario4 "R") = Some false.
Proof.
  refine (proj1 (proj2 (proj2 (verdicts_are_threshold_tests Examples.scenario4 "R" 10 (-5) 3
                                 eq_refl eq_refl eq_refl)) _) _);
    reflexivity.
Defined.

(** ** Resource state updater: what a recomputation writes *)

Lemma update_resource_scores_writes db rid now :
  update_resource_scores db rid now
  = with_resources db (UPDATE (has_id rid) (rescored_row db rid now) (resources db)).
Proof.
  unfold update_resource_scores, rescored_row.
  destruct (select_status db rid) as [[| | |]|]; try reflexivity.
  destruct (holds (should_auto_approve _)).
  - unfold with_resources; cbn. f_equal. apply UPDATE_UPDATE. reflexivity.
  - destruct (holds (should_auto_hide _)); [|reflexivity].
    unfold with_resources; cbn. f_equal. apply UPDATE_UPDATE. reflexivity.
Qed.

(** The scorer reads the votes, the users and the configuration only. *)
Lemma calculate_quality_score_reads db db' rid :
  users db' = users db -> votes db' = votes db -> system_config db' = system_config db ->
  calculate_quality_score db' rid = calculate_quality_score db rid.
Proof.
  intros Hu Hv Hc. unfold calculate_quality_score, votes_join_users.
  now rewrite Hu, Hv, Hc.
Qed.

Lemma min_votes_gate db rid m :
  min_votes_for_auto_action (system_config db) = Some m ->
  voter_count (calculate_quality_score db rid) < m ->
  should_auto_approve (calculate_quality_score db rid) = Some false
  /\ should_auto_hide (calculate_quality_score db rid) = Some false.
Proof.
  intros Hm Hlt.
  assert (G : GE (Some (inject_Z (voter_count (calculate_quality_score db rid))))
                 (option_map inject_Z (min_votes_for_auto_action (system_config db)))
              = Some false).
  { rewrite Hm. cbn [option_map GE]. f_equal. apply not_true_is_false.
    rewrite Qle_bool_iff, <- Zle_Qle. lia. }
  unfold calculate_quality_score in *; cbn [should_auto_approve should_auto_hide voter_count] in *.
  rewrite G. split.
  - now destruct (GE _ (auto_approve_threshold _)) as [[|]|].
  - now destruct (LE _ (auto_hide_threshold _)) as [[|]|].
Qed.

(** X4. Below the configured minimum of voters a recomputation moderates
    nothing, whatever the score: both verdicts are false and every status
    stays. A resource without votes has counts 0 and score 0, so a minimum of
    at least one leaves it alone. *)
Theorem below_minimum_votes_nothing_is_moderated
    (db : Database) (resource_id : uuid) (m : Z) :
  min_votes_for_auto_action (system_config db) = Some m ->
  let res := calculate_quality_score db resource_id in
  (voter_count res < m ->
   should_auto_approve res = Some false /\ should_auto_hide res = Some false
   /\ forall now,
        map r_status (resources (update_resource_scores db resource_id now))
        = map r_status (resources db))
  /\ (votes_on db resource_id = [] ->
      upvotes res = 0 /\ downvotes res = 0 /\ weighted_score res = 0%Q
      /\ voter_count res = 0).
Proof.
  intros Hm res. subst res. split.
  - intros Hlt. destruct (min_votes_gate db resource_id m Hm Hlt) as [Ha Hh].
    split; [exact Ha|]. split; [exact Hh|].
    intros now. rewrite update_resource_scores_writes; cbn [resources with_resources].
    unfold UPDATE. rewrite map_map. apply map_ext. intros r.
    destruct (has_id resource_id r); [|reflexivity].
    unfold rescored_row. rewrite Ha, Hh.
    now destruct (select_status db resource_id) as [[| | |]|].
  - intros E. unfold calculate_quality_score, votes_join_users.
    unfold votes_on in E. rewrite E. repeat split.
Qed.

Lemma below_minimum_votes_nothing_is_moderated_witness :
  should_auto_approve (calculate_quality_score Examples.contested "R") = Some false
  /\ should_auto_hide (calculate_quality_score Examples.contested "R") = Some false
  /\ voter_count (calculate_quality_score Examples.unvoted "R") = 0.
Proof.
  destruct (below_minimum_votes_nothing_is_moderated Examples.contested "R" 3 eq_refl)
    as [[Ha [Hh _]] _]; [reflexivity|].
  destruct (below_minimum_votes_nothing_is_moderated Examples.unvoted "R" 3 eq_refl)
    as [_ Hnone].
  split; [exact Ha|]. split; [exact Hh|]. apply Hnone. reflexivity.
Defined.

Section Recomputation.

Variable db : Database.
Variable resource_id : uuid.
Variable now : timestamp.

Let db' := update_resource_scores db resource_id now.

Lemma scorer_after_recomputation :
  calculate_quality_score db' resource_id = calculate_quality_score db resource_id.
Proof.
  unfold db'. rewrite update_resource_scores_writes.
  apply calculate_quality_score_reads; reflexivity.
Qed.

(** The status the next recomputation will read. *)
Lemma select_status_after_recomputation :
  select_status db' resource_id
  = option_map (fun r => r_status (rescored_row db resource_id now r))
      (find (has_id resource_id) (resources db)).
Proof.
  unfold db', select_status. rewrite update_resource_scores_writes.
  cbn [resources with_resources].
  rewrite (find_has_id_UPDATE _ _ _ _ (rescored_row_id db resource_id now)).
  destruct (find (has_id resource_id) (resources db)) as [r|] eqn:F; [|reflexivity].
  cbn [option_map]. pose proof (find_has_id _ _ _ F) as Hid.
  unfold has_id at 1. now rewrite Hid, String.eqb_refl.
Qed.

Lemma rescored_row_again (r : Resource) :
  find (has_id resource_id) (resources db) <> None ->
  rescored_row db' resource_id now (rescored_row db resource_id now r)
  = rescored_row db resource_id now r.
Proof.
  intros Found. unfold rescored_row at 1.
  rewrite scorer_after_recomputation, select_status_after_recomputation.
  destruct (find (has_id resource_id) (resources db)) as [r0|] eqn:F; [|congruence].
  cbn [option_map]. unfold rescored_row, select_status. rewrite F. cbn [option_map].
  destruct (r_status r0) eqn:S0;
    destruct (holds (should_auto_approve (calculate_quality_score db resource_id))) eqn:A;
    destruct (holds (should_auto_hide (calculate_quality_score db resource_id))) eqn:H;
    cbn [r_status set_scores set_status]; rewrite ?S0, ?A, ?H; reflexivity.
Qed.

End Recomputation.

(** X5. update_resource_scores is idempotent: run again at once on the same
    resource, it leaves the database as the first run left it, whether the
    first run approved, hid or only rescored the resource. *)
Theorem recomputation_is_idempotent (db : Database) (resource_id : uuid) (now : timestamp) :
  update_resource_scores (update_resource_scores db resource_id now) resource_id now
  = update_resource_scores db resource_id now.
Proof.
  set (d := update_resource_scores db resource_id now).
  assert (R : resources d
              = UPDATE (has_id resource_id) (rescored_row db resource_id now) (resources db))
    by (unfold d; now rewrite update_resource_scores_writes).
  rewrite (update_resource_scores_writes d).
  transitivity (with_resources d (resources d)); [f_equal | now destruct d].
  rewrite R. unfold UPDATE. rewrite map_map. apply map_ext_in. intros r Hin.
  destruct (has_id resource_id r) eqn:E.
  - unfold has_id at 1. rewrite rescored_row_id. unfold has_id in E. rewrite E.
    apply rescored_row_again. intros F.
    apply (find_none _ _ F) in Hin. unfold has_id in Hin. congruence.
  - now rewrite E.
Qed.

Lemma Forall2_UPDATE_in {A} (R : A -> A -> Prop) (w : A -> bool) (f : A -> A) l :
  (forall r, In r l -> w r = true -> R r (f r)) ->
  (forall r, In r l -> w r = false -> R r r) ->
  Forall2 R l (UPDATE w f l).
Proof.
  induction l as [|a l IH]; intros Ht Hf; simpl; constructor.
  - destruct (w a) eqn:E; [apply Ht | apply Hf]; auto; now left.
  - apply IH; intros; [apply Ht | apply Hf]; auto; now right.
Qed.

Lemma rescored_row_scores db rid now r :
  let res := calculate_quality_score db rid in
  r_upvotes (rescored_row db rid now r) = upvotes res
  /\ r_downvotes (rescored_row db rid now r) = downvotes res
  /\ r_quality_score (rescored_row db rid now r) = Some (weighted_score res)
  /\ r_updated_at (rescored_row db rid now r) = now.
Proof.
  unfold rescored_row.
  destruct (select_status db rid) as [[| | |]|]; try (repeat split).
  all: destruct (holds (should_auto_approve _)); [reflexivity|];
    destruct (holds (should_auto_hide _)); reflexivity.
Qed.

(** X6. A recomputation writes the resources table only. The rows of the
    resource get the scorer's upvotes, downvotes and weighted score (and the
    time of the run); every other row, and the votes, users, interactions,
    preferences, rewards and configuration, stay as they were. *)
Theorem recomputation_stores_the_scorer_s_row
    (db : Database) (resource_id : uuid) (now : timestamp) :
  let db' := update_resource_scores db resource_id now in
  let res := calculate_quality_score db resource_id in
  Forall2
    (fun r r' =>
       r_id r' = r_id r
       /\ if has_id resource_id r
          then r_upvotes r' = upvotes res /\ r_downvotes r' = downvotes res
               /\ r_quality_score r' = Some (weighted_score res)
               /\ r_updated_at r' = now
          else r' = r)
    (resources db) (resources db')
  /\ users db' = users db /\ votes db' = votes db
  /\ user_interactions db' = user_interactions db
  /\ user_preferences db' = user_preferences db
  /\ weekly_rewards db' = weekly_rewards db
  /\ reward_distributions db' = reward_distributions db
  /\ system_config db' = system_config db
  /\ calculate_quality_score db' resource_id = res.
Proof.
  intros db' res. subst db' res. split.
  - rewrite update_resource_scores_writes; cbn [resources with_resources].
    apply Forall2_UPDATE; intros r E; rewrite E.
    + split; [apply rescored_row_id | apply rescored_row_scores].
    + split; reflexivity.
  - rewrite scorer_after_recomputation, update_resource_scores_writes. repeat split.
Qed.

Lemma distinct_ids_find db r :
  resources_have_distinct_ids db = true -> In r (resources db) ->
  find (has_id (r_id r)) (resources db) = Some r.
Proof.
  unfold resources_have_distinct_ids. rewrite forallb_forall. intros H Hin.
  specialize (H r Hin). apply Nat.eqb_eq in H.
  destruct (filter (has_id (r_id r)) (resources db)) as [|x [|y l]] eqn:E; try discriminate.
  assert (Hr : In r (filter (has_id (r_id r)) (resources db))).
  { apply filter_In. split; [exact Hin|]. unfold has_id. apply String.eqb_refl. }
  rewrite E in Hr. destruct Hr as [->|[]]. now apply filter_single_find.
Qed.

(** X7. With identifiers that tell the resources apart, a recomputation
    moves a status along the automatic transitions only: a status stays, or
    it is pending and becomes approved or hidden. No run makes a resource
    rejected, or pending again, or moves it out of approved, hidden or
    rejected. *)
Theorem recomputation_follows_the_state_machine
    (db : Database) (resource_id : uuid) (now : timestamp) :
  resources_have_distinct_ids db = true ->
  Forall2
    (fun r r' => automatic_transition (r_status r) (r_status r'))
    (resources db) (resources (update_resource_scores db resource_id now)).
Proof.
  intros PK. rewrite update_resource_scores_writes; cbn [resources with_resources].
  apply Forall2_UPDATE_in; intros r Hin E; [|now left].
  pose proof (distinct_ids_find db r PK Hin) as F.
  apply String.eqb_eq in E. rewrite E in F.
  unfold automatic_transition, rescored_row, select_status. rewrite F. cbn [option_map].
  destruct (r_status r) eqn:S; try (left; cbn [r_status set_scores]; congruence).
  destruct (holds (should_auto_approve _)); [right; auto|].
  destruct (holds (should_auto_hide _)); [right; auto|].
  left. cbn [r_status set_scores]. congruence.
Qed.

Lemma recomputation_follows_the_state_machine_witness :
  Forall2
    (fun r r' => automatic_transition (r_status r) (r_status r'))
    (resources Examples.scenario4)
    (resources (update_resource_scores Examples.scenario4 "R" 100)).
Proof.
  apply (recomputation_follows_the_state_machine Examples.scenario4 "R" 100). reflexivity.
Defined.

(** ** Votes route: what a cast leaves behind *)

Lemma UPDATE_where_ext {A} (w w' : A -> bool) (f : A -> A) (l : list A) :
  (forall x, In x l -> w x = w' x) -> UPDATE w f l = UPDATE w' f l.
Proof.
  intros H. unfold UPDATE. apply map_ext_in. intros x Hx. now rewrite (H x Hx).
Qed.

Lemma UPDATE_untouched {A} (w : A -> bool) (f : A -> A) (l : list A) :
  (forall x, In x l -> w x = false) -> UPDATE w f l = l.
Proof.
  induction l as [|a l IH]; intros H; simpl; [reflexivity|].
  rewrite (H a (or_introl eq_refl)). f_equal. apply IH. intros x Hx. apply H. now right.
Qed.

(** On bare tables the recomputation the handler does itself is the stored
    procedure's, as long as the status it read is the status the procedure
    reads. *)
Lemma rescore_is_the_procedure db uid rid st now :
  row_security db = false -> select_status db rid = Some st ->
  VotesRoute.rescore db uid rid st now = update_resource_scores db rid now.
Proof.
  intros B H.
  assert (W : forall r, VotesRoute.reaches_resource db uid rid r = has_id rid r).
  { intros r. unfold VotesRoute.reaches_resource, VotesRoute.own_resource.
    rewrite B. cbn [negb orb]. apply andb_true_r. }
  unfold VotesRoute.rescore, rpc_calculate_quality_score, update_resource_scores.
  rewrite H. cbv zeta. cbn [resources with_resources].
  rewrite !(UPDATE_where_ext (VotesRoute.reaches_resource db uid rid) (has_id rid))
    by (intros; apply W).
  now destruct st.
Qed.

(** Under the policies the voter, who is not the submitter, reaches no row
    of resources: the recomputation of the handler writes nothing. *)
Lemma rescore_under_policies db uid rid st now resource :
  row_security db = true ->
  VotesRoute.single (filter (has_id rid) (resources db)) = Some resource ->
  r_submitted_by resource <> uid ->
  VotesRoute.rescore db uid rid st now = db.
Proof.
  intros B S N. apply single_Some_one in S.
  assert (W : forall r, In r (resources db) ->
                        VotesRoute.reaches_resource db uid rid r = false).
  { intros r Hr. unfold VotesRoute.reaches_resource, VotesRoute.own_resource.
    rewrite B. cbn [negb orb].
    destruct (has_id rid r) eqn:E; [|reflexivity].
    assert (I : In r (filter (has_id rid) (resources db))) by (apply filter_In; now split).
    rewrite S in I. destruct I as [<-|[]]. now apply String.eqb_neq. }
  unfold VotesRoute.rescore, rpc_calculate_quality_score. cbv zeta.
  rewrite (UPDATE_untouched _ _ _ W), with_resources_same.
  rewrite (UPDATE_untouched _ _ _ W), (UPDATE_untouched _ _ _ W), with_resources_same.
  destruct (ResourceStatus_eqb st pending); [|reflexivity].
  destruct (holds (should_auto_approve _)); [reflexivity|].
  destruct (holds (should_auto_hide _)); reflexivity.
Qed.

Lemma filter_map_kept {A} (p : A -> bool) (g : A -> A) (l : list A) :
  (forall x, p (g x) = p x) -> filter p (map g l) = map g (filter p l).
Proof.
  intros H. induction l as [|a l IH]; simpl; [reflexivity|].
  rewrite H. destruct (p a); simpl; now rewrite IH.
Qed.

(** A cast whose write went through, step by step. *)
Lemma POST_written db uid rid t id now resp db' :
  VotesRoute.POST db (Some uid) rid t id now = (resp, db') ->
  (exists a rt, resp = VotesRoute.Json a rt) \/ resp = VotesRoute.Error 500 "Internal server error" ->
  exists resource dbw a rt,
    VotesRoute.single (filter (has_id rid) (resources db)) = Some resource
    /\ r_submitted_by resource <> uid
    /\ VotesRoute.write_vote db uid rid t
         (VotesRoute.voteWeight (current_reputation db uid)) id now
       = (dbw, inl (a, rt))
    /\ db' = VotesRoute.rescore dbw uid rid (r_status resource) now
    /\ resp = match a with
              | VotesRoute.created => VotesRoute.Error 500 "Internal server error"
              | _ => VotesRoute.Json a rt
              end.
Proof.
  intros P R.
  destruct (VotesFacts.POST_steps db uid rid t id now)
    as [[s [e [Q [_ Ne]]]]|[resource [S [N Q]]]]; rewrite Q in P.
  { exfalso. inversion P; subst. destruct R as [[a [rt R]]|R]; [discriminate|].
    injection R as _ R'. congruence. }
  destruct (VotesRoute.write_vote _ _ _ _ _ _ _) as [dbw [[a rt]|err]] eqn:W.
  - exists resource, dbw, a, rt. inversion P; subst. repeat split; assumption.
  - exfalso. inversion P; subst. destruct R as [[a [rt R]]|R]; [discriminate|].
    injection R as R'. exact (VotesFacts.write_vote_error _ _ _ _ _ _ _ _ _ W R').
Qed.

(** X8. After a cast whose write went through, answered with success or
    with 500 after a vote was created, the scores are recomputed by the
    handler as the voter. On bare tables the database is what
    update_resource_scores leaves once the vote is written, and the upvotes,
    downvotes and quality score stored for the resource are the scorer's on
    the database the request leaves. Under the policies the voter, who is not
    the submitter, reaches no row of resources, and the database is the one
    with the vote written: the stored scores are not brought in step. *)
Theorem cast_recomputes_scores_as_the_voter
    (db : Database) (user_id resource_id : uuid) (t : VoteType) (id : uuid) (now : timestamp)
    (resp : VotesRoute.Response) (db' : Database) :
  VotesRoute.POST db (Some user_id) resource_id t id now = (resp, db') ->
  (exists a rt, resp = VotesRoute.Json a rt)
  \/ resp = VotesRoute.Error 500 "Internal server error" ->
  exists dbw a rt,
    VotesRoute.write_vote db user_id resource_id t
      (VotesRoute.voteWeight (current_reputation db user_id)) id now
    = (dbw, inl (a, rt))
    /\ if row_security db then db' = dbw
       else db' = update_resource_scores dbw resource_id now
            /\ forall r',
                 In r' (resources db') -> r_id r' = resource_id ->
                 let res := calculate_quality_score db' resource_id in
                 r_upvotes r' = upvotes res /\ r_downvotes r' = downvotes res
                 /\ r_quality_score r' = Some (weighted_score res).
Proof.
  intros P R.
  destruct (POST_written _ _ _ _ _ _ _ _ P R) as [resource [dbw [a [rt [S [N [W [E _]]]]]]]].
  exists dbw, a, rt. split; [exact W|].
  pose proof (resources_write_vote db user_id resource_id t
                (VotesRoute.voteWeight (current_reputation db user_id)) id now) as Hres.
  pose proof (deployment_write_vote db user_id resource_id t
                (VotesRoute.voteWeight (current_reputation db user_id)) id now) as [_ Hsec].
  rewrite W in Hres, Hsec. cbn [fst] in Hres, Hsec.
  destruct (row_security db) eqn:B.
  - rewrite E. apply (rescore_under_policies dbw _ _ _ _ resource); [exact Hsec| |exact N].
    now rewrite Hres.
  - assert (St : select_status dbw resource_id = Some (r_status resource)).
    { unfold select_status. rewrite Hres.
      now rewrite (single_filter_find _ _ _ S). }
    rewrite (rescore_is_the_procedure dbw _ _ _ now Hsec St) in E.
    split; [exact E|].
    intros r' Hin Hid res. subst res. rewrite E in *.
    rewrite scorer_after_recomputation.
    rewrite update_resource_scores_writes in Hin; cbn [resources with_resources] in Hin.
    unfold UPDATE in Hin. apply in_map_iff in Hin. destruct Hin as [r [Er _]].
    destruct (has_id resource_id r) eqn:Hr.
    + subst r'. pose proof (rescored_row_scores dbw resource_id now r) as Sc.
      cbn zeta in Sc. tauto.
    + subst r'. unfold has_id in Hr. rewrite Hid, String.eqb_refl in Hr. discriminate.
Qed.

Lemma cast_recomputes_scores_as_the_voter_witness :
  (exists dbw a rt,
     VotesRoute.write_vote Examples.scenario4 "u20" "R" up
       (VotesRoute.voteWeight (current_reputation Examples.scenario4 "u20")) "v5" 10
     = (dbw, inl (a, rt))
     /\ if row_security Examples.scenario4
        then snd (VotesRoute.POST Examples.scenario4 (Some "u20") "R" up "v5" 10) = dbw
        else snd (VotesRoute.POST Examples.scenario4 (Some "u20") "R" up "v5" 10)
             = update_resource_scores dbw "R" 10
             /\ forall r',
                  In r' (resources (snd (VotesRoute.POST Examples.scenario4 (Some "u20") "R"
                                           up "v5" 10))) ->
                  r_id r' = "R" ->
                  let res :=
                    calculate_quality_score
                      (snd (VotesRoute.POST Examples.scenario4 (Some "u20") "R" up "v5" 10))
                      "R" in
                  r_upvotes r' = upvotes res /\ r_downvotes r' = downvotes res
                  /\ r_quality_score r' = Some (weighted_score res))
  /\ row_security Examples.scenario4 = false
  /\ fst (VotesRoute.POST Examples.scenario4 (Some "u20") "R" up "v5" 10)
     = VotesRoute.Json VotesRoute.removed None.
Proof.
  split; [|split; reflexivity].
  apply (cast_recomputes_scores_as_the_voter Examples.scenario4 "u20" "R" up "v5" 10
           (VotesRoute.Json VotesRoute.removed None)).
  - reflexivity.
  - left. do 2 eexists. reflexivity.
Defined.

(** ** Votes route: refusals, other pairs, and undoing a cast *)

Lemma distinct_vote_ids_single db v :
  votes_have_distinct_ids db = true -> In v (votes db) ->
  filter (VotesRoute.has_vote_id (v_id v)) (votes db) = [v].
Proof.
  intros D Hin. unfold votes_have_distinct_ids in D.
  rewrite forallb_forall in D. specialize (D v Hin). apply Nat.eqb_eq in D.
  assert (I : In v (filter (VotesRoute.has_vote_id (v_id v)) (votes db))).
  { apply filter_In. split; [exact Hin|]. apply String.eqb_refl. }
  destruct (filter (VotesRoute.has_vote_id (v_id v)) (votes db)) as [|y [|z l]];
    try discriminate.
  destruct I as [->|[]]. reflexivity.
Qed.


(** The cast that is answered "Internal server error" has created the
    vote. *)
Lemma POST_created db uid rid t id now status db' :
  VotesRoute.POST db (Some uid) rid t id now
  = (VotesRoute.Error status "Internal server error", db') ->
  status = 500
  /\ VotesRoute.votes_of db rid uid = []
  /\ VotesRoute.votes_of db' rid uid
     = [{| v_id := id; v_resource_id := rid; v_user_id := uid;
           v_vote_type := t;
           v_weight := VotesRoute.voteWeight (current_reputation db uid);
           v_created_at := now; v_updated_at := now |}].
Proof.
  intros P.
  destruct (VotesFacts.POST_steps db uid rid t id now)
    as [[s [e [Q [_ Ne]]]]|[resource [S [N Q]]]]; rewrite Q in P.
  { inversion P; subst. congruence. }
  destruct (VotesRoute.write_vote _ _ _ _ _ _ _) as [dbw [[a rt]|err]] eqn:W.
  - destruct a; inversion P; subst.
    destruct (VotesFacts.write_vote_created _ _ _ _ _ _ _ _ _ W) as [E [_ ->]].
    split; [reflexivity|]. split; [exact E|].
    unfold VotesRoute.votes_of at 1. rewrite VotesFacts.votes_rescore.
    now apply VotesFacts.votes_of_inserted.
  - inversion P; subst.
    now elim (VotesFacts.write_vote_error _ _ _ _ _ _ _ _ _ W).
Qed.



Lemma filter_filter_kept {A} (p q : A -> bool) (l : list A) :
  (forall x, In x l -> p x = true -> q x = true) ->
  filter p (filter q l) = filter p l.
Proof.
  induction l as [|a l IH]; intros H; simpl; [reflexivity|].
  assert (IH' : filter p (filter q l) = filter p l)
    by (apply IH; intros x Hx; apply H; now right).
  destruct (q a) eqn:Q; simpl.
  - now rewrite IH'.
  - destruct (p a) eqn:P; [|exact IH'].
    rewrite (H a (or_introl eq_refl) P) in Q. discriminate.
Qed.

Lemma other_pair rid uid rid' uid' v :
  (rid, Some uid) <> (rid', Some uid') ->
  VotesRoute.same_pair rid uid v = true -> VotesRoute.same_pair rid' uid' v = false.
Proof.
  intros N P. apply same_pair_eq in P. destruct P as [<- <-].
  destruct (VotesRoute.same_pair rid' uid' v) eqn:P'; [|reflexivity].
  apply same_pair_eq in P'. destruct P' as [<- <-]. now elim N.
Qed.

Lemma write_vote_other_pair db uid rid t w id now rid' uid' :
  votes_have_distinct_ids db = true ->
  (rid, Some uid) <> (rid', Some uid') ->
  filter (VotesRoute.same_pair rid' uid')
         (votes (fst (VotesRoute.write_vote db uid rid t w id now)))
  = filter (VotesRoute.same_pair rid' uid') (votes db).
Proof.
  intros D N. rewrite VotesFacts.write_vote_votes.
  destruct (VotesRoute.single (VotesRoute.votes_of db rid uid)) as [v|] eqn:S.
  - destruct (existing_vote _ _ _ _ S) as [Hin [P _]].
    destruct (votes_trigger db); [reflexivity|].
    assert (O : forall x, In x (votes db) -> VotesRoute.same_pair rid' uid' x = true ->
                          VotesRoute.reaches_vote db uid (v_id v) x = false).
    { intros x Hx Px. unfold VotesRoute.reaches_vote.
      destruct (VotesRoute.has_vote_id (v_id v) x) eqn:I; [|reflexivity].
      assert (X : In x (filter (VotesRoute.has_vote_id (v_id v)) (votes db)))
        by (apply filter_In; now split).
      rewrite (distinct_vote_ids_single db v D Hin) in X. destruct X as [<-|[]].
      rewrite (other_pair _ _ _ _ _ N P) in Px. discriminate. }
    destruct (VoteType_eqb _ _).
    + apply filter_filter_kept. intros x Hx Px. now rewrite (O x Hx Px).
    + rewrite VotesFacts.filter_UPDATE by reflexivity.
      apply UPDATE_untouched. intros x Hx. apply filter_In in Hx. now apply O.
  - cbv zeta. destruct (_ && _); [|reflexivity].
    rewrite filter_app. cbn [filter].
    rewrite (other_pair rid uid rid' uid'); [apply app_nil_r|exact N|].
    apply same_pair_eq. now split.
Qed.

(** X10. A request reads and writes the votes of one user on one resource:
    the votes of every other pair are, after a cast or a removal, the ones
    before it. *)
Theorem requests_leave_other_pairs_alone
    (db : Database) (req : VotesRoute.Request) (resource_id user_id : uuid) :
  votes_have_distinct_ids db = true ->
  (request_resource req, request_user req) <> (resource_id, Some user_id) ->
  VotesRoute.votes_of (VotesRoute.handle db req) resource_id user_id
  = VotesRoute.votes_of db resource_id user_id.
Proof.
  intros D N. unfold VotesRoute.votes_of. destruct req as [user rid t id now|user rid now];
    cbn [VotesRoute.handle request_resource request_user] in *.
  - destruct (VotesFacts.POST_votes db user rid t id now) as [E|[uid [w [U E]]]];
      rewrite E; [reflexivity|].
    subst user. now apply write_vote_other_pair.
  - rewrite VotesFacts.DELETE_votes. destruct user as [uid|]; [|reflexivity].
    destruct (_ && _); [reflexivity|].
    apply filter_filter_kept. intros x _ P.
    destruct (VotesRoute.same_pair rid uid x) eqn:P'; [|reflexivity].
    rewrite (other_pair _ _ _ _ _ N P') in P. discriminate.
Qed.

Lemma requests_leave_other_pairs_alone_witness :
  VotesRoute.votes_of
    (VotesRoute.handle Examples.scenario4 (VotesRoute.Cast (Some "u20") "R" down "v5" 10))
    "R" "u50"
  = VotesRoute.votes_of Examples.scenario4 "R" "u50".
Proof.
  apply (requests_leave_other_pairs_alone Examples.scenario4
           (VotesRoute.Cast (Some "u20") "R" down "v5" 10) "R" "u50").
  - reflexivity.
  - discriminate.
Defined.

(** The removal, with the outcome of the statement decided. *)
Lemma DELETE_outcome db uid rid now :
  VotesRoute.DELETE db (Some uid) rid now
  = if votes_trigger db && negb (is_empty (VotesRoute.votes_of db rid uid))
    then ((500, "Failed to delete vote"), db)
    else
      let db1 :=
        with_votes db (filter (fun v => negb (VotesRoute.same_pair rid uid v)) (votes db)) in
      match VotesRoute.single (VotesRoute.votes_of db rid uid) with
      | None => ((404, "No vote found to delete"), db1)
      | Some _ => ((500, "Internal server error"), db1)
      end.
Proof.
  unfold VotesRoute.DELETE. rewrite votes_statement_outcome.
  cbn [votes_trigger with_votes]. rewrite VotesFacts.is_empty_map.
  unfold VotesRoute.votes_of. now destruct (_ && _).
Qed.

(** X11. DELETE takes a first cast back: after a cast by a user with no vote
    on the resource, whatever it was answered, the removal leaves the votes
    table, and the users table, as they were before the cast. The removal is
    answered 404 when the cast had written no vote, and 500 when it had:
    no removal is answered with success. *)
Theorem delete_undoes_a_first_cast
    (db : Database) (user_id resource_id : uuid) (t : VoteType) (id : uuid)
    (now now' : timestamp) (resp : VotesRoute.Response) (db1 : Database) :
  VotesRoute.votes_of db resource_id user_id = [] ->
  VotesRoute.POST db (Some user_id) resource_id t id now = (resp, db1) ->
  let answer := VotesRoute.DELETE db1 (Some user_id) resource_id now' in
  votes (snd answer) = votes db
  /\ users (snd answer) = users db
  /\ fst answer
     = if is_empty (VotesRoute.votes_of db1 resource_id user_id)
       then (404, "No vote found to delete")
       else (500, "Internal server error").
Proof.
  intros V P. cbv zeta. rewrite DELETE_outcome.
  assert (Back : forall d, votes d = votes db ->
            filter (fun v => negb (VotesRoute.same_pair resource_id user_id v)) (votes d)
            = votes db).
  { intros d ->. now apply VotesFacts.filter_negb_all. }
  destruct (VotesFacts.POST_steps db user_id resource_id t id now)
    as [[s [e [Q _]]]|[resource [_ [_ Q]]]]; rewrite Q in P.
  { inversion P; subst. rewrite V. cbn [is_empty negb VotesRoute.single].
    rewrite andb_false_r. cbn [fst snd votes users with_votes].
    split; [now apply Back|]. split; reflexivity. }
  rewrite (VotesFacts.write_vote_first _ _ _ _ _ _ _ V) in P.
  destruct (VotesRoute.insert_allowed db _ && negb (votes_trigger db)) eqn:G;
    inversion P; subst; clear P.
  - apply andb_true_iff in G. destruct G as [_ G]. apply negb_true_iff in G.
    set (newVote := {| v_id := id; v_resource_id := resource_id; v_user_id := user_id;
                       v_vote_type := t;
                       v_weight := VotesRoute.voteWeight (current_reputation db user_id);
                       v_created_at := now; v_updated_at := now |}).
    set (d := VotesRoute.rescore _ _ _ _ _).
    assert (Fd : d = with_resources (with_votes db (votes db ++ [newVote])%list) (resources d))
      by apply rescore_frame.
    assert (Vd : VotesRoute.votes_of d resource_id user_id = [newVote]).
    { unfold VotesRoute.votes_of. rewrite Fd. cbn [votes with_resources].
      now apply VotesFacts.votes_of_inserted. }
    assert (Td : votes_trigger d = false) by (rewrite Fd; exact G).
    rewrite Vd, Td. cbn [andb is_empty VotesRoute.single fst snd votes users with_votes].
    split; [|split; [now rewrite Fd | reflexivity]].
    rewrite Fd. cbn [votes with_resources with_votes].
    rewrite filter_app. unfold VotesRoute.votes_of in V.
    rewrite (VotesFacts.filter_negb_all _ _ V). cbn [filter].
    assert (S : VotesRoute.same_pair resource_id user_id newVote = true)
      by (apply same_pair_eq; now split).
    rewrite S. apply app_nil_r.
  - rewrite V. cbn [is_empty negb VotesRoute.single].
    rewrite andb_false_r. cbn [fst snd votes users with_votes].
    split; [now apply Back|]. split; reflexivity.
Qed.

Lemma delete_undoes_a_first_cast_witness :
  votes (snd (VotesRoute.DELETE Examples.after_up (Some "u20") "R" 20))
  = votes Examples.unvoted
  /\ users (snd (VotesRoute.DELETE Examples.after_up (Some "u20") "R" 20))
     = users Examples.unvoted
  /\ fst (VotesRoute.DELETE Examples.after_up (Some "u20") "R" 20)
     = if is_empty (VotesRoute.votes_of Examples.after_up "R" "u20")
       then (404, "No vote found to delete")
       else (500, "Internal server error").
Proof.
  apply (delete_undoes_a_first_cast Examples.unvoted "u20" "R" up "v1" 10 20
           (VotesRoute.Error 500 "Internal server error") Examples.after_up).
  - reflexivity.
  - reflexivity.
Defined.

(** The outcome of the write: the vote the pair has afterwards is of the
    type the handler answers with. *)
Lemma write_vote_reports db uid rid t w id now dbw a rt :
  VotesRoute.write_vote db uid rid t w id now = (dbw, inl (a, rt)) ->
  option_map v_vote_type (VotesRoute.single (VotesRoute.votes_of dbw rid uid)) = rt
  /\ (rt = None <-> a = VotesRoute.removed).
Proof.
  intros W.
  destruct (VotesRoute.single (VotesRoute.votes_of db rid uid)) as [v|] eqn:S.
  - pose proof (VotesFacts.write_vote_found db uid rid t w id now v (single_Some_one _ _ S))
      as F.
    cbv zeta in F. rewrite W in F. cbn [fst snd] in F.
    destruct (VoteType_eqb (v_vote_type v) t); destruct F as [-> [-> F]]; rewrite F; cbn.
    + split; [reflexivity|]. tauto.
    + split; [reflexivity|]. split; discriminate.
  - rewrite write_vote_outcome, S in W. cbv zeta in W.
    destruct (VotesRoute.insert_allowed db _) eqn:I; [|discriminate].
    destruct (votes_trigger db); [discriminate|]. inversion W; subst.
    apply VotesFacts.inserted_vote in I. cbn [v_resource_id v_user_id] in I.
    erewrite VotesFacts.votes_of_inserted; [|exact I|reflexivity|reflexivity]. cbn.
    split; [reflexivity|]. split; discriminate.
Qed.

(** X12. What GET /api/votes answers for the pair right after a cast is
    what the cast has left: after a cast answered with success, the vote
    type of the response, with no vote when the cast removed it; after the
    500 that follows a created vote, the vote of the type cast. *)
Theorem lookup_after_cast_agrees_with_answer
    (db : Database) (user_id resource_id : uuid) (t : VoteType) (id : uuid)
    (now : timestamp) (resp : VotesRoute.Response) (db' : Database) :
  resource_id <> "" -> user_id <> "" ->
  VotesRoute.POST db (Some user_id) resource_id t id now = (resp, db') ->
  exists data,
    VotesQuery.GET db' (Some resource_id) (Some user_id) = VotesQuery.OneVote data
    /\ match resp with
       | VotesRoute.Json a rt =>
           option_map VotesQuery.vote_type data = rt
           /\ (data = None <-> a = VotesRoute.removed)
       | VotesRoute.Error status error =>
           error = "Internal server error" ->
           option_map VotesQuery.vote_type data = Some t
       end.
Proof.
  intros Nr Nu P.
  unfold VotesQuery.GET, VotesQuery.given.
  apply String.eqb_neq in Nr, Nu. rewrite Nr, Nu.
  eexists. split; [reflexivity|].
  destruct resp as [a rt|status error].
  - destruct (POST_written _ _ _ _ _ _ _ _ P (or_introl (ex_intro _ a (ex_intro _ rt eq_refl))))
      as [resource [dbw [a' [rt' [_ [_ [W [E R]]]]]]]].
    assert (a' = a /\ rt' = rt) as [-> ->] by (destruct a'; inversion R; auto).
    destruct (write_vote_reports _ _ _ _ _ _ _ _ _ _ W) as [R1 R2].
    unfold VotesRoute.votes_of in *. rewrite E, VotesFacts.votes_rescore.
    destruct (VotesRoute.single (filter (VotesRoute.same_pair resource_id user_id) (votes dbw)))
      as [v|]; cbn [option_map VotesQuery.vote_data VotesQuery.vote_type] in *.
    + split; [exact R1|]. rewrite <- R2, <- R1. split; discriminate.
    + split; [exact R1|]. rewrite <- R2, <- R1. tauto.
  - intros ->. destruct (POST_created _ _ _ _ _ _ _ _ P) as [_ [_ V]].
    rewrite V. reflexivity.
Qed.

Lemma lookup_after_cast_agrees_with_answer_witness :
  (exists data,
     VotesQuery.GET Examples.after_up_down (Some "R") (Some "u20") = VotesQuery.OneVote data
     /\ option_map VotesQuery.vote_type data = Some down
     /\ (data = None <-> VotesRoute.updated = VotesRoute.removed))
  /\ (exists data,
        VotesQuery.GET Examples.after_up (Some "R") (Some "u20") = VotesQuery.OneVote data
        /\ ("Internal server error" = "Internal server error" ->
            option_map VotesQuery.vote_type data = Some up)).
Proof.
  split.
  - apply (lookup_after_cast_agrees_with_answer Examples.after_up "u20" "R" down "v3" 30
             (VotesRoute.Json VotesRoute.updated (Some down)) Examples.after_up_down).
    + discriminate.
    + discriminate.
    + reflexivity.
  - apply (lookup_after_cast_agrees_with_answer Examples.unvoted "u20" "R" up "v1" 10
             (VotesRoute.Error 500 "Internal server error") Examples.after_up).
    + discriminate.
    + discriminate.
    + reflexivity.
Defined.

(** ** Votes route: what holds after any run of requests *)

Lemma In_UPDATE {A} (w : A -> bool) (f : A -> A) (l : list A) (y : A) :
  In y (UPDATE w f l) -> exists x, In x l /\ (y = x \/ y = f x).
Proof.
  unfold UPDATE. intros H. apply in_map_iff in H. destruct H as [x [E Hx]].
  exists x. split; [exact Hx|]. destruct (w x); [right|left]; now symmetry.
Qed.

Lemma no_self_votes_spec db :
  no_self_votes db = true
  <-> forall v r, In v (votes db) -> In r (resources db) ->
                  r_id r = v_resource_id v -> r_submitted_by r <> v_user_id v.
Proof.
  unfold no_self_votes. rewrite forallb_forall. split.
  - intros H v r Hv Hr E S. specialize (H v Hv). rewrite forallb_forall in H.
    specialize (H r Hr). unfold has_id in H.
    rewrite E, S, !String.eqb_refl in H. discriminate.
  - intros H v Hv. apply forallb_forall. intros r Hr.
    apply negb_true_iff, andb_false_iff. unfold has_id.
    destruct (String.eqb (r_id r) (v_resource_id v)) eqn:E; [right|now left].
    apply String.eqb_eq in E. apply String.eqb_neq. now apply H.
Qed.

(** The rows of resources keep their identifier and their submitter through
    a request. *)
Lemma rescore_rows db uid rid st now r' :
  In r' (resources (VotesRoute.rescore db uid rid st now)) ->
  exists r, In r (resources db) /\ r_id r' = r_id r /\ r_submitted_by r' = r_submitted_by r.
Proof.
  unfold VotesRoute.rescore, rpc_calculate_quality_score. cbv zeta.
  set (w := VotesRoute.reaches_resource db uid rid).
  assert (One : forall up_ down_ q l,
            In r' (UPDATE w (set_scores up_ down_ q now) l) ->
            exists r, In r l /\ r_id r' = r_id r /\ r_submitted_by r' = r_submitted_by r).
  { intros up_ down_ q l H. apply In_UPDATE in H. destruct H as [r [Hr [->| ->]]];
      exists r; repeat split; assumption. }
  assert (Two : forall s up_ down_ q l,
            In r' (UPDATE w (set_status s now) (UPDATE w (set_scores up_ down_ q now) l)) ->
            exists r, In r l /\ r_id r' = r_id r /\ r_submitted_by r' = r_submitted_by r).
  { intros s up_ down_ q l H. apply In_UPDATE in H. destruct H as [r1 [Hr1 E]].
    apply In_UPDATE in Hr1. destruct Hr1 as [r [Hr E1]]. exists r. split; [exact Hr|].
    destruct E as [->| ->]; destruct E1 as [->| ->]; split; reflexivity. }
  destruct (ResourceStatus_eqb st pending).
  - destruct (holds (should_auto_approve _)); [apply Two|].
    destruct (holds (should_auto_hide _)); [apply Two|apply One].
  - apply One.
Qed.

Lemma handle_rows db req r' :
  In r' (resources (VotesRoute.handle db req)) ->
  exists r, In r (resources db) /\ r_id r' = r_id r /\ r_submitted_by r' = r_submitted_by r.
Proof.
  assert (Same : resources (VotesRoute.handle db req) = resources db ->
                 In r' (resources (VotesRoute.handle db req)) ->
                 exists r, In r (resources db) /\ r_id r' = r_id r
                           /\ r_submitted_by r' = r_submitted_by r).
  { intros -> H. exists r'. repeat split. exact H. }
  destruct req as [user rid t id now|user rid now]; cbn [VotesRoute.handle] in *.
  - destruct user as [uid|]; [|now apply Same].
    destruct (VotesFacts.POST_steps db uid rid t id now)
      as [[s [e [Q _]]]|[resource [_ [_ Q]]]]; rewrite Q in *; [now apply Same|].
    clear Same.
    match goal with
    | |- context [VotesRoute.write_vote ?d ?u ?r ?ty ?w ?i ?n] =>
        pose proof (resources_write_vote d u r ty w i n) as Hres;
        destruct (VotesRoute.write_vote d u r ty w i n) as [dbw [[a rt]|err]]
    end; cbn [fst snd] in *.
    + intros H. apply rescore_rows in H. now rewrite Hres in H.
    + rewrite Hres. intros H. exists r'. repeat split. exact H.
  - apply Same. now rewrite DELETE_frame.
Qed.

(** The votes after a request: each is a vote of before, perhaps with its
    type changed, or the vote inserted for a user who passed the checks. *)
Lemma handle_votes db req v' :
  In v' (votes (VotesRoute.handle db req)) ->
  (exists v, In v (votes db) /\ v_resource_id v' = v_resource_id v
             /\ v_user_id v' = v_user_id v)
  \/ (exists resource,
        filter (has_id (v_resource_id v')) (resources db) = [resource]
        /\ r_submitted_by resource <> v_user_id v').
Proof.
  assert (Same : votes (VotesRoute.handle db req) = votes db ->
                 In v' (votes (VotesRoute.handle db req)) ->
                 (exists v, In v (votes db) /\ v_resource_id v' = v_resource_id v
                            /\ v_user_id v' = v_user_id v)
                 \/ (exists resource,
                       filter (has_id (v_resource_id v')) (resources db) = [resource]
                       /\ r_submitted_by resource <> v_user_id v')).
  { intros -> H. left. exists v'. repeat split. exact H. }
  destruct req as [user rid t id now|user rid now]; cbn [VotesRoute.handle] in *.
  - destruct user as [uid|]; [|now apply Same].
    destruct (VotesFacts.POST_steps db uid rid t id now)
      as [[s [e [Q _]]]|[resource [S [N Q]]]]; rewrite Q in *; [now apply Same|].
    clear Same. intros H.
    assert (H' : In v' (votes (fst (VotesRoute.write_vote db uid rid t
                                     (VotesRoute.voteWeight (current_reputation db uid))
                                     id now)))).
    { revert H.
      destruct (VotesRoute.write_vote _ _ _ _ _ _ _) as [dbw [[a rt]|err]]; cbn [fst snd];
        [|tauto].
      now rewrite VotesFacts.votes_rescore. }
    clear H. rewrite VotesFacts.write_vote_votes in H'.
    destruct (VotesRoute.single (VotesRoute.votes_of db rid uid)) as [v|].
    + left. destruct (votes_trigger db); [exists v'; tauto|].
      destruct (VoteType_eqb _ _).
      * apply filter_In in H'. exists v'. tauto.
      * apply In_UPDATE in H'. destruct H' as [x [Hx [->| ->]]]; exists x; tauto.
    + cbv zeta in H'. destruct (_ && _).
      * apply in_app_or in H'. destruct H' as [H'|[<-|[]]].
        -- left. exists v'. tauto.
        -- right. exists resource. cbn [v_resource_id v_user_id].
           split; [now apply single_Some_one | exact N].
      * left. exists v'. tauto.
  - clear Same. rewrite VotesFacts.DELETE_votes. destruct user as [uid|].
    + destruct (_ && _); intros H; [left; exists v'; tauto|].
      apply filter_In in H. left. exists v'. tauto.
    + intros H. left. exists v'. tauto.
Qed.

Lemma no_self_votes_handle db req :
  no_self_votes db = true -> no_self_votes (VotesRoute.handle db req) = true.
Proof.
  rewrite !no_self_votes_spec. intros H v' r' Hv Hr E.
  destruct (handle_rows _ _ _ Hr) as [r [Hr0 [Ei Es]]].
  rewrite Es. destruct (handle_votes _ _ _ Hv) as [[v [Hv0 [Er Eu]]]|[resource [F N]]].
  - rewrite Eu. apply H; [exact Hv0|exact Hr0|congruence].
  - assert (I : In r (filter (has_id (v_resource_id v')) (resources db))).
    { apply filter_In. split; [exact Hr0|]. unfold has_id. apply String.eqb_eq. congruence. }
    rewrite F in I. destruct I as [<-|[]]. exact N.
Qed.

(** X13. Nobody gets a vote on a resource of their own: when no vote in the
    table is by the submitter of its resource, the same holds after any run
    of casts and removals, whoever sends them. *)
Theorem nobody_votes_on_their_own_submission
    (reqs : list VotesRoute.Request) (db : Database) :
  no_self_votes db = true -> no_self_votes (VotesRoute.run db reqs) = true.
Proof.
  revert db. unfold VotesRoute.run.
  induction reqs as [|req reqs IH]; intros db H; [exact H|].
  cbn [fold_left]. apply IH. now apply no_self_votes_handle.
Qed.

Lemma nobody_votes_on_their_own_submission_witness :
  no_self_votes
    (VotesRoute.run Examples.scenario3
       [VotesRoute.Cast (Some "author") "R" up "v4" 10;
        VotesRoute.Cast (Some "u10") "R" down "v5" 11;
        VotesRoute.Remove (Some "u0") "R" 12])
  = true.
Proof.
  apply (nobody_votes_on_their_own_submission
           [VotesRoute.Cast (Some "author") "R" up "v4" 10;
            VotesRoute.Cast (Some "u10") "R" down "v5" 11;
            VotesRoute.Remove (Some "u0") "R" 12]
           Examples.scenario3).
  reflexivity.
Defined.

(** What a request leaves of a part of the database that neither a write to
    votes nor a write to resources touches. *)
Lemma handle_keeps {A} (part : Database -> A) :
  (forall db vs, part (with_votes db vs) = part db) ->
  (forall db rs, part (with_resources db rs) = part db) ->
  forall db req, part (VotesRoute.handle db req) = part db.
Proof.
  intros V R db req. destruct req as [user rid t id now|user rid now];
    cbn [VotesRoute.handle].
  - destruct user as [uid|]; [|reflexivity].
    destruct (VotesFacts.POST_steps db uid rid t id now)
      as [[s [e [Q _]]]|[resource [_ [_ Q]]]]; rewrite Q; [reflexivity|].
    match goal with
    | |- context [VotesRoute.write_vote ?d ?u ?r ?ty ?w ?i ?n] =>
        pose proof (write_vote_frame d u r ty w i n) as F;
        destruct (VotesRoute.write_vote d u r ty w i n) as [dbw [[a rt]|err]]
    end; cbn [fst snd] in *.
    + rewrite rescore_frame, R, F. apply V.
    + rewrite F. apply V.
  - rewrite DELETE_frame. apply V.
Qed.

Lemma run_keeps {A} (part : Database -> A) :
  (forall db vs, part (with_votes db vs) = part db) ->
  (forall db rs, part (with_resources db rs) = part db) ->
  forall reqs db, part (VotesRoute.run db reqs) = part db.
Proof.
  intros V R. unfold VotesRoute.run.
  induction reqs as [|req reqs IH]; intros db; [reflexivity|].
  cbn [fold_left]. rewrite IH. now apply handle_keeps.
Qed.

(** X14. The votes route never writes the users table: after any run of
    casts and removals the users, with their counters of up and down votes
    and their reputations, are the ones before, and so are the interactions,
    the preferences, the rewards and the configuration. The update of
    total_upvotes or total_downvotes that both handlers build is never
    sent. *)
Theorem votes_route_never_writes_users (reqs : list VotesRoute.Request) (db : Database) :
  let db' := VotesRoute.run db reqs in
  users db' = users db
  /\ user_interactions db' = user_interactions db
  /\ user_preferences db' = user_preferences db
  /\ weekly_rewards db' = weekly_rewards db
  /\ reward_distributions db' = reward_distributions db
  /\ system_config db' = system_config db.
Proof.
  cbv zeta. repeat split; now apply run_keeps.
Qed.

(** ** Votes route: with the trigger on votes installed *)

Lemma handle_under_trigger db req :
  votes_trigger db = true -> VotesRoute.handle db req = db.
Proof.
  intros T. destruct req as [user rid t id now|user rid now]; cbn [VotesRoute.handle].
  - destruct user as [uid|]; [|reflexivity].
    destruct (VotesFacts.POST_steps db uid rid t id now)
      as [[s [e [Q _]]]|[resource [_ [_ Q]]]]; rewrite Q; [reflexivity|].
    rewrite write_vote_outcome, T.
    destruct (VotesRoute.single _) as [v|]; cbv zeta.
    + destruct (VoteType_eqb _ _); reflexivity.
    + destruct (VotesRoute.insert_allowed _ _); reflexivity.
  - destruct user as [uid|]; [|reflexivity].
    rewrite DELETE_outcome, T. cbn [andb].
    destruct (VotesRoute.votes_of db rid uid) as [|v l] eqn:E; [|reflexivity].
    cbn [is_empty negb VotesRoute.single snd]. unfold VotesRoute.votes_of in E.
    rewrite (VotesFacts.filter_negb_all _ _ E). apply with_votes_same.
Qed.

(** X24. With the trigger on votes installed no statement that changes a
    vote goes through, since trigger_update_resource_scores calls
    update_user_reputation for every row that is inserted, updated or
    deleted, and that raises: a cast is always answered with an error, a
    removal writes nothing, and no run of casts and removals changes the
    database. *)
Theorem no_vote_is_written_under_the_trigger (db : Database) :
  votes_trigger db = true ->
  (forall user resource_id t id now,
     exists status error,
       VotesRoute.POST db user resource_id t id now = (VotesRoute.Error status error, db))
  /\ (forall user resource_id now,
        snd (VotesRoute.DELETE db user resource_id now) = db)
  /\ forall reqs, VotesRoute.run db reqs = db.
Proof.
  intros T. split; [|split].
  - intros user rid t id now.
    pose proof (handle_under_trigger db (VotesRoute.Cast user rid t id now) T) as H.
    cbn [VotesRoute.handle] in H.
    destruct user as [uid|]; [|do 2 eexists; reflexivity].
    destruct (VotesFacts.POST_steps db uid rid t id now)
      as [[s [e [Q _]]]|[resource [_ [_ Q]]]]; [do 2 eexists; exact Q|].
    rewrite Q in *. revert H. rewrite write_vote_outcome, T.
    destruct (VotesRoute.single _) as [v|]; cbv zeta.
    + destruct (VoteType_eqb _ _); do 2 eexists; reflexivity.
    + destruct (VotesRoute.insert_allowed _ _); do 2 eexists; reflexivity.
  - intros user rid now.
    exact (handle_under_trigger db (VotesRoute.Remove user rid now) T).
  - unfold VotesRoute.run. induction reqs as [|req reqs IH]; [reflexivity|].
    cbn [fold_left]. now rewrite (handle_under_trigger db req T).
Qed.

Lemma no_vote_is_written_under_the_trigger_witness :
  VotesRoute.POST (Examples.deployed true true Examples.unvoted) (Some "u20") "R" up "v1" 10
  = (VotesRoute.Error 500 "Failed to create vote", Examples.deployed true true Examples.unvoted)
  /\ VotesRoute.run (Examples.deployed true true Examples.scenario4)
       [VotesRoute.Cast (Some "u20") "R" up "v5" 10;
        VotesRoute.Cast (Some "u10") "R" down "v6" 20;
        VotesRoute.Remove (Some "u0") "R" 30]
     = Examples.deployed true true Examples.scenario4.
Proof.
  split; [reflexivity|].
  destruct (no_vote_is_written_under_the_trigger
              (Examples.deployed true true Examples.scenario4) eq_refl) as [_ [_ Run]].
  apply Run.
Defined.

(** ** Trending calculator: runs over runs, and the range of the score *)

Lemma UPDATE_twice {A} (w : A -> bool) (f g : A -> A) (l : list A) :
  (forall x, w x = true -> w (f x) = true /\ g (f x) = g x) ->
  UPDATE w g (UPDATE w f l) = UPDATE w g l.
Proof.
  intros H. unfold UPDATE. rewrite map_map. apply map_ext. intros x.
  destruct (w x) eqn:E; [|now rewrite E].
  destruct (H x E) as [-> ->]. reflexivity.
Qed.

(** X15. The trending calculator keeps no memory of its earlier runs: a run
    at one time followed by a run at another leaves the database the second
    run alone leaves; in particular a second run at the same time changes
    nothing. *)
Theorem last_trending_run_decides (db : Database) (now now' : timestamp) :
  update_trending_scores (update_trending_scores db now) now'
  = update_trending_scores db now'.
Proof.
  unfold update_trending_scores.
  set (f := fun r => set_trending_score (trending_score db now r) now r).
  set (g := fun r => set_trending_score (trending_score db now' r) now' r).
  change (with_resources db (UPDATE is_approved g (UPDATE is_approved f (resources db)))
          = with_resources db (UPDATE is_approved g (resources db))).
  f_equal. apply UPDATE_twice. intros r E. split; [exact E|reflexivity].
Qed.

Lemma inject_Z_COUNT_nonneg {A} (l : list A) : (0 <= inject_Z (COUNT l))%Q.
Proof.
  unfold COUNT. change 0%Q with (inject_Z 0). rewrite <- Zle_Qle. lia.
Qed.

Lemma COUNT_filter_weaker {A} (p q : A -> bool) (l : list A) :
  (forall x, p x = true -> q x = true) ->
  (inject_Z (COUNT (filter p l)) <= inject_Z (COUNT (filter q l)))%Q.
Proof.
  intros H. unfold COUNT. rewrite <- Zle_Qle. apply inj_le.
  induction l as [|a l IH]; simpl; [lia|].
  destruct (p a) eqn:P.
  - rewrite (H a P). simpl. lia.
  - destruct (q a); simpl; lia.
Qed.

Lemma recency_bonus_range now created_at :
  (0 <= recency_bonus now created_at <= 5)%Q
  /\ (created_at <= now - days 30 -> (recency_bonus now created_at == 0)%Q).
Proof.
  unfold recency_bonus, days.
  destruct (now - 3 * 86400 <? created_at) eqn:E3; [split; [lra|]; intros; apply Z.ltb_lt in E3; lia|].
  destruct (now - 7 * 86400 <? created_at) eqn:E7; [split; [lra|]; intros; apply Z.ltb_lt in E7; lia|].
  destruct (now - 30 * 86400 <? created_at) eqn:E30; [split; [lra|]; intros; apply Z.ltb_lt in E30; lia|].
  split; [lra|]. intros _. lra.
Qed.

(** X16. The trending score stored for an approved resource is at least 0.4
    times its quality score and at most that plus 0.3 per interaction of type
    view with the resource, 0.2 per vote on it and 0.5; it is exactly 0.4
    times the quality score when the resource is at least 30 days old and has
    had no view and no vote in the last 7 days. *)
Theorem trending_score_range (db : Database) (now : timestamp) :
  Forall2
    (fun r r' =>
       is_approved r = true ->
       exists t,
         r_trending_score r' = Some t
         /\ (0.4 * COALESCE (r_quality_score r) 0 <= t)%Q
         /\ (t <= 0.4 * COALESCE (r_quality_score r) 0
                  + 0.3 * inject_Z (COUNT (filter (fun ui => String.eqb (ui_resource_id ui) (r_id r)
                                                             && String.eqb (ui_interaction_type ui) "view")
                                                  (user_interactions db)))
                  + 0.2 * inject_Z (COUNT (filter (fun v => String.eqb (v_resource_id v) (r_id r))
                                                  (votes db)))
                  + 0.5)%Q
         /\ (recent_views db now r = 0 -> recent_votes db now r = 0 ->
             r_created_at r <= now - days 30 ->
             (t == 0.4 * COALESCE (r_quality_score r) 0)%Q))
    (resources db) (resources (update_trending_scores db now)).
Proof.
  unfold update_trending_scores; cbn [resources with_resources].
  apply Forall2_UPDATE; intros r E; rewrite E; [intros _|discriminate].
  exists (trending_score db now r). split; [reflexivity|].
  unfold trending_score. cbn [COALESCE].
  destruct (recency_bonus_range now (r_created_at r)) as [[B0 B5] Bold].
  pose proof (inject_Z_COUNT_nonneg
                (filter (fun ui => String.eqb (ui_resource_id ui) (r_id r)
                                   && String.eqb (ui_interaction_type ui) "view"
                                   && (now - days 7 <? ui_created_at ui))
                        (user_interactions db))) as V0.
  pose proof (inject_Z_COUNT_nonneg
                (filter (fun v => String.eqb (v_resource_id v) (r_id r)
                                  && (now - days 7 <? v_created_at v))
                        (votes db))) as W0.
  assert (V1 : (inject_Z (recent_views db now r)
                <= inject_Z (COUNT (filter (fun ui => String.eqb (ui_resource_id ui) (r_id r)
                                                      && String.eqb (ui_interaction_type ui) "view")
                                           (user_interactions db))))%Q).
  { unfold recent_views. apply COUNT_filter_weaker. intros ui H.
    apply andb_true_iff in H. tauto. }
  assert (W1 : (inject_Z (recent_votes db now r)
                <= inject_Z (COUNT (filter (fun v => String.eqb (v_resource_id v) (r_id r))
                                           (votes db))))%Q).
  { unfold recent_votes. apply COUNT_filter_weaker. intros v H.
    apply andb_true_iff in H. tauto. }
  fold (recent_views db now r) in V0. fold (recent_votes db now r) in W0.
  split; [lra|]. split; [lra|].
  intros Hv Hw Hold. rewrite Hv, Hw. specialize (Bold Hold). rewrite Bold. ring.
Qed.

(** ** Ordering and limits *)

Section OrderBy.

Variable A : Type.
Variable before : A -> A -> bool.

Lemma In_insert_by (x y : A) (l : list A) :
  In y (insert_by before x l) <-> y = x \/ In y l.
Proof.
  induction l as [|a l IH]; simpl; [intuition congruence|].
  destruct (before a x); simpl; [rewrite IH|]; intuition congruence.
Qed.

Lemma In_ORDER_BY (y : A) (l : list A) : In y (ORDER_BY before l) <-> In y l.
Proof.
  induction l as [|a l IH]; simpl; [tauto|].
  rewrite In_insert_by, IH. intuition congruence.
Qed.

Hypothesis asymmetric : forall a b, before a b = true -> before b a = false.
Hypothesis negatively_transitive :
  forall a b c, before b a = false -> before c b = false -> before c a = false.

Let in_order (a b : A) : Prop := before b a = false.

Lemma insert_by_sorted (x : A) (l : list A) :
  StronglySorted in_order l -> StronglySorted in_order (insert_by before x l).
Proof.
  induction 1 as [|a l S IH F]; simpl.
  - constructor; constructor.
  - destruct (before a x) eqn:E.
    + constructor; [exact IH|].
      apply Forall_forall. intros y Hy. apply In_insert_by in Hy.
      destruct Hy as [->|Hy]; [now apply asymmetric|].
      rewrite Forall_forall in F. now apply F.
    + constructor; [now constructor|].
      constructor; [exact E|].
      apply Forall_forall. intros y Hy. rewrite Forall_forall in F.
      apply (negatively_transitive x a y E). now apply F.
Qed.

Lemma ORDER_BY_sorted (l : list A) : StronglySorted in_order (ORDER_BY before l).
Proof.
  induction l as [|a l IH]; simpl; [constructor|]. now apply insert_by_sorted.
Qed.

End OrderBy.

Lemma StronglySorted_weaken {A} (R S : A -> A -> Prop) (l : list A) :
  (forall a b, R a b -> S a b) -> StronglySorted R l -> StronglySorted S l.
Proof.
  intros H. induction 1 as [|a l _ IH F]; constructor; [exact IH|].
  eapply Forall_impl; [|exact F]. intros b. apply H.
Qed.

Lemma StronglySorted_firstn {A} (R : A -> A -> Prop) (n : nat) (l : list A) :
  StronglySorted R l -> StronglySorted R (firstn n l).
Proof.
  intros S. revert n. induction S as [|a l _ IH F]; intros [|n]; simpl; try constructor.
  - apply IH.
  - apply Forall_forall. intros b Hb. rewrite Forall_forall in F. apply F.
    revert Hb. clear. revert n. induction l as [|c l IH]; intros [|n]; simpl; try tauto.
    intros [->|H]; [now left|right; now apply (IH n)].
Qed.

Lemma StronglySorted_map {A B} (R : B -> B -> Prop) (f : A -> B) (l : list A) :
  StronglySorted (fun a b => R (f a) (f b)) l -> StronglySorted R (map f l).
Proof.
  induction 1 as [|a l _ IH F]; simpl; constructor; [exact IH|].
  apply Forall_forall. intros b Hb. apply in_map_iff in Hb. destruct Hb as [x [<- Hx]].
  rewrite Forall_forall in F. now apply F.
Qed.

Lemma In_firstn_In {A} (n : nat) (l : list A) (x : A) : In x (firstn n l) -> In x l.
Proof.
  revert n. induction l as [|a l IH]; intros [|n]; simpl; try tauto.
  intros [->|H]; [now left|right; now apply (IH n)].
Qed.

Lemma length_LIMIT {A} (n : Z) (l : list A) : (List.length (LIMIT n l) <= Z.to_nat n)%nat.
Proof. unfold LIMIT. apply firstn_le_length. Qed.

Lemma Qlt_bool_false (a b : Q) : Qlt_bool a b = false <-> (b <= a)%Q.
Proof.
  unfold Qlt_bool. rewrite negb_false_iff. apply Qle_bool_iff.
Qed.

Lemma Qlt_bool_true (a b : Q) : Qlt_bool a b = true <-> (a < b)%Q.
Proof.
  unfold Qlt_bool. rewrite negb_true_iff. split.
  - intros H. apply Qnot_le_lt. intros L. apply Qle_bool_iff in L. congruence.
  - intros H. destruct (Qle_bool b a) eqn:E; [|reflexivity].
    apply Qle_bool_iff in E. lra.
Qed.

(** ORDER BY key DESC on a decimal key. *)
Lemma ORDER_BY_desc {A} (key : A -> Q) (l : list A) :
  StronglySorted (fun a b => (key b <= key a)%Q)
    (ORDER_BY (fun a b => Qlt_bool (key b) (key a)) l).
Proof.
  eapply StronglySorted_weaken; [|apply ORDER_BY_sorted].
  - intros a b H. cbv beta in H. now apply Qlt_bool_false in H.
  - intros a b H. apply Qlt_bool_true in H. apply Qlt_bool_false. lra.
  - intros a b c H1 H2. apply Qlt_bool_false in H1, H2. apply Qlt_bool_false. lra.
Qed.

Lemma ANY_In (x : string) (l : list string) : ANY x l = true <-> In x l.
Proof.
  unfold ANY. rewrite existsb_exists. split.
  - intros [y [Hy E]]. apply String.eqb_eq in E. now subst.
  - intros H. exists x. split; [exact H|apply String.eqb_refl].
Qed.

Lemma is_approved_status r : is_approved r = true <-> r_status r = approved.
Proof. unfold is_approved. destruct (r_status r); simpl; split; congruence. Qed.

(** ** GET /api/discover: the strategies behind an rpc *)

(** X18. get_random_stumble_content raises on every call, so the rpc of the
    random strategy has no data: the request with algorithm=random, and the
    request with algorithm=personalized that comes without a signed-in user,
    answer with no item and report algorithm_used = random, whatever the
    database holds and whatever the shuffle. *)
Theorem random_strategy_returns_nothing
    (db : Database) (now : timestamp) (shuffle : list Resource -> list Resource)
    (userId : option uuid) (query : Discover.DiscoverQuery) :
  (forall limit_count exclude_ids,
     rpc (get_random_stumble_content db limit_count exclude_ids) = None)
  /\ (let response :=
        Discover.GET db now shuffle userId (with_algorithm query Discover.random) in
      Discover.data response = [] /\ Discover.algorithm_used response = Discover.random)
  /\ (let response :=
        Discover.GET db now shuffle None (with_algorithm query Discover.personalized) in
      Discover.data response = [] /\ Discover.algorithm_used response = Discover.random).
Proof.
  split; [reflexivity|]. split; cbv zeta.
  - destruct userId; split; reflexivity.
  - split; reflexivity.
Qed.

(** ** GET /api/discover: filters, limit and order *)

Section DiscoverFilters.

Variable db : Database.
Variable limit : Z.
Variable excludeIds : list uuid.
Variable category : option string.
Variable difficulty : option DifficultyLevel.
Variable maxTime : option Z.

Let passes (r : Resource) : Prop :=
  In r (resources db)
  /\ r_status r = approved
  /\ Discover.eq_category category r = true
  /\ Discover.eq_difficulty difficulty r = true
  /\ Discover.lte_time maxTime r = true
  /\ Discover.not_in excludeIds r = true.

Lemma popular_passes i :
  In i (Discover.getPopularContent db limit excludeIds category difficulty maxTime) ->
  passes (Discover.resource i).
Proof.
  unfold Discover.getPopularContent, LIMIT. intros H.
  apply in_map_iff in H. destruct H as [r [<- H]].
  apply In_firstn_In, In_ORDER_BY, filter_In in H. destruct H as [Hr S].
  repeat (apply andb_true_iff in S; destruct S as [S ?]).
  apply is_approved_status in S. cbn [Discover.resource Discover.plain]. repeat split; assumption.
Qed.

Lemma recent_passes i :
  In i (Discover.getRecentContent db limit excludeIds category difficulty maxTime) ->
  passes (Discover.resource i).
Proof.
  unfold Discover.getRecentContent, LIMIT. intros H.
  apply in_map_iff in H. destruct H as [r [<- H]].
  apply In_firstn_In, In_ORDER_BY, filter_In in H. destruct H as [Hr S].
  repeat (apply andb_true_iff in S; destruct S as [S ?]).
  apply is_approved_status in S. cbn [Discover.resource Discover.plain]. repeat split; assumption.
Qed.

End DiscoverFilters.

(** X19. Whatever the algorithm and whoever asks, GET /api/discover returns
    at most [limit] items, and each is a row of resources that is approved,
    passes the category, difficulty and time filters of the query and is not
    among exclude_ids. *)
Theorem discovered_items_pass_the_filters
    (db : Database) (now : timestamp)
    (shuffle : list Resource -> list Resource) (userId : option uuid)
    (query : Discover.DiscoverQuery) :
  let response := Discover.GET db now shuffle userId query in
  (List.length (Discover.data response) <= Z.to_nat (Discover.q_limit query))%nat
  /\ forall i,
       In i (Discover.data response) ->
       In (Discover.resource i) (resources db)
       /\ r_status (Discover.resource i) = approved
       /\ Discover.eq_category (Discover.q_category query) (Discover.resource i) = true
       /\ Discover.eq_difficulty (Discover.q_difficulty query) (Discover.resource i) = true
       /\ Discover.lte_time (Discover.q_max_time query) (Discover.resource i) = true
       /\ Discover.not_in (Discover.q_exclude_ids query) (Discover.resource i) = true.
Proof.
  cbv zeta. unfold Discover.GET.
  assert (Pop : (List.length (Discover.getPopularContent db (Discover.q_limit query)
                                (Discover.q_exclude_ids query) (Discover.q_category query)
                                (Discover.q_difficulty query) (Discover.q_max_time query))
                 <= Z.to_nat (Discover.q_limit query))%nat).
  { unfold Discover.getPopularContent. rewrite length_map. apply length_LIMIT. }
  assert (Rec : (List.length (Discover.getRecentContent db (Discover.q_limit query)
                                (Discover.q_exclude_ids query) (Discover.q_category query)
                                (Discover.q_difficulty query) (Discover.q_max_time query))
                 <= Z.to_nat (Discover.q_limit query))%nat).
  { unfold Discover.getRecentContent. rewrite length_map. apply length_LIMIT. }
  destruct (Discover.q_algorithm query); [destruct userId as [u|]| | |];
    cbn [Discover.data is_empty Discover.getPersonalizedRecommendations
         Discover.getRandomContent rpc get_personalized_recommendations
         get_random_stumble_content List.length In];
    (split; [solve [apply Pop | apply Rec | lia]|]);
    intros i H;
    first [ apply popular_passes in H; exact H
          | apply recent_passes in H; exact H
          | destruct H ].
Qed.

Example popular_items_pass_the_filters :
  map (fun i => r_id (Discover.resource i))
    (Discover.data
       (Discover.GET Examples.newcomer 0 Examples.no_shuffle None
          (with_algorithm Examples.one_personalized Discover.popular)))
  = ["A"].
Proof. reflexivity. Qed.

Lemma quality_desc_asymmetric a b :
  Discover.quality_desc a b = true -> Discover.quality_desc b a = false.
Proof.
  unfold Discover.quality_desc.
  destruct (r_quality_score a) as [x|], (r_quality_score b) as [y|]; try congruence.
  intros H. apply Qlt_bool_true in H. apply Qlt_bool_false. lra.
Qed.

Lemma quality_desc_negatively_transitive a b c :
  Discover.quality_desc b a = false -> Discover.quality_desc c b = false ->
  Discover.quality_desc c a = false.
Proof.
  unfold Discover.quality_desc.
  destruct (r_quality_score a) as [x|], (r_quality_score b) as [y|],
           (r_quality_score c) as [z|]; try congruence.
  intros H1 H2. apply Qlt_bool_false in H1, H2. apply Qlt_bool_false. lra.
Qed.

(** X20. The lists of the discovery strategies come in their order: popular
    content by non-increasing quality score with resources without a score
    first, recent content newest first. *)
Theorem discovered_lists_are_ordered
    (db : Database) (limit : Z)
    (excludeIds : list uuid) (category : option string)
    (difficulty : option DifficultyLevel) (maxTime : option Z) :
  StronglySorted
    (fun a b =>
       match r_quality_score (Discover.resource a), r_quality_score (Discover.resource b) with
       | Some x, Some y => (y <= x)%Q
       | Some _, None => False
       | None, _ => True
       end)
    (Discover.getPopularContent db limit excludeIds category difficulty maxTime)
  /\ StronglySorted
       (fun a b => r_created_at (Discover.resource b) <= r_created_at (Discover.resource a))
       (Discover.getRecentContent db limit excludeIds category difficulty maxTime).
Proof.
  split.
  - unfold Discover.getPopularContent, LIMIT. apply StronglySorted_map.
    apply StronglySorted_firstn. cbn [Discover.resource Discover.plain].
    eapply StronglySorted_weaken;
      [|apply (ORDER_BY_sorted _ Discover.quality_desc quality_desc_asymmetric
                 quality_desc_negatively_transitive)].
    intros a b H. cbv beta in H. unfold Discover.quality_desc in H.
    destruct (r_quality_score a) as [x|], (r_quality_score b) as [y|];
      try exact I; try discriminate.
    now apply Qlt_bool_false in H.
  - unfold Discover.getRecentContent, LIMIT. apply StronglySorted_map.
    apply StronglySorted_firstn. cbn [Discover.resource Discover.plain].
    eapply StronglySorted_weaken;
      [|apply (ORDER_BY_sorted _ (fun a b => r_created_at b <? r_created_at a))].
    + intros a b H. cbv beta in H. apply Z.ltb_ge in H. exact H.
    + intros a b H. apply Z.ltb_lt in H. apply Z.ltb_ge. lia.
    + intros a b c H1 H2. apply Z.ltb_ge in H1, H2. apply Z.ltb_ge. lia.
Qed.

(** ** Reward distributor: any week *)

Lemma rank_before_false a b :
  rank_before a b = false
  <-> (COALESCE (r_quality_score a) 0 <= COALESCE (r_quality_score b) 0)%Q
      /\ ((COALESCE (r_quality_score a) 0 == COALESCE (r_quality_score b) 0)%Q ->
          r_created_at b <= r_created_at a).
Proof.
  unfold rank_before. cbv zeta.
  set (qa := COALESCE (r_quality_score a) 0%Q). set (qb := COALESCE (r_quality_score b) 0%Q).
  rewrite orb_false_iff, andb_false_iff, Qlt_bool_false. split.
  - intros [L [E|E]]; (split; [exact L|]); intros Q.
    + apply Qeq_bool_iff in Q. congruence.
    + apply Z.ltb_ge in E. exact E.
  - intros [L E]. split; [exact L|].
    destruct (Qeq_bool qa qb) eqn:Q; [right|now left].
    apply Qeq_bool_iff in Q. apply Z.ltb_ge. now apply E.
Qed.

Lemma rank_before_asymmetric a b : rank_before a b = true -> rank_before b a = false.
Proof.
  intros H. apply rank_before_false.
  unfold rank_before in H. cbv zeta in H. apply orb_true_iff in H.
  destruct H as [H|H].
  - apply Qlt_bool_true in H. split; [lra|]. intros E. lra.
  - apply andb_true_iff in H. destruct H as [E L].
    apply Qeq_bool_iff in E. apply Z.ltb_lt in L. split; [lra|]. intros _. lia.
Qed.

Lemma rank_before_negatively_transitive a b c :
  rank_before b a = false -> rank_before c b = false -> rank_before c a = false.
Proof.
  rewrite !rank_before_false. intros [L1 E1] [L2 E2]. split; [lra|].
  intros E. assert (E1' : r_created_at a <= r_created_at b) by (apply E1; lra).
  assert (E2' : r_created_at b <= r_created_at c) by (apply E2; lra). lia.
Qed.

Lemma StronglySorted_combine {A B} (R : B -> B -> Prop) (l : list B) :
  StronglySorted R l ->
  forall k : list A, StronglySorted (fun a b => R (snd a) (snd b)) (combine k l).
Proof.
  induction 1 as [|x l _ IH F]; intros [|y k]; simpl; try constructor.
  - apply IH.
  - apply Forall_forall. intros [n z] H. apply in_combine_r in H.
    rewrite Forall_forall in F. now apply F.
Qed.

Lemma map_fst_firstn_combine {A B} (n : nat) (k : list A) (l : list B) :
  List.length k = List.length l -> map fst (firstn n (combine k l)) = firstn n k.
Proof.
  revert k l. induction n as [|n IH]; intros [|a k] [|b l] H; simpl in *;
    try reflexivity; try discriminate.
  f_equal. apply IH. lia.
Qed.

Lemma firstn_seq_min (n start len : nat) :
  firstn n (seq start len) = seq start (Nat.min n len).
Proof.
  revert start len. induction n as [|n IH]; intros start [|len]; simpl; try reflexivity.
  f_equal. apply IH.
Qed.

Lemma ranks_of_ranked_content db w :
  map fst (ranked_content db w (w + 6))
  = map Z.of_nat (seq 1 (Nat.min 10 (List.length (eligible_resources db w)))).
Proof.
  unfold ranked_content, LIMIT, ROW_NUMBER.
  rewrite map_fst_firstn_combine by (now rewrite length_map, length_seq).
  rewrite firstn_map, firstn_seq_min, length_ORDER_BY. reflexivity.
Qed.

Lemma ranked_content_eligible db w row :
  In row (ranked_content db w (w + 6)) -> In (snd row) (eligible_resources db w).
Proof.
  unfold ranked_content, LIMIT, ROW_NUMBER. intros H.
  apply In_firstn_In in H. destruct row as [n r]. apply in_combine_r in H.
  now apply In_ORDER_BY in H.
Qed.

Lemma ranked_content_sorted db w :
  StronglySorted (fun a b => rank_before (snd b) (snd a) = false)
    (ranked_content db w (w + 6)).
Proof.
  unfold ranked_content, LIMIT, ROW_NUMBER. apply StronglySorted_firstn.
  apply (StronglySorted_combine (fun a b => rank_before b a = false)).
  apply (ORDER_BY_sorted _ rank_before rank_before_asymmetric
           rank_before_negatively_transitive).
Qed.

(** The shares of the first ranks never add up to more than the whole. *)
Lemma shares_within_pool (pool : Q) (m : nat) :
  (m <= 10)%nat -> (0 <= pool)%Q ->
  (Qsum (map (reward_amount pool) (map Z.of_nat (seq 1 m))) <= pool)%Q.
Proof.
  intros Hm Hpool.
  do 11 (destruct m as [|m];
         [unfold Qsum, reward_amount; cbn [seq map fold_right];
          repeat match goal with
                 | |- context [Z.of_nat ?n =? ?k] =>
                     let b := eval vm_compute in (Z.of_nat n =? k) in
                     change (Z.of_nat n =? k) with b
                 end;
          cbv iota; lra|]).
  lia.
Qed.

(** X21. Whatever the number of eligible resources, a run of
    calculate_weekly_rewards that goes through adds one row for each of the
    first ten of them, with ranks 1, 2, ... in that order; each row names an
    eligible resource of the week and credits its submitter with the share of
    its rank; a row of better rank never has the lower quality score; with
    a pool that is not negative the amounts add up to no more than the
    pool. *)
Theorem rewards_go_to_the_ranked_eligible
    (db : Database) (week_start_date : date) (reward_id : uuid) (now : timestamp) (pool : Q) :
  total_pool_of db week_start_date (week_start_date + 6) = Some pool ->
  fresh_reward_id db reward_id = true ->
  (0 <= pool)%Q ->
  exists db',
    calculate_weekly_rewards db week_start_date reward_id now = Some (reward_id, db')
    /\ map rd_rank (added_distributions db db')
       = map Z.of_nat
           (seq 1 (Nat.min 10 (List.length (eligible_resources db week_start_date))))
    /\ (forall d,
          In d (added_distributions db db') ->
          rd_weekly_reward_id d = reward_id
          /\ rd_amount d = reward_amount pool (rd_rank d)
          /\ exists r,
               In r (eligible_resources db week_start_date)
               /\ rd_resource_id d = r_id r /\ rd_user_id d = r_submitted_by r
               /\ rd_quality_score d = r_quality_score r)
    /\ StronglySorted
         (fun a b => (COALESCE (rd_quality_score b) 0 <= COALESCE (rd_quality_score a) 0)%Q)
         (added_distributions db db')
    /\ (Qsum (map rd_amount (added_distributions db db')) <= pool)%Q.
Proof.
  intros Hpool Hfresh Hnonneg.
  destruct (calculate_weekly_rewards_runs db week_start_date reward_id now pool Hpool Hfresh)
    as [db' [Hrun [_ Hadded]]].
  exists db'. split; [exact Hrun|]. rewrite Hadded. clear Hadded Hrun.
  assert (Ranks : forall l : list (Z * Resource),
            map rd_rank
              (map (fun row =>
                      {| rd_weekly_reward_id := reward_id;
                         rd_user_id := r_submitted_by (snd row);
                         rd_resource_id := r_id (snd row);
                         rd_amount := reward_amount pool (fst row);
                         rd_rank := fst row;
                         rd_quality_score := r_quality_score (snd row) |}) l)
            = map fst l).
  { intros l. rewrite map_map. reflexivity. }
  split; [|split; [|split]].
  - rewrite Ranks. apply ranks_of_ranked_content.
  - intros d H. apply in_map_iff in H. destruct H as [row [<- H]].
    cbn [rd_weekly_reward_id rd_amount rd_rank rd_resource_id rd_user_id rd_quality_score].
    split; [reflexivity|]. split; [reflexivity|].
    exists (snd row). split; [now apply ranked_content_eligible|]. repeat split.
  - apply StronglySorted_map. cbn [rd_quality_score].
    eapply StronglySorted_weaken; [|apply ranked_content_sorted].
    intros a b H. cbv beta in H. apply rank_before_false in H. tauto.
  - rewrite map_map. cbn [rd_amount].
    rewrite <- (map_map fst (reward_amount pool)), ranks_of_ranked_content.
    apply shares_within_pool; [apply Nat.le_min_l|exact Hnonneg].
Qed.

Lemma rewards_go_to_the_ranked_eligible_witness :
  exists db',
    calculate_weekly_rewards Examples.newcomer 0 "w1" 700000 = Some ("w1", db')
    /\ map rd_rank (added_distributions Examples.newcomer db')
       = map Z.of_nat
           (seq 1 (Nat.min 10 (List.length (eligible_resources Examples.newcomer 0))))
    /\ (forall d,
          In d (added_distributions Examples.newcomer db') ->
          rd_weekly_reward_id d = "w1"
          /\ rd_amount d = reward_amount 1600.00 (rd_rank d)
          /\ exists r,
               In r (eligible_resources Examples.newcomer 0)
               /\ rd_resource_id d = r_id r /\ rd_user_id d = r_submitted_by r
               /\ rd_quality_score d = r_quality_score r)
    /\ StronglySorted
         (fun a b => (COALESCE (rd_quality_score b) 0 <= COALESCE (rd_quality_score a) 0)%Q)
         (added_distributions Examples.newcomer db')
    /\ (Qsum (map rd_amount (added_distributions Examples.newcomer db')) <= 1600.00)%Q.
Proof.
  apply (rewards_go_to_the_ranked_eligible Examples.newcomer 0 "w1" 700000 1600.00).
  - reflexivity.
  - reflexivity.
  - discriminate.
Defined.

Lemma UPDATE_app {A} (w : A -> bool) (f : A -> A) (l m : list A) :
  UPDATE w f (l ++ m) = (UPDATE w f l ++ UPDATE w f m)%list.
Proof. unfold UPDATE. apply map_app. Qed.

Lemma firstn_length_app {A} (l m : list A) : firstn (List.length l) (l ++ m) = l.
Proof. induction l as [|a l IH]; simpl; [now destruct m|now rewrite IH]. Qed.

(** X22. calculate_weekly_rewards fails only when the distribution
    percentage is not configured or the generated identifier is taken. A run
    that goes through returns the generated identifier, keeps every row that
    weekly_rewards and reward_distributions had, and appends to
    weekly_rewards exactly one row: the week from week_start_date to six days
    later, with the pool computed from the configured percentage, marked as
    calculated at the time of the run. Users, resources and votes are not
    written. *)
Theorem a_run_records_the_week
    (db : Database) (week_start_date : date) (reward_id : uuid) (now : timestamp) :
  match calculate_weekly_rewards db week_start_date reward_id now with
  | Some (id, db') =>
      id = reward_id
      /\ users db' = users db /\ resources db' = resources db /\ votes db' = votes db
      /\ firstn (List.length (reward_distributions db)) (reward_distributions db')
         = reward_distributions db
      /\ exists pool,
           total_pool_of db week_start_date (week_start_date + 6) = Some pool
           /\ weekly_rewards db'
              = (weekly_rewards db ++
                 [{| wr_id := reward_id; wr_week_start := week_start_date;
                     wr_week_end := week_start_date + 6; wr_total_pool_amount := pool;
                     wr_calculation_completed_at := Some now |}])%list
  | None =>
      weekly_distribution_percentage (system_config db) = None
      \/ fresh_reward_id db reward_id = false
  end.
Proof.
  unfold calculate_weekly_rewards, fresh_reward_id. cbv zeta.
  destruct (total_pool_of db week_start_date (week_start_date + 6)) as [pool|] eqn:P.
  - destruct (existsb _ (weekly_rewards db)) eqn:Taken; [now right|].
    cbn [users resources votes weekly_rewards reward_distributions with_rewards].
    repeat (split; [reflexivity|]). split; [apply firstn_length_app|].
    exists pool. split; [reflexivity|].
    rewrite UPDATE_app. f_equal.
    + apply UPDATE_untouched. intros x Hx.
      destruct (String.eqb (wr_id x) reward_id) eqn:E; [|reflexivity].
      assert (T : existsb (fun w => String.eqb (wr_id w) reward_id) (weekly_rewards db) = true)
        by (apply existsb_exists; now exists x).
      congruence.
    + unfold UPDATE. cbn [map wr_id]. now rewrite String.eqb_refl.
  - left. unfold total_pool_of in P.
    destruct (weekly_distribution_percentage (system_config db)); [discriminate|reflexivity].
Qed.

(** X23. The weeks of calculate_weekly_rewards share their boundary: a
    resource is in the window of two consecutive weeks exactly when it was
    created at the midnight between them, and it is then counted in the pool
    and, if approved with a positive quality score, ranked in both weeks. *)
Theorem consecutive_weeks_share_their_boundary (week_start_date : date) (r : Resource) :
  (in_week week_start_date (week_start_date + 6) r = true
   /\ in_week (week_start_date + 7) (week_start_date + 7 + 6) r = true
   <-> r_created_at r = date_to_timestamp (week_start_date + 7))
  /\ (eligible week_start_date (week_start_date + 6) r = true
      /\ eligible (week_start_date + 7) (week_start_date + 7 + 6) r = true
      <-> r_created_at r = date_to_timestamp (week_start_date + 7)
          /\ is_approved r = true
          /\ holds (GT (r_quality_score r) (Some 0%Q)) = true).
Proof.
  assert (W : in_week week_start_date (week_start_date + 6) r = true
              /\ in_week (week_start_date + 7) (week_start_date + 7 + 6) r = true
              <-> r_created_at r = date_to_timestamp (week_start_date + 7)).
  { unfold in_week, date_to_timestamp, days.
    rewrite !andb_true_iff, !Z.leb_le. lia. }
  split; [exact W|].
  unfold eligible. rewrite !andb_true_iff. tauto.
Qed.

(** ** Rounding *)

Lemma Qfloor_ge (k : Z) (y : Q) : (inject_Z k <= y)%Q -> k <= Qfloor y.
Proof.
  intros H. pose proof (Qlt_floor y) as L.
  assert (X : (inject_Z k < inject_Z (Qfloor y + 1))%Q) by lra.
  rewrite <- Zlt_Qlt in X. lia.
Qed.

Lemma Qfloor_lt_succ (k : Z) (y : Q) : (y < inject_Z (k + 1))%Q -> Qfloor y <= k.
Proof.
  intros H. pose proof (Qfloor_le y) as L.
  assert (X : (inject_Z (Qfloor y) < inject_Z (k + 1))%Q) by lra.
  rewrite <- Zlt_Qlt in X. lia.
Qed.

Lemma ROUND_le (k : Z) (x : Q) : (x <= inject_Z k)%Q -> ROUND x <= k.
Proof.
  intros H. unfold ROUND. destruct (Qle_bool 0 x) eqn:E.
  - apply Qfloor_lt_succ. rewrite inject_Z_plus. change (inject_Z 1) with 1%Q. lra.
  - assert (N : ~ (0 <= x)%Q) by (intros L; apply Qle_bool_iff in L; congruence).
    assert (G : - k <= Qfloor (- x + (1 # 2))).
    { apply Qfloor_ge. rewrite inject_Z_opp. lra. }
    lia.
Qed.

Lemma ROUND_ge (k : Z) (x : Q) : (inject_Z k <= x)%Q -> k <= ROUND x.
Proof.
  intros H. unfold ROUND. destruct (Qle_bool 0 x) eqn:E.
  - apply Qfloor_ge. lra.
  - assert (G : Qfloor (- x + (1 # 2)) <= - k).
    { apply Qfloor_lt_succ. rewrite inject_Z_plus, inject_Z_opp.
      change (inject_Z 1) with 1%Q. lra. }
    lia.
Qed.

(** ** Migration of the curated collection *)

Module MigrationFacts.
Import Migration.

Section Script.

Variable toLowerCase : string -> string.
Variable trim : string -> string.

Lemma categorizeResource_category resource :
  In (categorizeResource toLowerCase resource) categories.
Proof.
  unfold categorizeResource, categories, CATEGORY_MAPPING. cbv zeta. cbn [find fst].
  repeat match goal with
         | |- In (match (if ?b then _ else _) with _ => _ end) _ =>
             destruct b; [simpl; tauto|]
         end.
  cbn iota.
  repeat match goal with
         | |- In (if ?b then _ else _) _ => destruct b; [simpl; tauto|]
         end.
  simpl; tauto.
Qed.

Lemma video_hosts_are_videos resource :
  let url_ := toLowerCase (or_else (link resource) (or_else (url resource) "")) in
  includes url_ "youtube.com" || includes url_ "youtu.be"
  || includes url_ "vimeo.com" || includes url_ "ted.com" = true ->
  categorizeResource toLowerCase resource = "videos".
Proof.
  cbv zeta. unfold categorizeResource, CATEGORY_MAPPING. cbv zeta. cbn [find fst].
  destruct (includes _ "youtube.com"); [reflexivity|].
  destruct (includes _ "youtu.be"); [reflexivity|].
  destruct (includes _ "vimeo.com"); [reflexivity|].
  destruct (includes _ "ted.com"); [reflexivity|discriminate].
Qed.

(** X27. categorizeResource always gives one of the six categories of the
    schema, and a link to one of the four video hosts decides for videos
    whatever the title and the author say. *)
Theorem categories_are_those_of_the_schema (resource : LegacyResource) :
  In (categorizeResource toLowerCase resource) categories
  /\ (let url_ := toLowerCase (or_else (link resource) (or_else (url resource) "")) in
      includes url_ "youtube.com" || includes url_ "youtu.be"
      || includes url_ "vimeo.com" || includes url_ "ted.com" = true ->
      categorizeResource toLowerCase resource = "videos").
Proof.
  split; [apply categorizeResource_category|apply video_hosts_are_videos].
Qed.

Lemma In_new_Set (x : string) (l : list string) : In x (new_Set l) <-> In x l.
Proof.
  induction l as [|a l IH]; simpl; [tauto|].
  rewrite filter_In, IH, negb_true_iff, String.eqb_neq.
  destruct (string_dec x a) as [->|N]; [tauto|]. intuition congruence.
Qed.

Lemma NoDup_filter_kept {A} (p : A -> bool) (l : list A) : NoDup l -> NoDup (filter p l).
Proof.
  induction 1 as [|a l N _ IH]; simpl; [constructor|].
  destruct (p a); [|exact IH]. constructor; [|exact IH].
  intros H. apply filter_In in H. tauto.
Qed.

Lemma NoDup_new_Set (l : list string) : NoDup (new_Set l).
Proof.
  induction l as [|a l IH]; simpl; constructor.
  - intros H. apply filter_In in H. destruct H as [_ H].
    rewrite String.eqb_refl in H. discriminate.
  - now apply NoDup_filter_kept.
Qed.

Lemma NoDup_firstn_kept {A} (n : nat) (l : list A) : NoDup l -> NoDup (firstn n l).
Proof.
  intros N. revert n. induction N as [|a l H _ IH]; intros [|n]; simpl; try constructor.
  - intros I. apply In_firstn_In in I. contradiction.
  - apply IH.
Qed.

Lemma two_distinct_elements (l : list string) (a b : string) :
  a <> b -> In a l -> In b l -> (2 <= List.length (new_Set l))%nat.
Proof.
  intros N Ha Hb. apply In_new_Set in Ha, Hb.
  destruct (new_Set l) as [|x [|y m]]; simpl in *; try lia; try tauto.
  destruct Ha as [<-|[]], Hb as [<-|[]]. congruence.
Qed.

Lemma In_flat_map_if {A B} (c : A -> bool) (f : A -> list B) (l : list A) (y : B) :
  In y (flat_map (fun x => if c x then f x else []) l) -> In y (flat_map f l).
Proof.
  rewrite !in_flat_map. intros [x [Hx H]]. exists x. split; [exact Hx|].
  destruct (c x); [exact H|destruct H].
Qed.

(** X28. generateTags gives between two and five tags, without
    repetition, all from the vocabulary of the script. *)
Theorem tags_are_few_and_distinct (resource : LegacyResource) :
  let tags := generateTags toLowerCase resource in
  (2 <= List.length tags <= 5)%nat
  /\ NoDup tags
  /\ forall t, In t tags -> In t vocabulary.
Proof.
  cbv zeta. unfold generateTags. cbv zeta.
  set (found := flat_map _ TAG_MAPPING).
  pose proof (categorizeResource_category resource) as C.
  set (category := categorizeResource toLowerCase resource) in *.
  set (by_category :=
         if String.eqb category "videos" then ["visual"; "engaging"]
         else if String.eqb category "tools" then ["practical"; "useful"]
         else if String.eqb category "research" then ["deep"; "academic"]
         else if String.eqb category "philosophy" then ["thoughtful"; "wisdom"]
         else if String.eqb category "books" then ["educational"; "comprehensive"]
         else if String.eqb category "articles" then ["insightful"; "thought-provoking"]
         else []).
  assert (Two : exists a b, a <> b /\ In a by_category /\ In b by_category
                            /\ forall t, In t by_category -> In t vocabulary).
  { unfold categories in C. subst by_category.
    destruct C as [<-|[<-|[<-|[<-|[<-|[<-|[]]]]]]]; cbn [String.eqb Ascii.eqb Bool.eqb];
      do 2 eexists; (split; [|split; [left; reflexivity|split; [right; left; reflexivity|]]]);
      try discriminate;
      intros t [<-|[<-|[]]]; apply ANY_In; reflexivity. }
  destruct Two as [a [b [N [Ha [Hb V]]]]].
  split; [split|split].
  - rewrite length_firstn.
    pose proof (two_distinct_elements (found ++ by_category) a b N
                  (in_or_app _ _ _ (or_intror Ha)) (in_or_app _ _ _ (or_intror Hb))).
    lia.
  - apply firstn_le_length.
  - apply NoDup_firstn_kept, NoDup_new_Set.
  - intros t H. apply In_firstn_In, In_new_Set, in_app_or in H. destruct H as [H|H].
    + unfold vocabulary. apply in_or_app. left. subst found.
      now apply In_flat_map_if in H.
    + now apply V.
Qed.

Lemma floor_of_draw (random : Q) (n : Z) :
  (0 <= random < 1)%Q -> 0 < n -> 0 <= Qfloor (random * inject_Z n) <= n - 1.
Proof.
  intros [R0 R1] Hn.
  assert (N : (0 < inject_Z n)%Q) by (change 0%Q with (inject_Z 0); now rewrite <- Zlt_Qlt).
  split.
  - apply Qfloor_ge. change (inject_Z 0) with 0%Q. nra.
  - apply Qfloor_lt_succ. replace (n - 1 + 1) with n by lia. nra.
Qed.

Lemma estimateReadingTime_cases resource random :
  (0 <= random < 1)%Q ->
  let t := estimateReadingTime toLowerCase resource random in
  let url_ := toLowerCase (or_else (link resource) (or_else (url resource) "")) in
  5 <= t <= 419
  /\ (includes url_ "youtube.com" || includes url_ "youtu.be" || includes url_ "vimeo"
      = true -> 15 <= t <= 59).
Proof.
  intros R. cbv zeta. unfold estimateReadingTime. cbv zeta.
  pose proof (floor_of_draw random 45 R eq_refl) as F45.
  pose proof (floor_of_draw random 300 R eq_refl) as F300.
  pose proof (floor_of_draw random 20 R eq_refl) as F20.
  pose proof (floor_of_draw random 30 R eq_refl) as F30.
  pose proof (floor_of_draw random 60 R eq_refl) as F60.
  change (inject_Z 45) with 45%Q in F45. change (inject_Z 300) with 300%Q in F300.
  change (inject_Z 20) with 20%Q in F20. change (inject_Z 30) with 30%Q in F30.
  change (inject_Z 60) with 60%Q in F60.
  destruct (_ || _ || includes _ "vimeo"); [split; [lia|intros _; lia]|].
  split; [|discriminate].
  destruct (_ || _ || includes _ "handbook"); [lia|].
  destruct (_ || _ || includes _ "blog"); [lia|].
  destruct (_ || includes _ "app"); lia.
Qed.

(** X29. With a draw in [0, 1), estimateReadingTime gives between 5 and 419
    minutes, and between 15 and 59 for a link to YouTube or Vimeo. *)
Theorem reading_time_is_within_range (resource : LegacyResource) (random : Q) :
  (0 <= random < 1)%Q ->
  let t := estimateReadingTime toLowerCase resource random in
  let url_ := toLowerCase (or_else (link resource) (or_else (url resource) "")) in
  5 <= t <= 419
  /\ (includes url_ "youtube.com" || includes url_ "youtu.be" || includes url_ "vimeo"
      = true -> 15 <= t <= 59).
Proof. apply estimateReadingTime_cases. Qed.


End Script.

(** The trending score of a migrated row is a JavaScript number, and reaches
    5 for the largest draw below 1. *)
Example migrated_trending_score_reaches_five :
  (0.9999999999999999 * 3 + 2 = 5)%float /\ (0 * 3 + 2 = 2)%float.
Proof. split; reflexivity. Qed.

Lemma reading_time_is_within_range_witness :
  5 <= estimateReadingTime (fun s => s) a_talk 0.5 <= 419
  /\ (includes (or_else (link a_talk) (or_else (url a_talk) "")) "youtube.com"
      || includes (or_else (link a_talk) (or_else (url a_talk) "")) "youtu.be"
      || includes (or_else (link a_talk) (or_else (url a_talk) "")) "vimeo" = true ->
      15 <= estimateReadingTime (fun s => s) a_talk 0.5 <= 59).
Proof.
  apply (reading_time_is_within_range (fun s => s) a_talk 0.5).
  split; [discriminate|reflexivity].
Defined.


End MigrationFacts.
